(** * Day planner: web cabinet client and scheduling engine

    The development has three layers.

    - [JS]: the fragment of the ECMAScript run-time the client relies on
      (numbers with NaN, string conversion, [split], [padStart], [trim],
      and the [Date] object with its proleptic Gregorian calendar, the
      local time zone of the platform and the range of time values).
    - [App]: the functions of the web cabinet script that compute task
      durations, dates and the bodies of the PATCH requests.
    - [Engine]: the scheduling engine (anchor resolver, free-time
      calculator, slot finder, autoplan), which lives on the server.

    Times are integers: milliseconds since the epoch on the client,
    minutes on the engine side. *)

From Stdlib Require Import ZArith List String Ascii Bool Lia.
Import ListNotations.
Open Scope string_scope.
Open Scope Z_scope.

Module JS.

(** ** Numbers

    The client only ever computes with integers and NaN: identifiers,
    priorities, minutes, calendar fields and time values. *)

Inductive JsNum : Type :=
| NaN
| Num (z : Z).

(** ToBoolean on a number: NaN and 0 are falsy. *)
Definition num_truthy (x : JsNum) : bool :=
  match x with
  | NaN => false
  | Num z => negb (z =? 0)
  end.

Definition num_isNaN (x : JsNum) : bool :=
  match x with
  | NaN => true
  | Num _ => false
  end.

Definition num_add (a b : JsNum) : JsNum :=
  match a, b with
  | Num x, Num y => Num (x + y)
  | _, _ => NaN
  end.

Definition num_sub (a b : JsNum) : JsNum :=
  match a, b with
  | Num x, Num y => Num (x - y)
  | _, _ => NaN
  end.

Definition num_mul (a b : JsNum) : JsNum :=
  match a, b with
  | Num x, Num y => Num (x * y)
  | _, _ => NaN
  end.

(** The [%] operator: the result takes the sign of the dividend. *)
Definition num_rem (a b : JsNum) : JsNum :=
  match a, b with
  | Num x, Num y => if y =? 0 then NaN else Num (Z.rem x y)
  | _, _ => NaN
  end.

(** [a > 0]; any comparison with NaN is false. *)
Definition num_gt0 (a : JsNum) : bool :=
  match a with
  | NaN => false
  | Num x => 0 <? x
  end.

(** [Math.round(a / d)] for a positive integer constant [d]: the
    quotient is rounded to the nearest integer, halves going up. *)
Definition Math_round_div (a : JsNum) (d : Z) : JsNum :=
  match a with
  | NaN => NaN
  | Num x => Num ((2 * x + d) / (2 * d))
  end.

(** ** Strings

    A string is the sequence of bytes of its UTF-8 encoding.  The
    functions below work on ASCII separators, digits and signs, which
    are single bytes that occur nowhere inside the encoding of another
    character. *)

Definition digit_char (d : Z) : ascii := ascii_of_nat (48 + Z.to_nat d).

Fixpoint digits (fuel : nat) (n : Z) (acc : string) : string :=
  match fuel with
  | O => acc
  | S fuel' =>
      let acc' := String (digit_char (n mod 10)) acc in
      if n <? 10 then acc' else digits fuel' (n / 10) acc'
  end.

(** Decimal numeral of a non-negative integer; a numeral has at most
    [log2 n + 1] digits. *)
Definition decimal (n : Z) : string :=
  digits (S (Z.to_nat (Z.log2 n))) n "".

(** [String(x)] and template-literal interpolation of a number, for
    integers below 10^21 in magnitude, which [String] writes with all
    their digits. *)
Definition ToString (x : JsNum) : string :=
  match x with
  | NaN => "NaN"
  | Num z => if z <? 0 then String "-" (decimal (- z)) else decimal z
  end.

Fixpoint repeat_char (c : ascii) (n : nat) : string :=
  match n with
  | O => ""
  | S k => String c (repeat_char c k)
  end.

(** [s.padStart(len, c)] with a one-character filler. *)
Definition padStart (len : nat) (c : ascii) (s : string) : string :=
  repeat_char c (len - String.length s) ++ s.

(** [s.split(sep)] with a one-character separator. *)
Fixpoint split (sep : ascii) (s : string) : list string :=
  match s with
  | EmptyString => [EmptyString]
  | String c rest =>
      if Ascii.eqb c sep then EmptyString :: split sep rest
      else match split sep rest with
           | [] => [String c EmptyString]
           | h :: t => String c h :: t
           end
  end.

Definition is_digit (c : ascii) : bool :=
  let n := Z.of_nat (nat_of_ascii c) in
  (48 <=? n) && (n <=? 57).

Definition digit_val (c : ascii) : Z := Z.of_nat (nat_of_ascii c) - 48.

Fixpoint string_rev (s acc : string) : string :=
  match s with
  | EmptyString => acc
  | String c rest => string_rev rest (String c acc)
  end.

Definition bytes (l : list nat) : string :=
  fold_right (fun n s => String (ascii_of_nat n) s) "" l.

(** The code points [trim] and the number parsers strip (WhiteSpace and
    LineTerminator of ECMAScript), each as its UTF-8 bytes: U+0009 to
    U+000D, U+0020, U+00A0, U+1680, U+2000 to U+200A, U+2028, U+2029,
    U+202F, U+205F, U+3000 and U+FEFF. *)
Definition white_space : list string :=
  map bytes
    [[9]; [10]; [11]; [12]; [13]; [32]; [194; 160]; [225; 154; 128];
     [226; 128; 128]; [226; 128; 129]; [226; 128; 130]; [226; 128; 131];
     [226; 128; 132]; [226; 128; 133]; [226; 128; 134]; [226; 128; 135];
     [226; 128; 136]; [226; 128; 137]; [226; 128; 138]; [226; 128; 168];
     [226; 128; 169]; [226; 128; 175]; [226; 129; 159]; [227; 128; 128];
     [239; 187; 191]]%nat.

(** What is left of [s] after the prefix [p]. *)
Fixpoint drop_prefix (p s : string) : option string :=
  match p, s with
  | EmptyString, _ => Some s
  | String a p', String b s' => if Ascii.eqb a b then drop_prefix p' s' else None
  | String _ _, EmptyString => None
  end.

(** What is left of [s] after the first of [pats] it starts with. *)
Fixpoint drop_first (pats : list string) (s : string) : option string :=
  match pats with
  | [] => None
  | p :: rest =>
      match drop_prefix p s with
      | Some s' => Some s'
      | None => drop_first rest s
      end
  end.

(** Drop leading occurrences of [pats]; [fuel] bounds their number. *)
Fixpoint strip (pats : list string) (fuel : nat) (s : string) : string :=
  match fuel with
  | O => s
  | S k =>
      match drop_first pats s with
      | Some s' => strip pats k s'
      | None => s
      end
  end.

Definition trim_left (s : string) : string :=
  strip white_space (String.length s) s.

Definition trim_right (s : string) : string :=
  string_rev
    (strip (map (fun p => string_rev p "") white_space) (String.length s)
           (string_rev s ""))
    "".

(** [s.trim()]. *)
Definition trim (s : string) : string := trim_right (trim_left s).

(** Value of a string of decimal digits; [None] on any other character. *)
Fixpoint digits_value (s : string) (acc : Z) : option Z :=
  match s with
  | EmptyString => Some acc
  | String c rest =>
      if is_digit c then digits_value rest (acc * 10 + digit_val c) else None
  end.

Definition unsigned_literal (s : string) : JsNum :=
  match s with
  | EmptyString => NaN
  | _ => match digits_value s 0 with
         | Some z => Num z
         | None => NaN
         end
  end.

(** [Number(s)] on the strings the client applies it to, the fields of
    a date string and of a time string: surrounding white space is
    dropped, the empty string is 0, a signed run of decimal digits is
    its value.  Day keys come from [isoDate] and the other date and time
    strings from date and time inputs, whose fields are runs of digits.
    Numbers are integers here: a literal with a fraction, an exponent or
    a radix prefix, and the word Infinity, which [Number] also reads,
    have no value of this type and are read as NaN, so a handler stops
    on such a field where the script would go on with the number. *)
Definition ToNumber (s : string) : JsNum :=
  match trim s with
  | EmptyString => Num 0
  | String "+" rest => unsigned_literal rest
  | String "-" rest => num_sub (Num 0) (unsigned_literal rest)
  | t => unsigned_literal t
  end.

(** Longest prefix of decimal digits and its value. *)
Fixpoint digit_prefix (s : string) (acc : Z) (seen : bool) : JsNum :=
  match s with
  | EmptyString => if seen then Num acc else NaN
  | String c rest =>
      if is_digit c then digit_prefix rest (acc * 10 + digit_val c) true
      else if seen then Num acc else NaN
  end.

(** [parseInt(s, 10)]. *)
Definition parseInt10 (s : string) : JsNum :=
  match trim_left s with
  | String "+" rest => digit_prefix rest 0 false
  | String "-" rest => num_sub (Num 0) (digit_prefix rest 0 false)
  | t => digit_prefix t 0 false
  end.

(** ToBoolean on a string: only the empty string is falsy. *)
Definition str_truthy (s : string) : bool :=
  match s with
  | EmptyString => false
  | _ => true
  end.

(** ** Calendar

    Day numbers count days since 1970-01-01 in the proleptic Gregorian
    calendar.  The two conversions work on years that begin on 1 March,
    grouped in eras of 400 years (146097 days). *)

Definition is_leap (y : Z) : bool :=
  (y mod 4 =? 0) && (negb (y mod 100 =? 0) || (y mod 400 =? 0)).

Definition days_in_month (y m : Z) : Z :=
  if m =? 2 then (if is_leap y then 29 else 28)
  else if (m =? 4) || (m =? 6) || (m =? 9) || (m =? 11) then 30
  else 31.

Definition days_from_civil (y m d : Z) : Z :=
  let y' := if m <=? 2 then y - 1 else y in
  let era := y' / 400 in
  let yoe := y' - era * 400 in
  let mp := if 2 <? m then m - 3 else m + 9 in
  let doy := (153 * mp + 2) / 5 + d - 1 in
  let doe := yoe * 365 + yoe / 4 - yoe / 100 + doy in
  era * 146097 + doe - 719468.

Definition civil_from_days (z : Z) : Z * Z * Z :=
  let z' := z + 719468 in
  let era := z' / 146097 in
  let doe := z' - era * 146097 in
  let yoe := (doe - doe / 1460 + doe / 36524 - doe / 146096) / 365 in
  let doy := doe - (365 * yoe + yoe / 4 - yoe / 100) in
  let mp := (5 * doy + 2) / 153 in
  let d := doy - (153 * mp + 2) / 5 + 1 in
  let m := if mp <? 10 then mp + 3 else mp - 9 in
  ((if m <=? 2 then yoe + era * 400 + 1 else yoe + era * 400), m, d).

(** ** Time values (ECMAScript, section "Date objects") *)

Definition msPerDay : Z := 86400000.
Definition msPerHour : Z := 3600000.
Definition msPerMinute : Z := 60000.
Definition msPerSecond : Z := 1000.

Definition Day (t : Z) : Z := t / msPerDay.
Definition TimeWithinDay (t : Z) : Z := t mod msPerDay.

Definition YearFromTime (t : Z) : Z := fst (fst (civil_from_days (Day t))).
(** Months are numbered from 0. *)
Definition MonthFromTime (t : Z) : Z := snd (fst (civil_from_days (Day t))) - 1.
Definition DateFromTime (t : Z) : Z := snd (civil_from_days (Day t)).
(** 0 is Sunday; 1970-01-01 was a Thursday. *)
Definition WeekDay (t : Z) : Z := (Day t + 4) mod 7.
Definition HourFromTime (t : Z) : Z := (t / msPerHour) mod 24.
Definition MinFromTime (t : Z) : Z := (t / msPerMinute) mod 60.
Definition SecFromTime (t : Z) : Z := (t / msPerSecond) mod 60.
Definition msFromTime (t : Z) : Z := t mod msPerSecond.

Definition MakeTime (hour min sec ms : Z) : Z :=
  hour * msPerHour + min * msPerMinute + sec * msPerSecond + ms.

(** The month may lie outside 0..11 and the date outside the month:
    both roll over. *)
Definition MakeDay (year month date : Z) : Z :=
  days_from_civil (year + month / 12) (month mod 12 + 1) 1 + date - 1.

Definition MakeDate (day time : Z) : Z := day * msPerDay + time.

(** ** Date objects

    A Date holds a time value or is invalid.  A time value is at most
    8.64e15 ms away from the epoch: [TimeClip] makes any other number an
    invalid Date. *)

Inductive JsDate : Type :=
| InvalidDate
| DateAt (t : Z).

Definition maxTime : Z := 8640000000000000.

Definition TimeClip (v : Z) : JsDate :=
  if Z.abs v <=? maxTime then DateAt v else InvalidDate.

(** A zone whose offset never changes. *)
Definition fixed_offset (o : Z) : Z -> bool -> Z := fun _ _ => o.

Section LocalTime.

(** The time zone of the platform, as the abstract operation
    LocalTZA(t, isUTC) of ECMAScript: [tza t true] is the offset of
    local time at the instant [t]; [tza x false] is the offset by which
    the local time value [x] is read, which for a local time that a
    change of offset skips or repeats is a choice of the platform. *)
Variable tza : Z -> bool -> Z.

Definition LocalTime (t : Z) : Z := t + tza t true.
Definition UTC (t : Z) : Z := t - tza t false.

(** The local time value [x] exists in the zone: the instant it is read
    as is a time value whose local time is [x] again.  A local time that
    an offset change skips does not exist. *)
Definition local_exists (x : Z) : Prop :=
  Z.abs (UTC x) <= maxTime /\ LocalTime (UTC x) = x.

(** [new Date(year, month, date, hours, minutes, seconds, ms)]: a year
    from 0 to 99 stands for 1900 + year. *)
Definition Date_of_fields (year month date hours minutes seconds ms : JsNum)
  : JsDate :=
  match year, month, date, hours, minutes, seconds, ms with
  | Num y, Num m, Num dt, Num h, Num mi, Num s, Num milli =>
      let yr := if (0 <=? y) && (y <=? 99) then 1900 + y else y in
      TimeClip (UTC (MakeDate (MakeDay yr m dt) (MakeTime h mi s milli)))
  | _, _, _, _, _, _, _ => InvalidDate
  end.

(** [new Date(number)]. *)
Definition Date_of_time (x : JsNum) : JsDate :=
  match x with
  | NaN => InvalidDate
  | Num t => TimeClip t
  end.

Definition getTime (d : JsDate) : JsNum :=
  match d with
  | InvalidDate => NaN
  | DateAt t => Num t
  end.

Definition local_field (f : Z -> Z) (d : JsDate) : JsNum :=
  match d with
  | InvalidDate => NaN
  | DateAt t => Num (f (LocalTime t))
  end.

Definition getFullYear : JsDate -> JsNum := local_field YearFromTime.
Definition getMonth : JsDate -> JsNum := local_field MonthFromTime.
Definition getDate : JsDate -> JsNum := local_field DateFromTime.
Definition getDay : JsDate -> JsNum := local_field WeekDay.
Definition getHours : JsDate -> JsNum := local_field HourFromTime.
Definition getMinutes : JsDate -> JsNum := local_field MinFromTime.
Definition getSeconds : JsDate -> JsNum := local_field SecFromTime.
Definition getMilliseconds : JsDate -> JsNum := local_field msFromTime.

(** [d.setHours(h, m, s, ms)], as the updated Date. *)
Definition setHours (d : JsDate) (h m s ms : JsNum) : JsDate :=
  match d, h, m, s, ms with
  | DateAt t, Num h', Num m', Num s', Num ms' =>
      TimeClip (UTC (MakeDate (Day (LocalTime t)) (MakeTime h' m' s' ms')))
  | _, _, _, _, _ => InvalidDate
  end.

(** [d.setDate(dt)], as the updated Date. *)
Definition setDate (d : JsDate) (dt : JsNum) : JsDate :=
  match d, dt with
  | DateAt t, Num n =>
      let lt := LocalTime t in
      TimeClip (UTC (MakeDate (MakeDay (YearFromTime lt) (MonthFromTime lt) n)
                              (TimeWithinDay lt)))
  | _, _ => InvalidDate
  end.

End LocalTime.

End JS.

Module App.

Import JS.

(** ** Tasks as the server returns them

    A field that can be JSON [null] is an [option].  [planned_start],
    [planned_end] and [due_at] are date-time strings. *)

Record Task : Type := {
  id : Z;
  title : string;
  notes : option string;
  priority : option Z;
  planned_start : option string;
  planned_end : option string;
  due_at : option string;
  estimate_minutes : option Z;
  is_done : bool
}.

(** ToBoolean on a nullable string field. *)
Definition field_truthy (f : option string) : bool :=
  match f with
  | Some s => str_truthy s
  | None => false
  end.

(** [f || dflt] on a nullable number. *)
Definition number_or (f : option Z) (dflt : Z) : Z :=
  match f with
  | Some z => if z =? 0 then dflt else z
  | None => dflt
  end.

(** An element taken from an array by destructuring: [None] is
    [undefined]. *)
Definition elem_truthy (x : option JsNum) : bool :=
  match x with
  | Some n => num_truthy n
  | None => false
  end.

(** [Number.isNaN] is false on [undefined]. *)
Definition elem_isNaN (x : option JsNum) : bool :=
  match x with
  | Some n => num_isNaN n
  | None => false
  end.

(** ToNumber on an array element: [undefined] becomes NaN. *)
Definition elem_num (x : option JsNum) : JsNum :=
  match x with
  | Some n => n
  | None => NaN
  end.

(** ** Request bodies

    A key of the JSON body is left out, [null], or carries a value. *)

Inductive Field (A : Type) : Type :=
| Omitted
| Null
| Value (a : A).

Arguments Omitted {A}.
Arguments Null {A}.
Arguments Value {A} a.

Record Payload : Type := {
  p_title : Field string;
  p_notes : Field string;
  p_priority : Field Z;
  p_is_done : Field bool;
  p_planned_start : Field string;
  p_planned_end : Field string;
  p_schedule_source : Field string
}.

(** The body [{ planned_start, planned_end, schedule_source }]. *)
Definition placement_body (ps pe : Field string) (src : string) : Payload :=
  {| p_title := Omitted; p_notes := Omitted; p_priority := Omitted;
     p_is_done := Omitted; p_planned_start := ps; p_planned_end := pe;
     p_schedule_source := Value src |}.

(** Calls the client makes on the task API: [patchTask] and
    [deleteTask]. *)
Inductive Request : Type :=
| PATCH (taskId : Z) (body : Payload)
| DELETE (taskId : Z).

(** [taskIndex]: a Map from [String(task.id)] to the task; the entry
    registered last is at the head. *)
Definition TaskIndex : Type := list (string * Task).

Definition registerTask (idx : TaskIndex) (task : Task) : TaskIndex :=
  (ToString (Num (id task)), task) :: idx.

Fixpoint taskIndex_get (idx : TaskIndex) (key : string) : option Task :=
  match idx with
  | [] => None
  | (k, t) :: rest => if String.eqb k key then Some t else taskIndex_get rest key
  end.

(** The data a drop event carries.  The later revision of the script
    reads it through [getDraggedTaskId], which falls back on the
    identifier noted at drag start when the event carries none; a drop
    of that revision is the event whose plain data is what
    [getDraggedTaskId] returns. *)
Record DropEvent : Type := {
  data_task_id : string;
  data_plain : string
}.

(** [getData('text/task-id') || getData('text/plain')]. *)
Definition dropped_id (ev : DropEvent) : string :=
  if str_truthy (data_task_id ev) then data_task_id ev else data_plain ev.

(** [handleDragStart]: the identifier is stored as text under
    'text/plain' and, unless the browser refuses the custom type, under
    'text/task-id'; a type that was not set reads as the empty string. *)
Definition handleDragStart (taskId : Z) (custom_type_ok : bool) : DropEvent :=
  {| data_task_id := if custom_type_ok then ToString (Num taskId) else "";
     data_plain := ToString (Num taskId) |}.

(** State of the action buttons ([disabled] attributes). *)
Record Buttons : Type := {
  markDone_disabled : bool;
  deleteTask_disabled : bool;
  moveTask_disabled : bool;
  unscheduleTask_disabled : bool
}.

Definition setActionButtonsEnabled (enabled : bool) (task : option Task)
  : Buttons :=
  {| markDone_disabled := negb enabled;
     deleteTask_disabled := negb enabled;
     moveTask_disabled := negb enabled;
     unscheduleTask_disabled :=
       if negb enabled then true
       else match task with
            | None => true
            | Some t => negb (field_truthy (planned_start t))
            end |}.

Section Client.

(** The time zone of the platform and its [new Date(string)]. *)
Variable tza : Z -> bool -> Z.
Variable Date_parse : string -> JsDate.

Definition is_invalid (d : JsDate) : bool :=
  match d with
  | InvalidDate => true
  | DateAt _ => false
  end.

(** A nullable date-time string that is set and does not parse.  The
    formatters [TIME_FMT] and [DATE_FMT] throw a RangeError on the Date
    made from it. *)
Definition unparsable (f : option string) : bool :=
  match f with
  | Some s => str_truthy s && is_invalid (Date_parse s)
  | None => false
  end.

(** [formatTimeRange] formats planned_start when it is set, and then
    planned_end when it is set; it throws when the formatter does. *)
Definition formatTimeRange_throws (task : Task) : bool :=
  field_truthy (planned_start task)
  && (unparsable (planned_start task) || unparsable (planned_end task)).

(** [updateSelectedTaskInfo] formats planned_start when it is set, and
    due_at otherwise when that is set. *)
Definition updateSelectedTaskInfo_throws (task : Task) : bool :=
  if field_truthy (planned_start task) then unparsable (planned_start task)
  else unparsable (due_at task).

Definition pad2 (x : JsNum) : string := padStart 2 "0" (ToString x).

Definition formatDateInput (dateObj : JsDate) : string :=
  let year := getFullYear tza dateObj in
  let month := pad2 (num_add (getMonth tza dateObj) (Num 1)) in
  let day := pad2 (getDate tza dateObj) in
  ToString year ++ "-" ++ month ++ "-" ++ day.

Definition formatTimeInput (hour minute : JsNum) : string :=
  pad2 hour ++ ":" ++ pad2 minute.

Definition getTaskDurationMinutes (task : Task) : Z :=
  let fallback := number_or (estimate_minutes task) 30 in
  match planned_start task, planned_end task with
  | Some ps, Some pe =>
      if str_truthy ps && str_truthy pe then
        let start := Date_parse ps in
        let end_ := Date_parse pe in
        let diff := Math_round_div (num_sub (getTime end_) (getTime start)) 60000 in
        match diff with
        | Num n => if 0 <? n then n else fallback
        | NaN => fallback
        end
      else fallback
  | _, _ => fallback
  end.

(** [null] is [None]; a Date, valid or not, is [Some]. *)
Definition parseLocalDateTime (dateValue timeValue : string) : option JsDate :=
  if negb (str_truthy dateValue) || negb (str_truthy timeValue) then None
  else
    let dparts := map ToNumber (split "-" dateValue) in
    let tparts := map ToNumber (split ":" timeValue) in
    let year := nth_error dparts 0 in
    let month := nth_error dparts 1 in
    let day := nth_error dparts 2 in
    let hour := nth_error tparts 0 in
    let minute := nth_error tparts 1 in
    if negb (elem_truthy year) || negb (elem_truthy month) || negb (elem_truthy day)
    then None
    else if elem_isNaN hour || elem_isNaN minute then None
    else Some (Date_of_fields tza (elem_num year)
                 (num_sub (elem_num month) (Num 1)) (elem_num day)
                 (elem_num hour) (elem_num minute) (Num 0) (Num 0)).

Definition toLocalIsoString (dateObj : JsDate) : string :=
  (ToString (getFullYear tza dateObj) ++ "-"
   ++ pad2 (num_add (getMonth tza dateObj) (Num 1)) ++ "-"
   ++ pad2 (getDate tza dateObj))
  ++ "T"
  ++ (pad2 (getHours tza dateObj) ++ ":" ++ pad2 (getMinutes tza dateObj) ++ ":00").

Definition startOfWeek (date : JsDate) : JsDate :=
  let d := date in
  let d := setHours tza d (Num 0) (Num 0) (Num 0) (Num 0) in
  let day := getDay tza d in
  let diff := num_rem (num_add day (Num 6)) (Num 7) in
  setDate tza d (num_sub (getDate tza d) diff).

Definition addDays (date : JsDate) (offset : Z) : JsDate :=
  setDate tza date (num_add (getDate tza date) (Num offset)).

Definition isoDate (date : JsDate) : string :=
  let year := getFullYear tza date in
  let month := pad2 (num_add (getMonth tza date) (Num 1)) in
  let day := pad2 (getDate tza date) in
  ToString year ++ "-" ++ month ++ "-" ++ day.

(** [new Date(start.getTime() + minutes * 60000)]. *)
Definition end_after (start : JsDate) (minutes : JsNum) : JsDate :=
  Date_of_time (num_add (getTime start) (num_mul minutes (Num 60000))).

(** The body every manual placement sends. *)
Definition manual_placement (start end_ : JsDate) : Payload :=
  placement_body (Value (toLocalIsoString start)) (Value (toLocalIsoString end_))
                 "manual".

(** The body that returns a task to the backlog. *)
Definition unschedule_body : Payload := placement_body Null Null "manual".

(** ** Event handlers

    A handler is modelled by the list of requests it issues, in order;
    the empty list is an early return. *)

(** The date parts [dateStr.split('-').map(Number)] of a day key. *)
Definition date_parts (dateStr : string) : list JsNum :=
  map ToNumber (split "-" dateStr).

Definition handleDropOnDay (idx : TaskIndex) (ev : DropEvent) (dateStr : string)
  : list Request :=
  let taskId := dropped_id ev in
  if negb (str_truthy taskId) then []
  else match taskIndex_get idx taskId with
       | None => []
       | Some task =>
           let year := nth_error (date_parts dateStr) 0 in
           let month := nth_error (date_parts dateStr) 1 in
           let day := nth_error (date_parts dateStr) 2 in
           if negb (elem_truthy year) || negb (elem_truthy month)
              || negb (elem_truthy day)
           then []
           else
             let hm :=
               match planned_start task with
               | Some ps =>
                   if str_truthy ps
                   then (getHours tza (Date_parse ps), getMinutes tza (Date_parse ps))
                   else (Num 9, Num 0)
               | None => (Num 9, Num 0)
               end in
             let start :=
               Date_of_fields tza (elem_num year)
                 (num_sub (elem_num month) (Num 1)) (elem_num day)
                 (fst hm) (snd hm) (Num 0) (Num 0) in
             let duration := getTaskDurationMinutes task in
             let end_ := end_after start (Num duration) in
             [PATCH (id task) (manual_placement start end_)]
       end.

Definition handleDropOnSlot (idx : TaskIndex) (ev : DropEvent)
  (dateStr timeStr : string) : list Request :=
  let taskId := dropped_id ev in
  if negb (str_truthy taskId) then []
  else match taskIndex_get idx taskId with
       | None => []
       | Some task =>
           match parseLocalDateTime dateStr timeStr with
           | None => []
           | Some start =>
               let duration := getTaskDurationMinutes task in
               let end_ := end_after start (Num duration) in
               [PATCH (id task) (manual_placement start end_)]
           end
       end.

Definition handleDropOnBacklog (idx : TaskIndex) (ev : DropEvent)
  : list Request :=
  let taskId := dropped_id ev in
  if negb (str_truthy taskId) then []
  else match taskIndex_get idx taskId with
       | None => []
       | Some task =>
           if negb (field_truthy (planned_start task)) then []
           else [PATCH (id task) unschedule_body]
       end.

(** The priority pill of [createPriorityElement]: the priority its click
    handler asks for. *)
Definition nextPriority (task : Task) : Z :=
  let current := number_or (priority task) 2 in
  if 3 <=? current then 1 else current + 1.

Definition priorityClick (task : Task) : list Request :=
  [PATCH (id task)
     {| p_title := Omitted; p_notes := Omitted;
        p_priority := Value (nextPriority task); p_is_done := Omitted;
        p_planned_start := Omitted; p_planned_end := Omitted;
        p_schedule_source := Omitted |}].

(** [startTitleEdit] followed by its [finalize(save)]; [editing] tells
    whether the item was already being edited, [input] is the text of
    the input box. *)
Definition titleEdit (task : Task) (editing save : bool) (input : string)
  : list Request :=
  if editing then []
  else
    let newTitle := trim input in
    if negb save || negb (str_truthy newTitle) || String.eqb newTitle (title task)
    then []
    else [PATCH (id task)
            {| p_title := Value newTitle; p_notes := Omitted;
               p_priority := Omitted; p_is_done := Omitted;
               p_planned_start := Omitted; p_planned_end := Omitted;
               p_schedule_source := Omitted |}].

(** [startTimeEdit] followed by its [finalize(save)]; [dataset_day] is
    [item.dataset.day] and [input] the value of the time box.
    [finalize] first puts the time element back, which calls
    [formatTimeRange]: when that throws, nothing is sent. *)
Definition timeEdit (task : Task) (dataset_day : option string)
  (editing save : bool) (input : string) : list Request :=
  if editing then []
  else
    let baseDate :=
      if field_truthy (planned_start task)
      then option_map Date_parse (planned_start task) else None in
    let fallbackDay :=
      if field_truthy dataset_day then option_map Date_parse dataset_day
      else None in
    let day := match baseDate with Some d => Some d | None => fallbackDay end in
    match day with
    | None => []
    | Some day =>
        if formatTimeRange_throws task then []
        else if negb save then []
        else if negb (str_truthy input) then []
        else match parseLocalDateTime (formatDateInput day) input with
             | None => []
             | Some start =>
                 let duration := getTaskDurationMinutes task in
                 let end_ := end_after start (Num duration) in
                 [PATCH (id task) (manual_placement start end_)]
             end
    end.

(** [startNotesEdit] followed by its [finalize(save)]. *)
Definition notesEdit (task : Task) (editing save : bool) (input : string)
  : list Request :=
  if editing then []
  else if negb save then []
  else
    let value := trim input in
    let nextNotes := if str_truthy value then Some value else None in
    let current := if field_truthy (notes task) then notes task else None in
    let same :=
      match current, nextNotes with
      | None, None => true
      | Some a, Some b => String.eqb a b
      | _, _ => false
      end in
    if same then []
    else [PATCH (id task)
            {| p_title := Omitted;
               p_notes := match nextNotes with
                          | Some v => Value v
                          | None => Null
                          end;
               p_priority := Omitted; p_is_done := Omitted;
               p_planned_start := Omitted; p_planned_end := Omitted;
               p_schedule_source := Omitted |}].

(** The side panel: the selected task and the inputs of the move form. *)
Record Panel : Type := {
  taskIndex : TaskIndex;
  selectedTaskId : option Z;
  moveDate : string;
  moveTime : string;
  moveMinutes : string
}.

Definition getSelectedTask (ui : Panel) : option Task :=
  match selectedTaskId ui with
  | None => None
  | Some k =>
      if k =? 0 then None
      else taskIndex_get (taskIndex ui) (ToString (Num k))
  end.

Definition handleMarkDone (ui : Panel) : list Request :=
  match getSelectedTask ui with
  | None => []
  | Some task =>
      [PATCH (id task)
         {| p_title := Omitted; p_notes := Omitted; p_priority := Omitted;
            p_is_done := Value (negb (is_done task));
            p_planned_start := Omitted; p_planned_end := Omitted;
            p_schedule_source := Omitted |}]
  end.

(** [confirmed] is the answer to [window.confirm]. *)
Definition handleDelete (ui : Panel) (confirmed : bool) : list Request :=
  match getSelectedTask ui with
  | None => []
  | Some task => if confirmed then [DELETE (id task)] else []
  end.

Definition handleUnschedule (ui : Panel) : list Request :=
  match getSelectedTask ui with
  | None => []
  | Some task => [PATCH (id task) unschedule_body]
  end.

Definition handleMove (ui : Panel) : list Request :=
  match getSelectedTask ui with
  | None => []
  | Some task =>
      let dateValue := moveDate ui in
      let timeValue := moveTime ui in
      if negb (str_truthy dateValue) || negb (str_truthy timeValue) then []
      else match parseLocalDateTime dateValue timeValue with
           | None => []
           | Some start =>
               let typed := parseInt10 (moveMinutes ui) in
               let minutes :=
                 if num_truthy typed then typed
                 else Num (getTaskDurationMinutes task) in
               let end_ := end_after start minutes in
               [PATCH (id task) (manual_placement start end_)]
           end
  end.

(** Later revision of the script: a task dropped on another task takes
    its time, and the two swap when they are planned on the same day.
    [dragged] is the result of [getDraggedTaskId]. *)
Definition handleDropOnTask (idx : TaskIndex) (dragged : string)
  (targetTaskId : Z) : list Request :=
  if negb (str_truthy dragged) || String.eqb dragged (ToString (Num targetTaskId))
  then []
  else
    match taskIndex_get idx dragged,
          taskIndex_get idx (ToString (Num targetTaskId)) with
    | Some task, Some target =>
        match planned_start target with
        | None => []
        | Some tps =>
            if negb (str_truthy tps) then []
            else
              let targetStart := Date_parse tps in
              let targetEnd :=
                if field_truthy (planned_end target)
                then match planned_end target with
                     | Some tpe => Date_parse tpe
                     | None => InvalidDate
                     end
                else end_after targetStart (Num (getTaskDurationMinutes target)) in
              let move_only :=
                let duration := getTaskDurationMinutes task in
                let end_ := end_after targetStart (Num duration) in
                [PATCH (id task) (manual_placement targetStart end_)] in
              match planned_start task, planned_end task with
              | Some ps, Some pe =>
                  if str_truthy ps && str_truthy pe then
                    let taskStart := Date_parse ps in
                    let taskEnd := Date_parse pe in
                    if String.eqb (isoDate taskStart) (isoDate targetStart)
                    then [PATCH (id task) (manual_placement targetStart targetEnd);
                          PATCH (id target) (manual_placement taskStart taskEnd)]
                    else move_only
                  else move_only
              | _, _ => move_only
              end
        end
    | _, _ => []
    end.

(** ** Handler calls

    Every place where the script calls [patchTask] or [deleteTask] is an
    event handler; these are all of them.  A [UiAction] is one call of
    one handler. *)
Inductive UiAction : Type :=
| DropOnDay (ev : DropEvent) (dateStr : string)
| DropOnSlot (ev : DropEvent) (dateStr timeStr : string)
| DropOnBacklog (ev : DropEvent)
| DropOnTask (dragged : string) (targetTaskId : Z)
| ClickPriority (task : Task)
| EditTitle (task : Task) (editing save : bool) (input : string)
| EditTime (task : Task) (dataset_day : option string) (editing save : bool)
           (input : string)
| EditNotes (task : Task) (editing save : bool) (input : string)
| ClickMarkDone
| ClickDelete (confirmed : bool)
| ClickUnschedule
| ClickMove.

Definition perform (ui : Panel) (a : UiAction) : list Request :=
  match a with
  | DropOnDay ev dateStr => handleDropOnDay (taskIndex ui) ev dateStr
  | DropOnSlot ev dateStr timeStr => handleDropOnSlot (taskIndex ui) ev dateStr timeStr
  | DropOnBacklog ev => handleDropOnBacklog (taskIndex ui) ev
  | DropOnTask dragged target => handleDropOnTask (taskIndex ui) dragged target
  | ClickPriority task => priorityClick task
  | EditTitle task editing save input => titleEdit task editing save input
  | EditTime task day editing save input => timeEdit task day editing save input
  | EditNotes task editing save input => notesEdit task editing save input
  | ClickMarkDone => handleMarkDone ui
  | ClickDelete confirmed => handleDelete ui confirmed
  | ClickUnschedule => handleUnschedule ui
  | ClickMove => handleMove ui
  end.

(** ** Properties of tasks and request bodies *)

(** Both placement fields of the task are set, they parse as dates, and
    [n] is their difference in minutes rounded to the nearest whole
    number (halves up), which is positive. *)
Definition positive_span (task : Task) (n : Z) : Prop :=
  exists ps pe s e,
    planned_start task = Some ps /\ planned_end task = Some pe
    /\ str_truthy ps = true /\ str_truthy pe = true
    /\ Date_parse ps = DateAt s /\ Date_parse pe = DateAt e
    /\ 60000 * n - 30000 <= e - s < 60000 * n + 30000
    /\ 0 < n.


(** The actions by which the user places a task: a drop on a day, on a
    time slot or on another task, the inline time edit, the move form. *)
Definition is_placement (a : UiAction) : bool :=
  match a with
  | DropOnDay _ _ | DropOnSlot _ _ _ | DropOnTask _ _
  | EditTime _ _ _ _ _ | ClickMove => true
  | _ => false
  end.

(** The body [{ priority }]. *)
Definition priority_body (p : Z) : Payload :=
  {| p_title := Omitted; p_notes := Omitted; p_priority := Value p;
     p_is_done := Omitted; p_planned_start := Omitted;
     p_planned_end := Omitted; p_schedule_source := Omitted |}.

(** What each handler sends. *)
Inductive Sent : UiAction -> Request -> Prop :=
| SentPlacement a task start end_ :
    is_placement a = true ->
    Sent a (PATCH (id task) (manual_placement start end_))
| SentUnscheduleDrop ev task :
    field_truthy (planned_start task) = true ->
    Sent (DropOnBacklog ev) (PATCH (id task) unschedule_body)
| SentUnscheduleClick task :
    Sent ClickUnschedule (PATCH (id task) unschedule_body)
| SentOther a taskId body :
    is_placement a = false ->
    p_planned_start body = Omitted ->
    p_planned_end body = Omitted ->
    p_schedule_source body = Omitted ->
    Sent a (PATCH taskId body)
| SentDelete a taskId : Sent a (DELETE taskId).

(** ** Week navigation *)

Definition weekDays (startDate : JsDate) : list JsDate :=
  map (addDays startDate) [0; 1; 2; 3; 4; 5; 6].

(** The buttons "previous week" and "next week". *)
Inductive WeekClick : Type := PrevWeek | NextWeek.

Definition clickWeek (weekStart : JsDate) (c : WeekClick) : JsDate :=
  match c with
  | PrevWeek => addDays weekStart (-7)
  | NextWeek => addDays weekStart 7
  end.

(** [weekStart] after some clicks, starting from
    [startOfWeek(new Date())]. *)
Definition weekStart_after (now : JsDate) (clicks : list WeekClick) : JsDate :=
  fold_left clickWeek clicks (startOfWeek now).

(** [parseDateKey] of the later revision. *)
Definition parseDateKey (dateValue : string) : option JsDate :=
  if negb (str_truthy dateValue) then None
  else
    let year := nth_error (date_parts dateValue) 0 in
    let month := nth_error (date_parts dateValue) 1 in
    let day := nth_error (date_parts dateValue) 2 in
    if negb (elem_truthy year) || negb (elem_truthy month) || negb (elem_truthy day)
    then None
    else Some (Date_of_fields tza (elem_num year)
                 (num_sub (elem_num month) (Num 1)) (elem_num day)
                 (Num 0) (Num 0) (Num 0) (Num 0)).

(** ** Time slots of the day timeline *)








(** ** Selection *)

(** [fillMoveInputs]; [now] is [new Date()]. *)
Definition fillMoveInputs (now : JsDate) (task : Task) (ui : Panel) : Panel :=
  let base :=
    match planned_start task with
    | Some ps =>
        if str_truthy ps
        then (Date_parse ps, getHours tza (Date_parse ps),
              getMinutes tza (Date_parse ps))
        else (now, Num 9, Num 0)
    | None => (now, Num 9, Num 0)
    end in
  let duration := getTaskDurationMinutes task in
  {| taskIndex := taskIndex ui;
     selectedTaskId := selectedTaskId ui;
     moveDate := formatDateInput (fst (fst base));
     moveTime := formatTimeInput (snd (fst base)) (snd base);
     moveMinutes := if duration =? 0 then "" else ToString (Num duration) |}.

Definition clearSelection (ui : Panel) : Panel * Buttons :=
  ({| taskIndex := taskIndex ui; selectedTaskId := None;
      moveDate := moveDate ui; moveTime := moveTime ui;
      moveMinutes := moveMinutes ui |},
   setActionButtonsEnabled false None).

(** [setSelectedTask(task, element)]: the panel and the buttons after a
    click on a task; [buttons] is their state before.  The identifier is
    recorded first; when [updateSelectedTaskInfo] then throws, the
    buttons and the move form stay as they were. *)
Definition setSelectedTask (now : JsDate) (ui : Panel) (buttons : Buttons)
  (task : option Task) : Panel * Buttons :=
  match task with
  | None => clearSelection ui
  | Some t =>
      let selected :=
        {| taskIndex := taskIndex ui; selectedTaskId := Some (id t);
           moveDate := moveDate ui; moveTime := moveTime ui;
           moveMinutes := moveMinutes ui |} in
      if updateSelectedTaskInfo_throws t then (selected, buttons)
      else (fillMoveInputs now t selected,
            setActionButtonsEnabled true (Some t))
  end.

(** ** Requests on the wire *)

(** The values of the token box and of the service-key box. *)
Record AuthInputs : Type := {
  apiKey_value : string;
  serviceKey_value : string
}.

Definition Headers : Type := list (string * string).

(** [buildHeaders]; [None] is the thrown error. *)
Definition buildHeaders (auth : AuthInputs) : option Headers :=
  let userToken := trim (apiKey_value auth) in
  if negb (str_truthy userToken) then None
  else
    let headers := [("Authorization", "Bearer " ++ userToken)] in
    let serviceKey := trim (serviceKey_value auth) in
    if str_truthy serviceKey
    then Some (headers ++ [("X-API-Key", serviceKey)])%list
    else Some headers.

Record HttpRequest : Type := {
  http_method : string;
  http_url : string;
  http_headers : Headers;
  http_body : option Payload
}.

(** [patchTask] and [deleteTask] up to the call of [fetch]; [None] when
    [buildHeaders] throws. *)
Definition patchTask (auth : AuthInputs) (taskId : Z) (payload : Payload)
  : option HttpRequest :=
  match buildHeaders auth with
  | None => None
  | Some headers =>
      Some {| http_method := "PATCH";
              http_url := "/tasks/" ++ ToString (Num taskId);
              http_headers :=
                (headers ++ [("Content-Type", "application/json")])%list;
              http_body := Some payload |}
  end.

Definition deleteTask (auth : AuthInputs) (taskId : Z) : option HttpRequest :=
  match buildHeaders auth with
  | None => None
  | Some headers =>
      Some {| http_method := "DELETE";
              http_url := "/tasks/" ++ ToString (Num taskId);
              http_headers := headers;
              http_body := None |}
  end.

Definition on_wire (auth : AuthInputs) (r : Request) : option HttpRequest :=
  match r with
  | PATCH taskId body => patchTask auth taskId body
  | DELETE taskId => deleteTask auth taskId
  end.

(** [fetchJson(url, headers)]. *)
Definition fetchJson (url : string) (headers : Headers) : HttpRequest :=
  {| http_method := "GET"; http_url := url; http_headers := headers;
     http_body := None |}.

(** The two revisions of the script among the sources. *)
Inductive Revision : Type := Rev1 | Rev2.

(** The requests of [loadWeek] as [runAction] calls it (with force in
    the later revision): one per day of the week and then the backlog
    in the first revision, one for the whole week in the later one.
    None when [buildHeaders] throws, and none when [formatWeekLabel]
    throws on the first or the last day of the week. *)
Definition loadWeek (rev : Revision) (auth : AuthInputs) (weekStart : JsDate)
  : list HttpRequest :=
  match buildHeaders auth with
  | None => []
  | Some headers =>
      let days := weekDays weekStart in
      if is_invalid (addDays weekStart 0) || is_invalid (addDays weekStart 6)
      then []
      else
        match rev with
        | Rev1 =>
            (map (fun day => fetchJson ("/tasks/day?date=" ++ isoDate day) headers)
                 days
             ++ [fetchJson "/tasks/backlog" headers])%list
        | Rev2 =>
            [fetchJson ("/tasks/plan/week?start=" ++ isoDate (addDays weekStart 0))
                       headers]
        end
  end.

(** The awaited calls of an action, one after the other: [accepted n]
    tells whether the response to the [n]-th request is ok.  A thrown
    error (no token, or a response that is not ok) ends the action.  The
    result is the requests sent and whether the action ran to its end. *)
Fixpoint send_all (auth : AuthInputs) (accepted : nat -> bool) (n : nat)
  (reqs : list Request) : list HttpRequest * bool :=
  match reqs with
  | [] => ([], true)
  | r :: rest =>
      match on_wire auth r with
      | None => ([], false)
      | Some h =>
          if accepted n
          then let '(sent, finished) := send_all auth accepted (S n) rest in
               (h :: sent, finished)
          else ([h], false)
      end
  end.

(** [runAction]: the action, then [loadWeek] when the action did not
    throw. *)
Definition runAction (rev : Revision) (auth : AuthInputs)
  (accepted : nat -> bool) (weekStart : JsDate) (reqs : list Request)
  : list HttpRequest :=
  let '(sent, finished) := send_all auth accepted 0 reqs in
  if finished then (sent ++ loadWeek rev auth weekStart)%list else sent.

(** The handlers a revision has: a time slot to drop on exists only in
    the first, a drop on another task only in the later one. *)
Definition has_handler (rev : Revision) (a : UiAction) : bool :=
  match rev, a with
  | Rev1, DropOnTask _ _ => false
  | Rev2, DropOnSlot _ _ _ => false
  | _, _ => true
  end.

(** Everything one call of a handler puts on the wire; a handler that
    returns early does not reach [runAction]. *)
Definition dispatch (rev : Revision) (auth : AuthInputs)
  (accepted : nat -> bool) (weekStart : JsDate) (ui : Panel) (a : UiAction)
  : list HttpRequest :=
  if has_handler rev a then
    match perform ui a with
    | [] => []
    | reqs => runAction rev auth accepted weekStart reqs
    end
  else [].

(** ** Drops

    A drop event bubbles from the element it lands on to the elements
    around it, and no drop listener stops it: a drop on a row of a day
    card also reaches the card, a drop on a task of the day list also
    reaches the list.  Each listener calls its handler as soon as the
    event reaches it, so the calls start in this order. *)
Inductive DropTarget : Type :=
| SlotRow (dayStr timeStr : string)
| DayCard (dayStr : string)
| TaskItem (targetTaskId : Z) (dayKey : string)
| BacklogList.

(** The elements a revision shows: rows of time slots in the first, the
    tasks of the day list as targets in the later one. *)
Definition has_target (rev : Revision) (target : DropTarget) : bool :=
  match rev, target with
  | Rev1, TaskItem _ _ => false
  | Rev2, SlotRow _ _ => false
  | _, _ => true
  end.

Definition drop_calls (ev : DropEvent) (target : DropTarget) : list UiAction :=
  match target with
  | SlotRow dayStr timeStr => [DropOnSlot ev dayStr timeStr; DropOnDay ev dayStr]
  | DayCard dayStr => [DropOnDay ev dayStr]
  | TaskItem targetTaskId dayKey =>
      [DropOnTask (dropped_id ev) targetTaskId; DropOnDay ev dayKey]
  | BacklogList => [DropOnBacklog ev]
  end.

(** ** Notions used to state properties of the handlers *)

(** The task an action moves, when it is a drop on a day or on a slot
    or an inline time edit. *)
Definition moved_task (ui : Panel) (a : UiAction) : option Task :=
  match a with
  | DropOnDay ev _ | DropOnSlot ev _ _ =>
      if str_truthy (dropped_id ev)
      then taskIndex_get (taskIndex ui) (dropped_id ev) else None
  | EditTime task _ _ _ _ => Some task
  | _ => None
  end.

(** [new Date(d.getTime() + ms)]: a date moved by some milliseconds; an
    invalid date stays invalid. *)
Definition shift (d : JsDate) (ms : Z) : JsDate :=
  match d with
  | InvalidDate => InvalidDate
  | DateAt t => TimeClip (t + ms)
  end.

(** The number of keys a body sets among title, notes, priority and
    is_done. *)
Definition field_set {A : Type} (f : Field A) : Z :=
  match f with
  | Omitted => 0
  | _ => 1
  end.

Definition plain_keys (body : Payload) : Z :=
  field_set (p_title body) + field_set (p_notes body)
  + field_set (p_priority body) + field_set (p_is_done body).

(** The identifier a request is about. *)
Definition target (r : Request) : Z :=
  match r with
  | PATCH taskId _ => taskId
  | DELETE taskId => taskId
  end.

(** The task an action carries in its closure, for the actions on a
    rendered task. *)
Definition carried_task (a : UiAction) : option Task :=
  match a with
  | ClickPriority task | EditTitle task _ _ _ | EditTime task _ _ _ _
  | EditNotes task _ _ _ => Some task
  | _ => None
  end.

End Client.

End App.

Module Engine.

(** Modelled from the spec: the scheduling engine (task repository
    operations, Anchor Resolver, Free-Time Calculator, Slot Finder,
    Autoplan Engine and the placement commit of the mutation endpoint).
    The server that implements them is not among the sources; only its
    README and the web client that calls it are.  Every definition of
    this module follows the wording of the specification.  Times are
    minutes; day [d] starts at minute [d * 1440]. *)

Inductive TaskType : Type := UserTask | AnchorTask | SystemTask.
Inductive Kind : Type := Workout | Meal | Morning | Work | Other.
Inductive ScheduleSource : Type := Manual | Autoplan.

Record Interval : Type := { i_start : Z; i_end : Z }.

Definition len (iv : Interval) : Z := i_end iv - i_start iv.

(** Two intervals overlap when each starts before the other ends. *)
Definition overlaps (a b : Interval) : bool :=
  (i_start a <? i_end b) && (i_start b <? i_end a).

(** Anchor keys [routine:<step_id>:<day>] and [meal:<name>:<day>]. *)
Inductive AnchorKey : Type :=
| RoutineKey (step_id day : Z)
| MealKey (meal : string) (day : Z).

Definition anchor_key_eqb (a b : AnchorKey) : bool :=
  match a, b with
  | RoutineKey s d, RoutineKey s' d' => (s =? s') && (d =? d')
  | MealKey m d, MealKey m' d' => String.eqb m m' && (d =? d')
  | _, _ => false
  end.

(** Modelled from the spec: the Task of the data model.  The pair
    planned_start / planned_end is one optional interval, since a task
    with only one of the two is invalid. *)
Record Task : Type := {
  id : Z;
  user_id : Z;
  task_type : TaskType;
  kind : Kind;
  title : string;
  priority : Z;
  planned : option Interval;
  estimate_minutes : option Z;
  is_done : bool;
  anchor_key : option AnchorKey;
  schedule_source : ScheduleSource
}.

Record RoutineStep : Type := {
  step_id : Z;
  offset : Z;
  duration_minutes : Z;
  step_title : string;
  step_kind : Kind
}.

Record MealAnchor : Type := {
  meal_name : string;
  meal_offset : Z;
  meal_minutes : Z
}.

Record WorkoutPolicy : Type := {
  target_days : Z;
  session_duration : Z;
  workout_travel_oneway_min : Z
}.

(** Modelled from the spec: the Routine Config of one user, with the
    plannable window of a day as an explicit configuration value. *)
Record RoutineConfig : Type := {
  steps : list RoutineStep;
  meals : list MealAnchor;
  workout : WorkoutPolicy;
  window_from : Z;
  window_to : Z
}.

Definition default_travel : Z := 15.

(** Modelled from the spec: the task repository, rows in creation
    order, with the next fresh identifier. *)
Record Store : Type := {
  rows : list Task;
  next_id : Z
}.

Definition empty_store : Store := {| rows := []; next_id := 1 |}.

Definition set_planned (p : option Interval) (src : ScheduleSource) (t : Task)
  : Task :=
  {| id := id t; user_id := user_id t; task_type := task_type t;
     kind := kind t; title := title t; priority := priority t;
     planned := p; estimate_minutes := estimate_minutes t;
     is_done := is_done t; anchor_key := anchor_key t;
     schedule_source := src |}.

Definition set_descriptive (ttl : string) (minutes : Z) (t : Task) : Task :=
  {| id := id t; user_id := user_id t; task_type := task_type t;
     kind := kind t; title := ttl; priority := priority t;
     planned := planned t; estimate_minutes := Some minutes;
     is_done := is_done t; anchor_key := anchor_key t;
     schedule_source := schedule_source t |}.

Definition set_done (t : Task) : Task :=
  {| id := id t; user_id := user_id t; task_type := task_type t;
     kind := kind t; title := title t; priority := priority t;
     planned := planned t; estimate_minutes := estimate_minutes t;
     is_done := true; anchor_key := anchor_key t;
     schedule_source := schedule_source t |}.

(** Replace the first row that satisfies [p]. *)
Fixpoint update_first (p : Task -> bool) (f : Task -> Task) (l : list Task)
  : list Task :=
  match l with
  | [] => []
  | t :: rest => if p t then f t :: rest else t :: update_first p f rest
  end.

(** ** Anchor Resolver *)

Record AnchorSpec : Type := {
  a_key : AnchorKey;
  a_interval : Interval;
  a_title : string;
  a_kind : Kind
}.

Definition day_start (day : Z) : Z := day * 1440.

Definition step_anchor (day : Z) (st : RoutineStep) : AnchorSpec :=
  {| a_key := RoutineKey (step_id st) day;
     a_interval := {| i_start := day_start day + offset st;
                      i_end := day_start day + offset st + duration_minutes st |};
     a_title := step_title st;
     a_kind := step_kind st |}.

Definition meal_anchor (day : Z) (m : MealAnchor) : AnchorSpec :=
  {| a_key := MealKey (meal_name m) day;
     a_interval := {| i_start := day_start day + meal_offset m;
                      i_end := day_start day + meal_offset m + meal_minutes m |};
     a_title := meal_name m;
     a_kind := Meal |}.

(** The anchors a day requires: one per routine step, one per meal. *)
Definition anchors_for (cfg : RoutineConfig) (day : Z) : list AnchorSpec :=
  map (step_anchor day) (steps cfg) ++ map (meal_anchor day) (meals cfg).

Definition has_anchor_key (user : Z) (k : AnchorKey) (t : Task) : bool :=
  (user_id t =? user)
  && match anchor_key t with
     | Some k' => anchor_key_eqb k' k
     | None => false
     end.

(** Modelled from the spec: [upsertByAnchorKey].  A row with this
    (user_id, anchor_key) keeps its placement and only has its title and
    duration refreshed; otherwise a new anchor row is inserted with
    schedule_source autoplan. *)
Definition upsertByAnchorKey (user : Z) (a : AnchorSpec) (s : Store)
  : Store * Task :=
  match find (has_anchor_key user (a_key a)) (rows s) with
  | Some t =>
      let refresh := set_descriptive (a_title a) (len (a_interval a)) in
      ({| rows := update_first (has_anchor_key user (a_key a)) refresh (rows s);
          next_id := next_id s |},
       refresh t)
  | None =>
      let t := {| id := next_id s; user_id := user; task_type := AnchorTask;
                  kind := a_kind a; title := a_title a; priority := 2;
                  planned := Some (a_interval a);
                  estimate_minutes := Some (len (a_interval a));
                  is_done := false; anchor_key := Some (a_key a);
                  schedule_source := Autoplan |} in
      ({| rows := rows s ++ [t]; next_id := next_id s + 1 |}, t)
  end.

Fixpoint upsert_all (user : Z) (specs : list AnchorSpec) (s : Store)
  : Store * list Task :=
  match specs with
  | [] => (s, [])
  | a :: rest =>
      let '(s1, t) := upsertByAnchorKey user a s in
      let '(s2, ts) := upsert_all user rest s1 in
      (s2, t :: ts)
  end.

(** Modelled from the spec: [ensureAnchors(user, day) -> list<Task>]. *)
Definition ensureAnchors (cfg : RoutineConfig) (user day : Z) (s : Store)
  : Store * list Task :=
  upsert_all user (anchors_for cfg day) s.

(** What identifies an anchor row and where it is placed. *)
Definition placement_view (t : Task)
  : Z * Z * option AnchorKey * option Interval :=
  (id t, user_id t, anchor_key t, planned t).

(** ** Free-Time Calculator *)

Fixpoint insert_by_start (iv : Interval) (l : list Interval) : list Interval :=
  match l with
  | [] => [iv]
  | x :: rest =>
      if i_start iv <? i_start x then iv :: l
      else x :: insert_by_start iv rest
  end.

Definition sort_by_start (l : list Interval) : list Interval :=
  fold_right insert_by_start [] l.

(** Merge a sorted list, [cur] being the block under construction: the
    next interval joins it when it starts no later than the block ends. *)
Fixpoint merge_from (cur : Interval) (l : list Interval) : list Interval :=
  match l with
  | [] => [cur]
  | iv :: rest =>
      if i_start iv <=? i_end cur
      then merge_from {| i_start := i_start cur;
                         i_end := Z.max (i_end cur) (i_end iv) |} rest
      else cur :: merge_from iv rest
  end.

Definition merge (l : list Interval) : list Interval :=
  match l with
  | [] => []
  | cur :: rest => merge_from cur rest
  end.

(** Complement of the merged blocks inside the span that starts at
    [cursor] and ends at [span_end]; empty gaps are left out. *)
Fixpoint subtract (cursor span_end : Z) (busy : list Interval) : list Interval :=
  match busy with
  | [] =>
      if cursor <? span_end
      then [{| i_start := cursor; i_end := span_end |}] else []
  | b :: rest =>
      let gap_end := Z.min (i_start b) span_end in
      ((if cursor <? gap_end
        then [{| i_start := cursor; i_end := gap_end |}] else [])
       ++ subtract (Z.max cursor (i_end b)) span_end rest)%list
  end.

(** Modelled from the spec: [freeIntervals(day, occupied)]: sort by
    start, merge overlapping or adjacent intervals, subtract from the
    span of the day. *)
Definition freeIntervals (span : Interval) (occupied : list Interval)
  : list Interval :=
  subtract (i_start span) (i_end span) (merge (sort_by_start occupied)).

(** ** Slot Finder *)

(** Task duration: from the planned pair, or estimate_minutes, or 30. *)
Definition taskDuration (t : Task) : Z :=
  match planned t with
  | Some iv => len iv
  | None => match estimate_minutes t with
            | Some m => m
            | None => 30
            end
  end.

(** The time the stored placement spans: the session of the workout
    policy for a workout, the task duration otherwise. *)
Definition sessionLength (pol : WorkoutPolicy) (t : Task) : Z :=
  match kind t with
  | Workout => session_duration pol
  | _ => taskDuration t
  end.

(** Modelled from the spec: the length of free time a task requires;
    for a workout [max(session, 2 * travel + session)]. *)
Definition requiredLength (pol : WorkoutPolicy) (t : Task) : Z :=
  match kind t with
  | Workout =>
      Z.max (session_duration pol)
            (2 * workout_travel_oneway_min pol + session_duration pol)
  | _ => taskDuration t
  end.

(** The session sits in the middle of the reserved block, which starts
    where the free interval starts. *)
Definition placeIn (pol : WorkoutPolicy) (t : Task) (free : Interval)
  : Interval :=
  let margin := (requiredLength pol t - sessionLength pol t) / 2 in
  {| i_start := i_start free + margin;
     i_end := i_start free + margin + sessionLength pol t |}.

(** A free interval is a candidate when it is long enough and, for a
    workout, the session would not start exactly where a meal ends. *)
Definition candidate (pol : WorkoutPolicy) (t : Task) (meal_ends : list Z)
  (free : Interval) : bool :=
  (requiredLength pol t <=? len free)
  && match kind t with
     | Workout => negb (existsb (Z.eqb (i_start (placeIn pol t free))) meal_ends)
     | _ => true
     end.

(** Modelled from the spec: [findSlot(task, freeIntervals)], the
    earliest candidate first. *)
Fixpoint findSlot (pol : WorkoutPolicy) (t : Task) (meal_ends : list Z)
  (free : list Interval) : option Interval :=
  match free with
  | [] => None
  | f :: rest =>
      if candidate pol t meal_ends f then Some (placeIn pol t f)
      else findSlot pol t meal_ends rest
  end.

(** ** Placement commit *)

Inductive Error : Type := ValidationError | OverlapConflict.

Inductive Result (A : Type) : Type :=
| Ok (a : A)
| Err (e : Error).

Arguments Ok {A} a.
Arguments Err {A} e.

(** Intervals occupied by the planned tasks of [user] other than the
    task [except]. *)
Definition occupiedBy (s : Store) (user except : Z) : list Interval :=
  flat_map (fun t =>
              if (user_id t =? user) && negb (id t =? except)
              then match planned t with
                   | Some iv => [iv]
                   | None => []
                   end
              else [])
           (rows s).

(** Modelled from the spec: [get(id)] of the task repository. *)
Definition get (s : Store) (tid : Z) : option Task :=
  find (fun t => id t =? tid) (rows s).

(** Modelled from the spec: the check-and-set of a placement.  An
    unknown task or a task of another user is a validation error; a
    placement that overlaps an occupied interval of the user is an
    overlap conflict; nothing is written in either case. *)
Definition place (s : Store) (user tid : Z) (iv : Interval)
  (src : ScheduleSource) : Result Store :=
  match get s tid with
  | None => Err ValidationError
  | Some t =>
      if negb (user_id t =? user) then Err ValidationError
      else if existsb (overlaps iv) (occupiedBy s user tid) then Err OverlapConflict
      else Ok {| rows := update_first (fun r => id r =? tid)
                           (set_planned (Some iv) src) (rows s);
                 next_id := next_id s |}
  end.

(** Modelled from the spec: clearing a placement returns the task to
    the backlog and records the source the caller gives. *)
Definition unschedule (s : Store) (user tid : Z) (src : ScheduleSource)
  : Result Store :=
  match get s tid with
  | None => Err ValidationError
  | Some t =>
      if negb (user_id t =? user) then Err ValidationError
      else Ok {| rows := update_first (fun r => id r =? tid)
                           (set_planned None src) (rows s);
                 next_id := next_id s |}
  end.

(** Two rows are in conflict when they are different tasks of one user
    and their placements overlap. *)
Definition conflict (a b : Task) : bool :=
  (user_id a =? user_id b)
  && negb (id a =? id b)
  && match planned a, planned b with
     | Some x, Some y => overlaps x y
     | _, _ => false
     end.

(** Modelled from the spec: the commit of a day's anchor set.  Like
    every write of a placement, the upsert of the Anchor Resolver is
    validated against the occupied intervals before it is committed
    (spec 3 and 5): when a resolved anchor overlaps a planned task of
    the user, the call ends with an overlap conflict and, the anchor set
    of a day being one unit of work (spec 7), nothing is changed. *)
Definition commitAnchors (cfg : RoutineConfig) (user day : Z) (s : Store)
  : Result (Store * list Task) :=
  let resolved := ensureAnchors cfg user day s in
  if existsb (fun t => existsb (conflict t) (rows (fst resolved)))
             (snd resolved)
  then Err OverlapConflict
  else Ok resolved.

Definition create (s : Store) (user : Z) (ttl : string) (k : Kind)
  (prio : Z) (estimate : option Z) : Store :=
  {| rows := rows s ++
       [{| id := next_id s; user_id := user; task_type := UserTask;
           kind := k; title := ttl; priority := prio; planned := None;
           estimate_minutes := estimate; is_done := false;
           anchor_key := None; schedule_source := Manual |}];
     next_id := next_id s + 1 |}.

Definition owned_by (user tid : Z) (t : Task) : bool :=
  (id t =? tid) && (user_id t =? user).

Definition mark_done (s : Store) (user tid : Z) : Store :=
  {| rows := update_first (owned_by user tid) set_done (rows s);
     next_id := next_id s |}.

Definition delete (s : Store) (user tid : Z) : Store :=
  {| rows := filter (fun t => negb (owned_by user tid t)) (rows s);
     next_id := next_id s |}.

(** ** Autoplan Engine *)

Definition is_backlog (user : Z) (t : Task) : bool :=
  (user_id t =? user)
  && match task_type t with
     | AnchorTask => false
     | _ => true
     end
  && match planned t with
     | None => true
     | Some _ => false
     end.

(** Insertion by ascending priority, in front of the rows of the same
    priority. *)
Fixpoint insert_by_priority (t : Task) (l : list Task) : list Task :=
  match l with
  | [] => [t]
  | x :: rest =>
      if priority t <=? priority x then t :: l
      else x :: insert_by_priority t rest
  end.

(** Modelled from the spec: candidates by ascending priority; rows of
    the same priority stay in creation order, the order of the
    repository. *)
Definition order_candidates (l : list Task) : list Task :=
  fold_right insert_by_priority [] l.

Definition window (cfg : RoutineConfig) (day : Z) : Interval :=
  {| i_start := day_start day + window_from cfg;
     i_end := day_start day + window_to cfg |}.

(** Ends of the user's planned meal anchors. *)
Definition meal_ends (s : Store) (user : Z) : list Z :=
  flat_map (fun t =>
              match task_type t, kind t, planned t with
              | AnchorTask, Meal, Some iv =>
                  if user_id t =? user then [i_end iv] else []
              | _, _, _ => []
              end)
           (rows s).

(** One pass over the pending candidates on one day.  The occupied
    intervals are read again before each attempt; a candidate without a
    slot, or whose commit is refused, stays pending. *)
Fixpoint place_candidates (cfg : RoutineConfig) (user day : Z)
  (cands : list Z) (s : Store) : Store * list Z * list Z :=
  match cands with
  | [] => (s, [], [])
  | c :: rest =>
      let attempt :=
        match get s c with
        | None => None
        | Some t =>
            let occupied := occupiedBy s user c in
            let free := freeIntervals (window cfg day) occupied in
            match findSlot (workout cfg) t (meal_ends s user) free with
            | None => None
            | Some iv =>
                match place s user c iv Autoplan with
                | Ok s' => Some s'
                | Err _ => None
                end
            end
        end in
      match attempt with
      | Some s' =>
          let '(s2, placed, pending) := place_candidates cfg user day rest s' in
          (s2, c :: placed, pending)
      | None =>
          let '(s2, placed, pending) := place_candidates cfg user day rest s in
          (s2, placed, c :: pending)
      end
  end.

(** The days of the range in order: anchors first, then the pending
    candidates.  A day whose anchor set is refused keeps the repository
    as it was, and the candidates are still tried on it. *)
Fixpoint autoplan_days (cfg : RoutineConfig) (user day : Z) (days : nat)
  (pending : list Z) (s : Store) : Store * list Z * list Z :=
  match days with
  | O => (s, [], pending)
  | S k =>
      let s1 := match commitAnchors cfg user day s with
                | Ok resolved => fst resolved
                | Err _ => s
                end in
      let '(s2, placed, pending') := place_candidates cfg user day pending s1 in
      let '(s3, placed', skipped) := autoplan_days cfg user (day + 1) k pending' s2 in
      (s3, (placed ++ placed')%list, skipped)
  end.

(** Modelled from the spec: [autoplan(user, startDay, days)], giving
    the store and the identifiers of the placed and the skipped tasks.
    The candidates are ordered once per call. *)
Definition autoplan (cfg : RoutineConfig) (user startDay : Z) (days : nat)
  (s : Store) : Store * list Z * list Z :=
  let cands := map id (order_candidates (filter (is_backlog user) (rows s))) in
  autoplan_days cfg user startDay days cands s.

(** ** Operations on one repository *)

Inductive Op : Type :=
| OpCreate (user : Z) (ttl : string) (k : Kind) (prio : Z) (estimate : option Z)
| OpPlace (user tid : Z) (iv : Interval)
| OpUnschedule (user tid : Z)
| OpDone (user tid : Z)
| OpDelete (user tid : Z)
| OpAutoplan (user startDay : Z) (days : nat).

(** A refused operation leaves the repository as it was.  Manual
    operations record the source manual. *)
Definition step (cfg : Z -> RoutineConfig) (s : Store) (op : Op) : Store :=
  match op with
  | OpCreate user ttl k prio estimate => create s user ttl k prio estimate
  | OpPlace user tid iv =>
      match place s user tid iv Manual with
      | Ok s' => s'
      | Err _ => s
      end
  | OpUnschedule user tid =>
      match unschedule s user tid Manual with
      | Ok s' => s'
      | Err _ => s
      end
  | OpDone user tid => mark_done s user tid
  | OpDelete user tid => delete s user tid
  | OpAutoplan user startDay days =>
      fst (fst (autoplan (cfg user) user startDay days s))
  end.

Definition run (cfg : Z -> RoutineConfig) (ops : list Op) (s : Store) : Store :=
  fold_left (step cfg) ops s.

(** No two tasks of one user overlap. *)
Definition non_overlapping (s : Store) : Prop :=
  forall a b, In a (rows s) -> In b (rows s) -> conflict a b = false.

(** The view of the first row found under a key. *)
Definition found_view (user : Z) (k : AnchorKey) (s : Store)
  : option (Z * Z * option AnchorKey * option Interval) :=
  option_map placement_view (find (has_anchor_key user k) (rows s)).

(** The fields of a row that decide whether it is in conflict. *)
Definition core (t : Task) : Z * Z * option Interval :=
  (id t, user_id t, planned t).

End Engine.

Module Text.

Import JS.

(** ** Date and time strings as the HTML inputs write them *)

(** The date string YYYY-MM-DD: four digits for the year, two for the
    month and for the day. *)
Definition date_string (y m d : Z) : string :=
  padStart 4 "0" (decimal y) ++ "-" ++ padStart 2 "0" (decimal m)
  ++ "-" ++ padStart 2 "0" (decimal d).

(** The time string HH:MM. *)
Definition time_string (h mi : Z) : string :=
  padStart 2 "0" (decimal h) ++ ":" ++ padStart 2 "0" (decimal mi).

(** The local time value of a time of day on a day, and on a civil
    date. *)
Definition at_time (day h mi : Z) : Z := MakeDate day (MakeTime h mi 0 0).

Definition local_time_of (y m d h mi : Z) : Z :=
  at_time (days_from_civil y m d) h mi.

(** A local time value cut to the minute. *)
Definition to_minute (x : Z) : Z := x - x mod msPerMinute.

(** The local time value of the midnight that begins a day. *)
Definition midnight (day : Z) : Z := MakeDate day 0.

(** The day number of the Monday on or before a day; day 0 was a
    Thursday. *)
Definition monday_of (day : Z) : Z := day - (day + 3) mod 7.

(** Parsing a date string and a time string and formatting the result
    gives the two strings back. *)
Definition round_trip (tza : Z -> bool -> Z) (y m d h mi : Z) : Prop :=
  exists t,
    App.parseLocalDateTime tza (date_string y m d) (time_string h mi)
    = Some (DateAt t)
    /\ App.formatDateInput tza (DateAt t) = date_string y m d
    /\ getHours tza (DateAt t) = Num h
    /\ getMinutes tza (DateAt t) = Num mi
    /\ App.toLocalIsoString tza (DateAt t)
       = date_string y m d ++ "T" ++ time_string h mi ++ ":00".

Fixpoint no_char (c : ascii) (s : string) : bool :=
  match s with
  | EmptyString => true
  | String x rest => negb (Ascii.eqb x c) && no_char c rest
  end.

Definition num_eqb (a b : JsNum) : bool :=
  match a, b with
  | NaN, NaN => true
  | Num x, Num y => x =? y
  | _, _ => false
  end.

(** What the proofs need to know about a two-digit field. *)
Definition two_digit_ok (n : Z) : bool :=
  let s := padStart 2 "0" (decimal n) in
  num_eqb (ToNumber s) (Num n) && no_char "-" s && no_char ":" s
  && str_truthy s.

(** What the proofs need to know about a four-digit year. *)
Definition four_digit_ok (y : Z) : bool :=
  let s := decimal y in
  String.eqb (padStart 4 "0" s) s && num_eqb (ToNumber s) (Num y)
  && no_char "-" s && str_truthy s.

(** [f] holds on the [n] integers from [lo] on. *)
Fixpoint all_from (f : Z -> bool) (lo : Z) (n : nat) : bool :=
  match n with
  | O => true
  | S k => f lo && all_from f (lo + 1) k
  end.


End Text.

Module Samples.

Import JS.

(** ** Sample data for the examples *)

(** The platform parser on the two timestamps of the sample task, read
    as UTC. *)
Definition sample_parse (s : string) : JsDate :=
  if String.eqb s "2024-03-04T09:00:00" then DateAt 1709542800000
  else if String.eqb s "2024-03-04T09:45:00" then DateAt 1709545500000
  else InvalidDate.

Definition sample_task : App.Task :=
  {| App.id := 7; App.title := "Write report"; App.notes := None;
     App.priority := Some 3;
     App.planned_start := Some "2024-03-04T09:00:00";
     App.planned_end := Some "2024-03-04T09:45:00";
     App.due_at := None;
     App.estimate_minutes := Some 90; App.is_done := false |}.

(** The sample task is selected and the move form asks for the next day
    at 10:30, the minutes box left empty. *)
Definition sample_panel : App.Panel :=
  {| App.taskIndex := App.registerTask [] sample_task;
     App.selectedTaskId := Some 7;
     App.moveDate := "2024-03-05";
     App.moveTime := "10:30";
     App.moveMinutes := "" |}.

Definition sample_policy : Engine.WorkoutPolicy :=
  {| Engine.target_days := 3; Engine.session_duration := 60;
     Engine.workout_travel_oneway_min := Engine.default_travel |}.

Definition sample_workout : Engine.Task :=
  {| Engine.id := 1; Engine.user_id := 1; Engine.task_type := Engine.UserTask;
     Engine.kind := Engine.Workout; Engine.title := "Gym";
     Engine.priority := 2; Engine.planned := None;
     Engine.estimate_minutes := Some 60; Engine.is_done := false;
     Engine.anchor_key := None; Engine.schedule_source := Engine.Manual |}.

(** Breakfast from 07:00 to 07:30, the whole day plannable. *)
Definition sample_config (user : Z) : Engine.RoutineConfig :=
  {| Engine.steps := [];
     Engine.meals := [{| Engine.meal_name := "breakfast";
                         Engine.meal_offset := 420;
                         Engine.meal_minutes := 30 |}];
     Engine.workout := sample_policy;
     Engine.window_from := 0; Engine.window_to := 1440 |}.

(** No anchors at all. *)
Definition bare_config (user : Z) : Engine.RoutineConfig :=
  {| Engine.steps := []; Engine.meals := [];
     Engine.workout := sample_policy;
     Engine.window_from := 0; Engine.window_to := 1440 |}.

(** The user creates a task, places it by hand from 07:00 to 08:00 of
    day 0, then runs autoplan for that day. *)
Definition sample_ops : list Engine.Op :=
  [Engine.OpCreate 1 "Write report" Engine.Work 1 (Some 60);
   Engine.OpPlace 1 1 {| Engine.i_start := 420; Engine.i_end := 480 |};
   Engine.OpAutoplan 1 0 1].

(** Asia/Tehran around 22 March 2021, a Monday: at 00:00 the clocks
    went from +03:30 to +04:30.  The local times from 00:00 to 01:00 of
    that day do not exist; a Date built from one is read with the offset
    before the change and shows the time an hour later. *)
Definition tehran_2021 (t : Z) (isUTC : bool) : Z :=
  if isUTC
  then (if t <? 1616358600000 then 12600000 else 16200000)
  else (if t <? 1616358600000 + 16200000 then 12600000 else 16200000).

(** America/New_York around 10 March 2024: at 02:00 the clocks went
    from -05:00 to -04:00; the local times from 02:00 to 03:00 do not
    exist. *)
Definition new_york_2024 (t : Z) (isUTC : bool) : Z :=
  if isUTC
  then (if t <? 1710054000000 then -18000000 else -14400000)
  else (if t <? 1710054000000 - 14400000 then -18000000 else -14400000).

(** Universal time, and the zone three hours east of Greenwich with no
    change of offset. *)
Definition utc : Z -> bool -> Z := fixed_offset 0.
Definition east3 : Z -> bool -> Z := fixed_offset 10800000.

(** The sample task being dragged. *)
Definition sample_drop : App.DropEvent :=
  {| App.data_task_id := "7"; App.data_plain := "7" |}.

(** A token pasted with a space before it and a no-break space (U+00A0,
    the bytes 194 and 160) after it, and no service key. *)
Definition sample_auth : App.AuthInputs :=
  {| App.apiKey_value := " secret" ++ bytes [194; 160]%nat;
     App.serviceKey_value := "" |}.

(** A server that refuses every request. *)
Definition refuse_all (n : nat) : bool := false.



End Samples.

Import JS.

(** * The calendar *)

Lemma year_of_era_range doe :
  0 <= doe <= 146096 ->
  let yoe := (doe - doe / 1460 + doe / 36524 - doe / 146096) / 365 in
  0 <= yoe <= 399 /\ 0 <= doe - (365 * yoe + yoe / 4 - yoe / 100) <= 365.
Proof.
  intros H yoe. subst yoe. Z.div_mod_to_equations. lia.
Qed.

Lemma year_of_era_recover yoe doy :
  0 <= yoe <= 399 ->
  0 <= doy ->
  (doy <= 364 \/
   (doy = 365 /\ (yoe + 1) mod 4 = 0 /\
    ((yoe + 1) mod 100 <> 0 \/ (yoe + 1) mod 400 = 0))) ->
  let doe := yoe * 365 + yoe / 4 - yoe / 100 + doy in
  0 <= doe <= 146096 /\
  (doe - doe / 1460 + doe / 36524 - doe / 146096) / 365 = yoe.
Proof.
  intros Hy Hd Hl doe. subst doe. Z.div_mod_to_equations. lia.
Qed.

Lemma days_from_civil_date y m d :
  days_from_civil y m d = days_from_civil y m 1 + d - 1.
Proof. unfold days_from_civil. lia. Qed.

(** Every day number is the day number of its own civil date, and the
    month of that date is a month. *)
Lemma civil_from_days_inv z y m d :
  civil_from_days z = (y, m, d) ->
  1 <= m <= 12 /\ 1 <= d <= 31 /\ days_from_civil y m d = z.
Proof.
  unfold civil_from_days.
  set (z' := z + 719468).
  set (era := z' / 146097).
  set (doe := z' - era * 146097).
  assert (Hdoe : 0 <= doe <= 146096)
    by (subst doe era; Z.div_mod_to_equations; lia).
  pose proof (year_of_era_range doe Hdoe) as Hy. cbv zeta in Hy.
  set (yoe := (doe - doe / 1460 + doe / 36524 - doe / 146096) / 365) in *.
  set (doy := doe - (365 * yoe + yoe / 4 - yoe / 100)) in *.
  set (mp := (5 * doy + 2) / 153).
  assert (Hmp : 0 <= mp <= 11) by (subst mp; Z.div_mod_to_equations; lia).
  set (dom := doy - (153 * mp + 2) / 5 + 1).
  assert (Hd : 1 <= dom <= 31)
    by (subst dom mp; Z.div_mod_to_equations; lia).
  intros E. unfold days_from_civil.
  destruct (mp <? 10) eqn:E10.
  - apply Z.ltb_lt in E10.
    replace (mp + 3 <=? 2) with false in E by (symmetry; apply Z.leb_gt; lia).
    injection E as Ey Em Ed; subst y m d.
    replace (mp + 3 <=? 2) with false by (symmetry; apply Z.leb_gt; lia).
    replace (2 <? mp + 3) with true by (symmetry; apply Z.ltb_lt; lia).
    replace ((yoe + era * 400) / 400) with era by (Z.div_mod_to_equations; lia).
    replace (mp + 3 - 3) with mp by lia.
    replace (yoe + era * 400 - era * 400) with yoe by lia.
    repeat split; try lia; subst dom doy doe z'; lia.
  - apply Z.ltb_ge in E10.
    replace (mp - 9 <=? 2) with true in E by (symmetry; apply Z.leb_le; lia).
    injection E as Ey Em Ed; subst y m d.
    replace (mp - 9 <=? 2) with true by (symmetry; apply Z.leb_le; lia).
    replace (2 <? mp - 9) with false by (symmetry; apply Z.ltb_ge; lia).
    replace ((yoe + era * 400 + 1 - 1) / 400) with era
      by (Z.div_mod_to_equations; lia).
    replace (mp - 9 + 9) with mp by lia.
    replace (yoe + era * 400 + 1 - 1 - era * 400) with yoe by lia.
    repeat split; try lia; subst dom doy doe z'; lia.
Qed.

Lemma is_leap_spec y :
  is_leap y = true <->
  y mod 4 = 0 /\ (y mod 100 <> 0 \/ y mod 400 = 0).
Proof.
  unfold is_leap.
  rewrite andb_true_iff, orb_true_iff, negb_true_iff.
  rewrite !Z.eqb_eq, Z.eqb_neq. tauto.
Qed.

(** Bounds on a day of the month. *)
Lemma days_in_month_bound y m d :
  1 <= m <= 12 -> d <= days_in_month y m ->
  (m = 2 -> d <= 28 \/ (d = 29 /\ is_leap y = true))
  /\ (m = 4 \/ m = 6 \/ m = 9 \/ m = 11 -> d <= 30)
  /\ d <= 31.
Proof.
  intros Hm. unfold days_in_month.
  destruct (m =? 2) eqn:E2; [apply Z.eqb_eq in E2 | apply Z.eqb_neq in E2].
  - destruct (is_leap y); intros; repeat split; intros; try lia.
  - destruct (m =? 4) eqn:E4; destruct (m =? 6) eqn:E6;
      destruct (m =? 9) eqn:E9; destruct (m =? 11) eqn:E11;
      cbn [orb]; intros; repeat split; intros; try lia;
      apply Z.eqb_neq in E4, E6, E9, E11; lia.
Qed.

(** A valid civil date is the civil date of its own day number. *)
Lemma civil_from_days_from_civil y m d :
  1 <= m <= 12 -> 1 <= d <= days_in_month y m ->
  civil_from_days (days_from_civil y m d) = (y, m, d).
Proof.
  intros Hm Hd.
  unfold days_from_civil.
  set (y' := if m <=? 2 then y - 1 else y).
  set (era := y' / 400).
  set (yoe := y' - era * 400).
  set (mp := if 2 <? m then m - 3 else m + 9).
  set (doy := (153 * mp + 2) / 5 + d - 1).
  assert (Hyoe : 0 <= yoe <= 399)
    by (subst yoe era; Z.div_mod_to_equations; lia).
  assert (Hy' : y' = yoe + era * 400) by (subst yoe; lia).
  assert (Hmp : 0 <= mp <= 11 /\ m = (if mp <? 10 then mp + 3 else mp - 9)
                /\ (m <=? 2) = negb (mp <? 10)).
  { subst mp. destruct (2 <? m) eqn:E;
      [apply Z.ltb_lt in E | apply Z.ltb_ge in E].
    - replace (m - 3 <? 10) with true by (symmetry; apply Z.ltb_lt; lia).
      replace (m <=? 2) with false by (symmetry; apply Z.leb_gt; lia).
      repeat split; lia.
    - replace (m + 9 <? 10) with false by (symmetry; apply Z.ltb_ge; lia).
      replace (m <=? 2) with true by (symmetry; apply Z.leb_le; lia).
      repeat split; lia. }
  destruct Hmp as (Hmp & Hm' & Hle).
  assert (Hdoy : 0 <= doy
                 /\ (doy <= 364 \/
                     (doy = 365 /\ (yoe + 1) mod 4 = 0 /\
                      ((yoe + 1) mod 100 <> 0 \/ (yoe + 1) mod 400 = 0)))
                 /\ (5 * doy + 2) / 153 = mp
                 /\ doy - (153 * mp + 2) / 5 + 1 = d).
  { assert (Hleap : m = 2 -> d = 29 ->
              (yoe + 1) mod 4 = 0 /\
              ((yoe + 1) mod 100 <> 0 \/ (yoe + 1) mod 400 = 0)).
    { intros E2 E29. pose proof (days_in_month_bound y m d Hm (proj2 Hd)) as (B & _).
      destruct (B E2) as [B' | [_ L]]; [lia |].
      apply is_leap_spec in L.
      assert (Hy1 : y' = y - 1)
        by (subst y'; replace (m <=? 2) with true
              by (symmetry; apply Z.leb_le; lia); reflexivity).
      assert (Hy : y = yoe + 1 + era * 400) by lia.
      clear - L Hy. clearbody yoe era. subst y.
      revert L. Z.div_mod_to_equations. lia. }
    pose proof (days_in_month_bound y m d Hm (proj2 Hd)) as (B2 & B30 & B31).
    assert (Hdoyeq : doy = (153 * mp + 2) / 5 + d - 1) by reflexivity.
    assert (Hcases : m = 1 \/ m = 2 \/ m = 3 \/ m = 4 \/ m = 5 \/ m = 6 \/
                     m = 7 \/ m = 8 \/ m = 9 \/ m = 10 \/ m = 11 \/ m = 12)
      by lia.
    clear Hy'. clearbody doy mp yoe.
    assert (Hmpv : mp = m + 9 \/ mp = m - 3)
      by (destruct (mp <? 10); lia).
    assert (Hsmall : m <= 2 -> mp = m + 9) by lia.
    assert (Hbig : 2 < m -> mp = m - 3) by lia.
    destruct Hcases as [E|[E|[E|[E|[E|[E|[E|[E|[E|[E|[E|E]]]]]]]]]]];
      try (assert (d <= 30) by (apply B30; lia));
      try (assert (Hmpk : mp = m + 9) by (apply Hsmall; lia));
      try (assert (Hmpk : mp = m - 3) by (apply Hbig; lia));
      rewrite E in Hmpk; subst mp;
      try (repeat split; [| left | |]; Z.div_mod_to_equations; lia).
    assert (d = 29 \/ d <= 28) as [E29 | E28] by (destruct (B2 E); lia).
    - specialize (Hleap E E29).
      repeat split; [| right | |]; Z.div_mod_to_equations; lia.
    - repeat split; [| left | |]; Z.div_mod_to_equations; lia. }
  destruct Hdoy as (Hdoy0 & Hdoy1 & Hmprec & Hdrec).
  pose proof (year_of_era_recover yoe doy Hyoe Hdoy0 Hdoy1) as Hrec.
  cbv zeta in Hrec. destruct Hrec as (Hdoe & Hyrec).
  set (doe := yoe * 365 + yoe / 4 - yoe / 100 + doy) in *.
  unfold civil_from_days.
  replace (era * 146097 + doe - 719468 + 719468) with (era * 146097 + doe) by lia.
  replace ((era * 146097 + doe) / 146097) with era
    by (Z.div_mod_to_equations; lia).
  replace (era * 146097 + doe - era * 146097) with doe by lia.
  rewrite Hyrec.
  replace (doe - (365 * yoe + yoe / 4 - yoe / 100)) with doy by (subst doe; lia).
  rewrite Hmprec, Hdrec, <- Hm', Hle.
  destruct (mp <? 10) eqn:E10; simpl; f_equal; f_equal; subst y';
    destruct (m <=? 2) eqn:E2; simpl in Hle; try discriminate; lia.
Qed.

(** * Dates *)

Lemma Day_MakeDate day time :
  0 <= time < msPerDay -> Day (MakeDate day time) = day.
Proof.
  unfold Day, MakeDate, msPerDay. intros H. Z.div_mod_to_equations. lia.
Qed.

Lemma TimeWithinDay_MakeDate day time :
  0 <= time < msPerDay -> TimeWithinDay (MakeDate day time) = time.
Proof.
  unfold TimeWithinDay, MakeDate, msPerDay. intros H.
  Z.div_mod_to_equations. lia.
Qed.

Lemma TimeClip_valid v : Z.abs v <= maxTime -> TimeClip v = DateAt v.
Proof.
  intros H. unfold TimeClip.
  now replace (Z.abs v <=? maxTime) with true by (symmetry; now apply Z.leb_le).
Qed.

Lemma TimeClip_cases v : TimeClip v = DateAt v \/ TimeClip v = InvalidDate.
Proof. unfold TimeClip. destruct (Z.abs v <=? maxTime); auto. Qed.

(** The Date read from a local time that exists shows that local time. *)
Lemma local_exists_date tza x :
  local_exists tza x ->
  TimeClip (UTC tza x) = DateAt (UTC tza x)
  /\ LocalTime tza (UTC tza x) = x.
Proof. intros [Hr Hl]. split; [now apply TimeClip_valid | exact Hl]. Qed.

(** In a zone whose offset never changes every local time exists, up to
    the range of time values. *)
Lemma fixed_offset_exists o x :
  Z.abs (x - o) <= maxTime -> local_exists (fixed_offset o) x.
Proof.
  intros H. unfold local_exists, LocalTime, UTC, fixed_offset.
  split; [exact H | lia].
Qed.

(** Setting the date of a time value moves it by whole days. *)
Lemma MakeDay_own_month lt n :
  MakeDay (YearFromTime lt) (MonthFromTime lt) n
  = Day lt - DateFromTime lt + n.
Proof.
  unfold MakeDay, YearFromTime, MonthFromTime, DateFromTime.
  destruct (civil_from_days (Day lt)) as [[y m] d] eqn:E. simpl.
  apply civil_from_days_inv in E. destruct E as (Hm & _ & E).
  replace ((m - 1) / 12) with 0 by (Z.div_mod_to_equations; lia).
  replace ((m - 1) mod 12 + 1) with m by (Z.div_mod_to_equations; lia).
  rewrite Z.add_0_r. rewrite days_from_civil_date in E. lia.
Qed.

Lemma MakeDay_valid y m d :
  1 <= m <= 12 -> MakeDay y (m - 1) d = days_from_civil y m d.
Proof.
  intros Hm. unfold MakeDay.
  replace ((m - 1) / 12) with 0 by (Z.div_mod_to_equations; lia).
  replace ((m - 1) mod 12 + 1) with m by (Z.div_mod_to_equations; lia).
  rewrite Z.add_0_r. rewrite (days_from_civil_date y m d). lia.
Qed.

(** The fields of a local midnight. *)
Lemma midnight_fields day :
  Day (Text.midnight day) = day
  /\ TimeWithinDay (Text.midnight day) = 0
  /\ HourFromTime (Text.midnight day) = 0
  /\ MinFromTime (Text.midnight day) = 0
  /\ SecFromTime (Text.midnight day) = 0
  /\ msFromTime (Text.midnight day) = 0.
Proof.
  unfold Text.midnight, Day, TimeWithinDay, HourFromTime, MinFromTime,
    SecFromTime, msFromTime, MakeDate, msPerDay, msPerHour, msPerMinute,
    msPerSecond.
  repeat split; Z.div_mod_to_equations; lia.
Qed.

Lemma monday_of_spec day :
  (Text.monday_of day + 4) mod 7 = 1
  /\ Text.monday_of day <= day <= Text.monday_of day + 6.
Proof. unfold Text.monday_of. split; Z.div_mod_to_equations; lia. Qed.

(** [setHours(0, 0, 0, 0)] on a day whose midnight exists. *)
Lemma setHours_midnight tza u :
  local_exists tza (Text.midnight (Day (LocalTime tza u))) ->
  setHours tza (DateAt u) (Num 0) (Num 0) (Num 0) (Num 0)
  = DateAt (UTC tza (Text.midnight (Day (LocalTime tza u)))).
Proof.
  intros H. destruct (local_exists_date tza _ H) as (Hc & _).
  unfold setHours. exact Hc.
Qed.

(** [setDate] on a local midnight, when the midnight it moves to exists. *)
Lemma setDate_midnight tza day n :
  local_exists tza (Text.midnight day) ->
  local_exists tza (Text.midnight (day + n)) ->
  setDate tza (DateAt (UTC tza (Text.midnight day)))
    (Num (DateFromTime (Text.midnight day) + n))
  = DateAt (UTC tza (Text.midnight (day + n))).
Proof.
  intros H0 H1.
  destruct (local_exists_date tza _ H0) as (_ & Hl0).
  destruct (local_exists_date tza _ H1) as (Hc1 & _).
  destruct (midnight_fields day) as (Hd & Ht & _).
  unfold setDate. rewrite Hl0, MakeDay_own_month, Hd, Ht.
  replace (day - DateFromTime (Text.midnight day)
           + (DateFromTime (Text.midnight day) + n)) with (day + n) by lia.
  exact Hc1.
Qed.

(** The value of [startOfWeek] when the midnight of the day and the
    midnight of its Monday exist. *)
Lemma startOfWeek_value tza u :
  let day := Day (LocalTime tza u) in
  local_exists tza (Text.midnight day) ->
  local_exists tza (Text.midnight (Text.monday_of day)) ->
  App.startOfWeek tza (DateAt u)
  = DateAt (UTC tza (Text.midnight (Text.monday_of day))).
Proof.
  intros day H0 HM.
  destruct (local_exists_date tza _ H0) as (_ & Hl0).
  destruct (midnight_fields day) as (Hd & _).
  unfold App.startOfWeek. fold day. rewrite (setHours_midnight tza u H0).
  fold day. unfold getDay, getDate, local_field. rewrite Hl0.
  unfold WeekDay. rewrite Hd. unfold num_add, num_rem. cbn [Z.eqb].
  unfold num_sub.
  assert (Hdiff : Z.rem ((day + 4) mod 7 + 6) 7 = (day + 3) mod 7).
  { rewrite Z.rem_mod_nonneg by (Z.div_mod_to_equations; lia).
    Z.div_mod_to_equations. lia. }
  rewrite Hdiff.
  replace (DateFromTime (Text.midnight day) - (day + 3) mod 7)
    with (DateFromTime (Text.midnight day) + - ((day + 3) mod 7)) by lia.
  rewrite setDate_midnight; [reflexivity | exact H0 |].
  replace (day + - ((day + 3) mod 7)) with (Text.monday_of day)
    by (unfold Text.monday_of; lia).
  exact HM.
Qed.

(** C9, as amended. For every date whose local day has a midnight that
    exists in the time zone, and the Monday of whose week has one too,
    [startOfWeek] is that Monday at 00:00:00.000 local time: its day of
    the week is Monday, its time of day is zero, it is at most six days
    before the day of the argument and never after it; and applying
    [startOfWeek] to it gives it back. *)
Theorem startOfWeek_monday_idempotent (tza : Z -> bool -> Z) (t : Z) :
  let day := Day (LocalTime tza t) in
  local_exists tza (Text.midnight day) ->
  local_exists tza (Text.midnight (Text.monday_of day)) ->
  exists m,
    App.startOfWeek tza (DateAt t) = DateAt m
    /\ LocalTime tza m = Text.midnight (Text.monday_of day)
    /\ getDay tza (DateAt m) = Num 1
    /\ getHours tza (DateAt m) = Num 0
    /\ getMinutes tza (DateAt m) = Num 0
    /\ getSeconds tza (DateAt m) = Num 0
    /\ getMilliseconds tza (DateAt m) = Num 0
    /\ Day (LocalTime tza m) <= Day (LocalTime tza t) <= Day (LocalTime tza m) + 6
    /\ App.startOfWeek tza (DateAt m) = DateAt m.
Proof.
  intros day H0 HM.
  destruct (local_exists_date tza _ HM) as (_ & HlM).
  destruct (midnight_fields (Text.monday_of day))
    as (Hd & _ & Hh & Hmi & Hs & Hms).
  destruct (monday_of_spec day) as (Hw & Hrange).
  exists (UTC tza (Text.midnight (Text.monday_of day))).
  split; [now apply startOfWeek_value|].
  split; [exact HlM|].
  unfold getDay, getHours, getMinutes, getSeconds, getMilliseconds, local_field.
  rewrite HlM, Hh, Hmi, Hs, Hms. unfold WeekDay. rewrite Hd, Hw.
  fold day.
  repeat (split; [reflexivity|]).
  split; [exact Hrange|].
  pose proof (startOfWeek_value tza
                (UTC tza (Text.midnight (Text.monday_of day)))) as Hagain.
  cbv zeta in Hagain. rewrite HlM, Hd in Hagain.
  assert (Hfix : Text.monday_of (Text.monday_of day) = Text.monday_of day)
    by (unfold Text.monday_of; Z.div_mod_to_equations; lia).
  rewrite Hfix in Hagain. now apply Hagain.
Qed.

(** A Wednesday noon in Universal time: the week starts on Monday
    4 March 2024 at 00:00. *)
Lemma startOfWeek_monday_idempotent_witness :
  App.startOfWeek Samples.utc (DateAt 1709726400000) = DateAt 1709510400000
  /\ getDay Samples.utc (DateAt 1709510400000) = Num 1
  /\ App.startOfWeek Samples.utc (DateAt 1709510400000) = DateAt 1709510400000.
Proof.
  assert (H0 : local_exists Samples.utc
                 (Text.midnight (Day (LocalTime Samples.utc 1709726400000))))
    by (apply fixed_offset_exists; vm_compute; discriminate).
  assert (HM : local_exists Samples.utc
                 (Text.midnight
                    (Text.monday_of (Day (LocalTime Samples.utc 1709726400000)))))
    by (apply fixed_offset_exists; vm_compute; discriminate).
  destruct (startOfWeek_monday_idempotent Samples.utc 1709726400000 H0 HM)
    as (m & Em & _ & Hday & _ & _ & _ & _ & _ & Hfix).
  assert (Hm : m = 1709510400000)
    by (vm_compute in Em; now injection Em as <-).
  subst m. split; [exact Em | split; [exact Hday | exact Hfix]].
Defined.

(** C9, as stated, fails where an offset change skips midnight: in
    Tehran the Monday 22 March 2021 began at 01:00, and for Wednesday
    24 March, 13:00 local time, [startOfWeek] is that Monday at 01:00,
    not at 00:00. *)
Lemma startOfWeek_skipped_midnight :
  App.startOfWeek Samples.tehran_2021 (DateAt 1616574600000)
  = DateAt 1616358600000
  /\ getDay Samples.tehran_2021 (DateAt 1616358600000) = Num 1
  /\ getHours Samples.tehran_2021 (DateAt 1616358600000) = Num 1
  /\ getHours Samples.tehran_2021
       (App.startOfWeek Samples.tehran_2021 (DateAt 1616574600000))
     <> Num 0.
Proof.
  split; [vm_compute; reflexivity|].
  split; [vm_compute; reflexivity|].
  split; [vm_compute; reflexivity|].
  vm_compute. discriminate.
Qed.
(** * Strings *)

Lemma all_from_spec f n :
  forall lo, Text.all_from f lo n = true ->
  forall x, lo <= x < lo + Z.of_nat n -> f x = true.
Proof.
  induction n as [|k IH]; intros lo H x Hx.
  - simpl in Hx. lia.
  - cbn [Text.all_from] in H. apply andb_true_iff in H. destruct H as [H0 H1].
    destruct (Z.eq_dec x lo) as [-> | Hne]; [exact H0|].
    apply (IH (lo + 1) H1). lia.
Qed.

Lemma two_digit_facts n : 0 <= n <= 99 -> Text.two_digit_ok n = true.
Proof.
  intros H.
  apply (all_from_spec Text.two_digit_ok (Z.to_nat 100) 0);
    [vm_compute; reflexivity | rewrite Z2Nat.id; lia].
Qed.

Lemma four_digit_facts y : 1000 <= y <= 9999 -> Text.four_digit_ok y = true.
Proof.
  intros H.
  apply (all_from_spec Text.four_digit_ok (Z.to_nat 9000) 1000);
    [vm_compute; reflexivity | rewrite Z2Nat.id; lia].
Qed.

Lemma num_eqb_eq a b : Text.num_eqb a b = true -> a = b.
Proof.
  destruct a, b; simpl; intros H; try discriminate; try reflexivity.
  apply Z.eqb_eq in H. now subst.
Qed.

Lemma append_assoc (a b c : string) : (a ++ b) ++ c = a ++ (b ++ c).
Proof. induction a as [|x a IH]; simpl; [reflexivity | now rewrite IH]. Qed.

Lemma str_truthy_append a b : str_truthy a = true -> str_truthy (a ++ b) = true.
Proof. destruct a; simpl; [discriminate | reflexivity]. Qed.

Lemma split_single sep a : Text.no_char sep a = true -> split sep a = [a].
Proof.
  induction a as [|x a IH]; simpl; intros H; [reflexivity|].
  apply andb_true_iff in H. destruct H as [Hx Ha].
  apply negb_true_iff in Hx. rewrite Hx, (IH Ha). reflexivity.
Qed.

Lemma split_append sep a b :
  Text.no_char sep a = true ->
  split sep (a ++ String sep b) = a :: split sep b.
Proof.
  induction a as [|x a IH]; simpl; intros H.
  - now rewrite Ascii.eqb_refl.
  - apply andb_true_iff in H. destruct H as [Hx Ha].
    apply negb_true_iff in Hx. rewrite Hx, (IH Ha). reflexivity.
Qed.

Lemma two_digit_field n :
  0 <= n <= 99 ->
  let s := padStart 2 "0" (decimal n) in
  ToNumber s = Num n /\ Text.no_char "-" s = true
  /\ Text.no_char ":" s = true /\ str_truthy s = true.
Proof.
  intros H s. pose proof (two_digit_facts n H) as F.
  unfold Text.two_digit_ok in F. fold s in F.
  repeat (apply andb_true_iff in F; destruct F as [F ?]).
  repeat split; try assumption. now apply num_eqb_eq.
Qed.

Lemma four_digit_year y :
  1000 <= y <= 9999 ->
  let s := padStart 4 "0" (decimal y) in
  s = decimal y /\ ToNumber s = Num y /\ Text.no_char "-" s = true
  /\ str_truthy s = true.
Proof.
  intros H s. pose proof (four_digit_facts y H) as F.
  unfold Text.four_digit_ok in F.
  repeat (apply andb_true_iff in F; destruct F as [F ?]).
  apply String.eqb_eq in F. fold s in F. subst s. rewrite F.
  repeat split; try assumption. now apply num_eqb_eq.
Qed.

Lemma ToString_nonneg n : 0 <= n -> ToString (Num n) = decimal n.
Proof.
  intros H. unfold ToString.
  replace (n <? 0) with false by (symmetry; apply Z.ltb_ge; lia). reflexivity.
Qed.

(** The fields of the local time of a valid civil date and time of
    day. *)
Lemma local_fields_of_valid y m d h mi :
  1 <= m <= 12 -> 1 <= d <= days_in_month y m ->
  0 <= h <= 23 -> 0 <= mi <= 59 ->
  let x := Text.local_time_of y m d h mi in
  Day x = days_from_civil y m d
  /\ YearFromTime x = y /\ MonthFromTime x = m - 1 /\ DateFromTime x = d
  /\ HourFromTime x = h /\ MinFromTime x = mi.
Proof.
  intros Hm Hd Hh Hmi x. subst x. unfold Text.local_time_of, Text.at_time.
  assert (Ht : 0 <= MakeTime h mi 0 0 < msPerDay)
    by (unfold MakeTime, msPerDay, msPerHour, msPerMinute, msPerSecond; lia).
  unfold YearFromTime, MonthFromTime, DateFromTime.
  rewrite (Day_MakeDate _ _ Ht).
  rewrite civil_from_days_from_civil by assumption. cbn [fst snd].
  generalize (days_from_civil y m d) as day. intros day.
  repeat split.
  - unfold HourFromTime, MakeDate, MakeTime, msPerDay, msPerHour, msPerMinute,
      msPerSecond. Z.div_mod_to_equations. lia.
  - unfold MinFromTime, MakeDate, MakeTime, msPerDay, msPerHour, msPerMinute,
      msPerSecond. Z.div_mod_to_equations. lia.
Qed.

(** The Date constructor on the fields of a civil date with a year that
    is not read as 1900 + year, when the local time exists. *)
Lemma Date_of_fields_local tza y m d h mi :
  (y < 0 \/ 100 <= y) -> 1 <= m <= 12 ->
  local_exists tza (Text.local_time_of y m d h mi) ->
  Date_of_fields tza (Num y) (num_sub (Num m) (Num 1)) (Num d) (Num h) (Num mi)
    (Num 0) (Num 0)
  = DateAt (UTC tza (Text.local_time_of y m d h mi))
  /\ LocalTime tza (UTC tza (Text.local_time_of y m d h mi))
     = Text.local_time_of y m d h mi.
Proof.
  intros Hy Hm Hx. destruct (local_exists_date tza _ Hx) as (Hc & Hl).
  split; [| exact Hl].
  unfold Date_of_fields, num_sub.
  replace ((0 <=? y) && (y <=? 99)) with false.
  - rewrite MakeDay_valid by assumption. exact Hc.
  - symmetry. apply andb_false_iff.
    destruct Hy; [left; apply Z.leb_gt | right; apply Z.leb_gt]; lia.
Qed.

Lemma toLocalIsoString_parts tza dt :
  App.toLocalIsoString tza dt
  = App.formatDateInput tza dt ++ "T"
    ++ (App.pad2 (getHours tza dt) ++ ":" ++ App.pad2 (getMinutes tza dt) ++ ":00").
Proof. reflexivity. Qed.

(** What the Date at an existing local time of a valid civil date with
    a four-digit year shows. *)
Lemma shown_of_valid tza y m d h mi :
  1000 <= y <= 9999 -> 1 <= m <= 12 -> 1 <= d <= days_in_month y m ->
  0 <= h <= 23 -> 0 <= mi <= 59 ->
  local_exists tza (Text.local_time_of y m d h mi) ->
  let dt := DateAt (UTC tza (Text.local_time_of y m d h mi)) in
  App.formatDateInput tza dt = Text.date_string y m d
  /\ getHours tza dt = Num h
  /\ getMinutes tza dt = Num mi
  /\ App.toLocalIsoString tza dt
     = Text.date_string y m d ++ "T" ++ Text.time_string h mi ++ ":00".
Proof.
  intros Hy Hm Hd Hh Hmi Hx dt. subst dt.
  destruct (local_exists_date tza _ Hx) as (_ & Hl).
  destruct (four_digit_year y Hy) as (EY & _).
  pose proof (days_in_month_bound y m d Hm (proj2 Hd)) as (_ & _ & Hd31).
  pose proof (local_fields_of_valid y m d h mi Hm Hd Hh Hmi) as L.
  cbv zeta in L. destruct L as (_ & LY & LM & LD & LH & LMI).
  assert (Hfmt : App.formatDateInput tza
                   (DateAt (UTC tza (Text.local_time_of y m d h mi)))
                 = Text.date_string y m d).
  { unfold App.formatDateInput, App.pad2, getFullYear, getMonth, getDate,
      local_field, num_add.
    rewrite Hl, LY, LM, LD. replace (m - 1 + 1) with m by lia.
    rewrite !ToString_nonneg by lia.
    unfold Text.date_string. rewrite EY. reflexivity. }
  assert (Hh' : getHours tza (DateAt (UTC tza (Text.local_time_of y m d h mi)))
                = Num h)
    by (unfold getHours, local_field; now rewrite Hl, LH).
  assert (Hmi' : getMinutes tza
                   (DateAt (UTC tza (Text.local_time_of y m d h mi)))
                 = Num mi)
    by (unfold getMinutes, local_field; now rewrite Hl, LMI).
  split; [exact Hfmt | split; [exact Hh' | split; [exact Hmi'|]]].
  rewrite toLocalIsoString_parts, Hfmt, Hh', Hmi'. unfold App.pad2.
  rewrite !ToString_nonneg by lia.
  unfold Text.time_string. now rewrite !append_assoc.
Qed.

Lemma date_parts_of_string y m d :
  1000 <= y <= 9999 -> 0 <= m <= 99 -> 0 <= d <= 99 ->
  App.date_parts (Text.date_string y m d) = [Num y; Num m; Num d]
  /\ str_truthy (Text.date_string y m d) = true.
Proof.
  intros Hy Hm Hd.
  destruct (four_digit_year y Hy) as (EY & NY & DY & TY).
  destruct (two_digit_field m Hm) as (NM & DM & _ & TM).
  destruct (two_digit_field d Hd) as (ND & DD & _ & TD).
  unfold App.date_parts, Text.date_string.
  set (Y := padStart 4 "0" (decimal y)) in *.
  set (M := padStart 2 "0" (decimal m)) in *.
  set (D := padStart 2 "0" (decimal d)) in *.
  split; [| now apply str_truthy_append].
  change (Y ++ "-" ++ M ++ "-" ++ D) with (Y ++ String "-" (M ++ String "-" D)).
  rewrite (split_append "-" Y _ DY), (split_append "-" M _ DM),
    (split_single "-" D DD).
  cbn [map]. now rewrite NY, NM, ND.
Qed.

Lemma time_parts_of_string h mi :
  0 <= h <= 99 -> 0 <= mi <= 99 ->
  map ToNumber (split ":" (Text.time_string h mi)) = [Num h; Num mi]
  /\ str_truthy (Text.time_string h mi) = true.
Proof.
  intros Hh Hmi.
  destruct (two_digit_field h Hh) as (NH & _ & CH & TH).
  destruct (two_digit_field mi Hmi) as (NMI & _ & CMI & TMI).
  unfold Text.time_string.
  set (H := padStart 2 "0" (decimal h)) in *.
  set (MI := padStart 2 "0" (decimal mi)) in *.
  split; [| now apply str_truthy_append].
  change (H ++ ":" ++ MI) with (H ++ String ":" MI).
  rewrite (split_append ":" H _ CH), (split_single ":" MI CMI).
  cbn [map]. now rewrite NH, NMI.
Qed.

(** Parsing a well-formed date string and time string. *)
Lemma parse_of_strings tza y m d h mi :
  1000 <= y <= 9999 -> 1 <= m <= 99 -> 1 <= d <= 99 ->
  0 <= h <= 99 -> 0 <= mi <= 99 ->
  App.parseLocalDateTime tza (Text.date_string y m d) (Text.time_string h mi)
  = Some (Date_of_fields tza (Num y) (num_sub (Num m) (Num 1)) (Num d)
            (Num h) (Num mi) (Num 0) (Num 0)).
Proof.
  intros Hy Hm Hd Hh Hmi.
  destruct (date_parts_of_string y m d Hy ltac:(lia) ltac:(lia)) as (Pd & Td).
  destruct (time_parts_of_string h mi Hh Hmi) as (Pt & Tt).
  unfold App.parseLocalDateTime. rewrite Td, Tt. cbn [negb orb].
  fold (App.date_parts (Text.date_string y m d)). rewrite Pd, Pt.
  cbn [nth_error App.elem_truthy App.elem_isNaN App.elem_num num_truthy
         num_isNaN].
  replace (y =? 0) with false by (symmetry; apply Z.eqb_neq; lia).
  replace (m =? 0) with false by (symmetry; apply Z.eqb_neq; lia).
  replace (d =? 0) with false by (symmetry; apply Z.eqb_neq; lia).
  reflexivity.
Qed.

(** C10, as amended. For every date string YYYY-MM-DD with a year from
    1000 to 9999, a month from 1 to 12 and a day valid for that month,
    and every time string HH:MM with an hour from 0 to 23 and a minute
    from 0 to 59, such that this local date and time exists in the time
    zone (no change of offset skips it), [parseLocalDateTime] returns a
    valid Date for which [formatDateInput] gives back the date string,
    whose hours and minutes are those of the time string, and whose
    [toLocalIsoString] is the date string, "T", the time string and
    ":00". *)
Theorem parseLocalDateTime_round_trip (tza : Z -> bool -> Z) (y m d h mi : Z) :
  1000 <= y <= 9999 -> 1 <= m <= 12 -> 1 <= d <= days_in_month y m ->
  0 <= h <= 23 -> 0 <= mi <= 59 ->
  local_exists tza (Text.local_time_of y m d h mi) ->
  Text.round_trip tza y m d h mi.
Proof.
  intros Hy Hm Hd Hh Hmi Hx.
  pose proof (days_in_month_bound y m d Hm (proj2 Hd)) as (_ & _ & Hd31).
  destruct (Date_of_fields_local tza y m d h mi ltac:(lia) Hm Hx) as (Hdate & _).
  destruct (shown_of_valid tza y m d h mi Hy Hm Hd Hh Hmi Hx)
    as (Hfmt & Hh' & Hmi' & Hiso).
  exists (UTC tza (Text.local_time_of y m d h mi)).
  split; [| split; [exact Hfmt | split; [exact Hh' | split; [exact Hmi' | exact Hiso]]]].
  rewrite parse_of_strings by lia. now rewrite Hdate.
Qed.

(** A concrete instance: 29 February 2024 at 09:05, three hours east of
    Greenwich. *)
Lemma parseLocalDateTime_round_trip_witness :
  Text.round_trip Samples.east3 2024 2 29 9 5.
Proof.
  apply parseLocalDateTime_round_trip;
    try (vm_compute; split; discriminate).
  apply fixed_offset_exists. vm_compute. discriminate.
Defined.

(** C10, as stated, fails for the year 50: the Date constructor reads a
    year from 0 to 99 as 1900 + year, so the date that comes back is in
    1950. *)
Lemma parseLocalDateTime_year_50 :
  1 <= 50 /\ 1 <= 1 <= 12 /\ 1 <= 1 <= days_in_month 50 1
  /\ ~ Text.round_trip Samples.utc 50 1 1 9 0.
Proof.
  split; [lia | split; [lia | split; [vm_compute; split; discriminate |]]].
  intros (t & Hp & Hf & _).
  vm_compute in Hp. injection Hp as <-.
  vm_compute in Hf. discriminate.
Qed.

(** It also fails for a local time that an offset change skips: in New
    York 02:30 on 10 March 2024 did not exist, and the Date made from
    "2024-03-10" and "02:30" shows 03:30. *)
Example parseLocalDateTime_skipped_hour :
  App.parseLocalDateTime Samples.new_york_2024 "2024-03-10" "02:30"
  = Some (DateAt 1710055800000)
  /\ App.toLocalIsoString Samples.new_york_2024 (DateAt 1710055800000)
     = "2024-03-10T03:30:00"
  /\ ~ local_exists Samples.new_york_2024 (Text.local_time_of 2024 3 10 2 30).
Proof.
  split; [vm_compute; reflexivity|].
  split; [vm_compute; reflexivity|].
  intros [_ H]. vm_compute in H. discriminate.
Qed.
(** * The web client *)

Lemma rounded_minutes x n :
  60000 * n - 30000 <= x < 60000 * n + 30000 ->
  (2 * x + 60000) / (2 * 60000) = n.
Proof. intros H. Z.div_mod_to_equations. lia. Qed.

Lemma rounded_minutes_inv x :
  60000 * ((2 * x + 60000) / (2 * 60000)) - 30000 <= x
  < 60000 * ((2 * x + 60000) / (2 * 60000)) + 30000.
Proof. Z.div_mod_to_equations. lia. Qed.

Section ClientFacts.

Variable tza : Z -> bool -> Z.
Variable Date_parse : string -> JsDate.

(** C4. The duration of a task is the difference between planned_end
    and planned_start rounded to whole minutes when both fields are set
    and that rounded difference is positive; otherwise it is
    estimate_minutes when that field is present and not zero; otherwise
    it is 30. *)
Theorem getTaskDurationMinutes_cases (task : App.Task) :
  (forall n, App.positive_span Date_parse task n ->
             App.getTaskDurationMinutes Date_parse task = n)
  /\ ((forall n, ~ App.positive_span Date_parse task n) ->
      forall m, App.estimate_minutes task = Some m -> m <> 0 ->
                App.getTaskDurationMinutes Date_parse task = m)
  /\ ((forall n, ~ App.positive_span Date_parse task n) ->
      App.estimate_minutes task = None \/ App.estimate_minutes task = Some 0 ->
      App.getTaskDurationMinutes Date_parse task = 30).
Proof.
  clear tza.
  assert (Hfall : (forall n, ~ App.positive_span Date_parse task n) ->
            App.getTaskDurationMinutes Date_parse task
            = App.number_or (App.estimate_minutes task) 30).
  { intros Hno. unfold App.getTaskDurationMinutes.
    destruct (App.planned_start task) as [ps|] eqn:Eps; [|reflexivity].
    destruct (App.planned_end task) as [pe|] eqn:Epe; [|reflexivity].
    destruct (str_truthy ps) eqn:Tps; [|reflexivity].
    destruct (str_truthy pe) eqn:Tpe; [|reflexivity].
    cbn [andb].
    destruct (Date_parse pe) as [|e] eqn:Ee; [reflexivity|].
    destruct (Date_parse ps) as [|s0] eqn:Es; [reflexivity|].
    cbn [getTime num_sub Math_round_div].
    destruct (0 <? (2 * (e - s0) + 60000) / (2 * 60000)) eqn:Epos; [|reflexivity].
    exfalso. apply Z.ltb_lt in Epos.
    apply (Hno ((2 * (e - s0) + 60000) / (2 * 60000))).
    exists ps, pe, s0, e. repeat split; try assumption;
      apply rounded_minutes_inv. }
  split; [| split].
  - intros n (ps & pe & s0 & e & Eps & Epe & Tps & Tpe & Es & Ee & Hn & Hpos).
    unfold App.getTaskDurationMinutes.
    rewrite Eps, Epe, Tps, Tpe, Es, Ee. cbn [andb getTime num_sub Math_round_div].
    rewrite (rounded_minutes _ _ Hn).
    replace (0 <? n) with true by (symmetry; apply Z.ltb_lt; lia). reflexivity.
  - intros Hno m Em Hm. rewrite (Hfall Hno), Em. unfold App.number_or.
    replace (m =? 0) with false by (symmetry; apply Z.eqb_neq; lia). reflexivity.
  - intros Hno [Em | Em]; rewrite (Hfall Hno), Em; reflexivity.
Qed.

(** C8. For a task whose priority is 1, 2 or 3, or absent and then
    taken as 2, a click on the priority pill asks for the current
    priority plus one when it is below 3 and for 1 otherwise; the
    priority sent is between 1 and 3. *)
Theorem priority_cycle (task : App.Task) :
  (App.priority task = None
   \/ exists p, App.priority task = Some p /\ 1 <= p <= 3) ->
  let current := App.number_or (App.priority task) 2 in
  App.priorityClick task
  = [App.PATCH (App.id task) (App.priority_body (App.nextPriority task))]
  /\ (current < 3 -> App.nextPriority task = current + 1)
  /\ (3 <= current -> App.nextPriority task = 1)
  /\ 1 <= App.nextPriority task <= 3.
Proof.
  intros H current. unfold App.nextPriority. fold current.
  assert (Hc : 1 <= current <= 3).
  { subst current. destruct H as [-> | (p & -> & Hp)]; cbn [App.number_or].
    - lia.
    - replace (p =? 0) with false by (symmetry; apply Z.eqb_neq; lia). lia. }
  split; [reflexivity|].
  destruct (3 <=? current) eqn:E;
    [apply Z.leb_le in E | apply Z.leb_gt in E]; repeat split; intros; lia.
Qed.

(** Case analysis on the tests of a handler. *)
Ltac handler_cases :=
  repeat match goal with
         | H : In _ [] |- _ => destruct H
         | H : In _ [_] |- _ => destruct H as [H | []]
         | H : In _ [_; _] |- _ => destruct H as [H | [H | []]]
         | H : In _ (if ?b then _ else _) |- _ => destruct b eqn:?
         | H : In _ (match ?x with _ => _ end) |- _ => destruct x eqn:?
         end.

Lemma perform_sent ui a r :
  In r (App.perform tza Date_parse ui a) -> App.Sent tza a r.
Proof.
  destruct a; cbn [App.perform]; intros H.
  - unfold App.handleDropOnDay in H. handler_cases; subst r;
      now apply App.SentPlacement.
  - unfold App.handleDropOnSlot in H. handler_cases; subst r;
      now apply App.SentPlacement.
  - unfold App.handleDropOnBacklog in H. handler_cases; subst r.
    apply App.SentUnscheduleDrop.
    match goal with
    | E : negb _ = false |- _ => now apply negb_false_iff in E
    end.
  - unfold App.handleDropOnTask in H. handler_cases; subst r;
      now apply App.SentPlacement.
  - unfold App.priorityClick in H. handler_cases; subst r.
    now apply App.SentOther.
  - unfold App.titleEdit in H. handler_cases; subst r. now apply App.SentOther.
  - unfold App.timeEdit in H. handler_cases; subst r; now apply App.SentPlacement.
  - unfold App.notesEdit in H. handler_cases; subst r; now apply App.SentOther.
  - unfold App.handleMarkDone in H. handler_cases; subst r. now apply App.SentOther.
  - unfold App.handleDelete in H. handler_cases; subst r. apply App.SentDelete.
  - unfold App.handleUnschedule in H. handler_cases; subst r.
    apply App.SentUnscheduleClick.
  - unfold App.handleMove in H. handler_cases; subst r; now apply App.SentPlacement.
Qed.



(** C7. The unschedule button sends, for the selected task, one PATCH
    whose body sets planned_start and planned_end to null and
    schedule_source to "manual" and nothing else, and sends nothing when
    no task is selected; a drop on the backlog sends the same body for
    the dropped task when its planned_start is set and nothing when it
    is not; the button is enabled exactly for a task whose planned_start
    is set; and a body that sets a placement field to null is only ever
    sent by the unschedule button or by a drop on the backlog, which are
    actions of the user. *)
Theorem unschedule_by_user_only (ui : App.Panel) :
  (forall task,
     App.getSelectedTask ui = Some task ->
     App.handleUnschedule ui
     = [App.PATCH (App.id task)
          {| App.p_title := App.Omitted; App.p_notes := App.Omitted;
             App.p_priority := App.Omitted; App.p_is_done := App.Omitted;
             App.p_planned_start := App.Null; App.p_planned_end := App.Null;
             App.p_schedule_source := App.Value "manual" |}])
  /\ (App.getSelectedTask ui = None -> App.handleUnschedule ui = [])
  /\ (forall ev task,
        str_truthy (App.dropped_id ev) = true ->
        App.taskIndex_get (App.taskIndex ui) (App.dropped_id ev) = Some task ->
        App.handleDropOnBacklog (App.taskIndex ui) ev
        = (if App.field_truthy (App.planned_start task)
           then [App.PATCH (App.id task)
                   {| App.p_title := App.Omitted; App.p_notes := App.Omitted;
                      App.p_priority := App.Omitted;
                      App.p_is_done := App.Omitted;
                      App.p_planned_start := App.Null;
                      App.p_planned_end := App.Null;
                      App.p_schedule_source := App.Value "manual" |}]
           else []))
  /\ (forall enabled task,
        App.unscheduleTask_disabled (App.setActionButtonsEnabled enabled task)
        = false
        <-> (enabled = true
             /\ exists t, task = Some t
                  /\ App.field_truthy (App.planned_start t) = true))
  /\ (forall a taskId body,
        In (App.PATCH taskId body) (App.perform tza Date_parse ui a) ->
        App.p_planned_start body = App.Null
        \/ App.p_planned_end body = App.Null ->
        body = App.unschedule_body
        /\ (a = App.ClickUnschedule \/ exists ev, a = App.DropOnBacklog ev)).
Proof.
  split; [| split; [| split; [| split]]].
  - intros task H. unfold App.handleUnschedule. now rewrite H.
  - intros H. unfold App.handleUnschedule. now rewrite H.
  - intros ev task Hev Hget. unfold App.handleDropOnBacklog.
    rewrite Hev, Hget. cbn [negb].
    now destruct (App.field_truthy (App.planned_start task)).
  - intros enabled task. unfold App.setActionButtonsEnabled.
    cbn [App.unscheduleTask_disabled]. split.
    + intros H. destruct enabled; cbn [negb] in H; [| discriminate].
      split; [reflexivity|].
      destruct task as [t|]; [| discriminate].
      exists t. split; [reflexivity|]. now apply negb_false_iff in H.
    + intros (-> & t & -> & Ht). cbn [negb]. now rewrite Ht.
  - intros a taskId body H Hnull. apply perform_sent in H.
    inversion H; subst; cbn in Hnull;
      try (destruct Hnull; discriminate); try (destruct Hnull; congruence).
    + split; [reflexivity|]. right. now eexists.
    + split; [reflexivity|]. now left.
Qed.

End ClientFacts.

(** * The scheduling engine *)

Section AnchorFacts.

Import Engine.

Lemma anchor_key_eqb_refl k : anchor_key_eqb k k = true.
Proof.
  destruct k; simpl; rewrite ?Z.eqb_refl, ?String.eqb_refl; reflexivity.
Qed.

Lemma has_anchor_key_refresh user k ttl n t :
  has_anchor_key user k (set_descriptive ttl n t) = has_anchor_key user k t.
Proof. reflexivity. Qed.

Lemma update_first_views p f l :
  (forall t, placement_view (f t) = placement_view t) ->
  map placement_view (update_first p f l) = map placement_view l.
Proof.
  intros Hf. induction l as [|t l IH]; simpl; [reflexivity|].
  destruct (p t); simpl; [now rewrite Hf | now rewrite IH].
Qed.

Lemma find_update_first_view q p f l :
  (forall t, q (f t) = q t) ->
  (forall t, placement_view (f t) = placement_view t) ->
  option_map placement_view (find q (update_first p f l))
  = option_map placement_view (find q l).
Proof.
  intros Hq Hf. induction l as [|t l IH]; simpl; [reflexivity|].
  destruct (p t); simpl.
  - rewrite Hq. destruct (q t); simpl; [now rewrite Hf | reflexivity].
  - destruct (q t); simpl; [reflexivity | exact IH].
Qed.

Lemma find_snoc_some {A} (q : A -> bool) l w t :
  find q l = Some t -> find q (l ++ [w]) = Some t.
Proof.
  induction l as [|x l IH]; simpl; [discriminate|].
  destruct (q x); [trivial | exact IH].
Qed.

Lemma find_snoc_none {A} (q : A -> bool) l w :
  find q l = None -> q w = true -> find q (l ++ [w]) = Some w.
Proof.
  induction l as [|x l IH]; simpl; intros H Hw.
  - now rewrite Hw.
  - destruct (q x); [discriminate | now apply IH].
Qed.

(** An upsert never changes what is found under any key. *)
Lemma upsert_keeps_found user a s k v :
  found_view user k s = Some v ->
  found_view user k (fst (upsertByAnchorKey user a s)) = Some v.
Proof.
  unfold found_view, upsertByAnchorKey. intros H.
  destruct (find (has_anchor_key user (a_key a)) (rows s)) as [t|] eqn:E;
    cbn [fst rows].
  - rewrite find_update_first_view; [exact H | reflexivity | reflexivity].
  - destruct (find (has_anchor_key user k) (rows s)) as [t|] eqn:Ek;
      [| discriminate].
    now rewrite (find_snoc_some _ _ _ _ Ek).
Qed.

(** After an upsert the row it returns is the one found under its key. *)
Lemma upsert_finds_own user a s :
  found_view user (a_key a) (fst (upsertByAnchorKey user a s))
  = Some (placement_view (snd (upsertByAnchorKey user a s))).
Proof.
  unfold found_view, upsertByAnchorKey.
  destruct (find (has_anchor_key user (a_key a)) (rows s)) as [t|] eqn:E;
    cbn [fst snd rows].
  - rewrite find_update_first_view; [| reflexivity | reflexivity].
    now rewrite E.
  - rewrite (find_snoc_none _ _ _ E); [reflexivity|].
    unfold has_anchor_key. cbn [user_id anchor_key].
    now rewrite Z.eqb_refl, anchor_key_eqb_refl.
Qed.

(** An upsert under a key that is present changes no identifier, no key
    and no placement, and adds no row. *)
Lemma upsert_present user a s v :
  found_view user (a_key a) s = Some v ->
  map placement_view (rows (fst (upsertByAnchorKey user a s)))
  = map placement_view (rows s)
  /\ next_id (fst (upsertByAnchorKey user a s)) = next_id s
  /\ placement_view (snd (upsertByAnchorKey user a s)) = v.
Proof.
  unfold found_view, upsertByAnchorKey. intros H.
  destruct (find (has_anchor_key user (a_key a)) (rows s)) as [t|] eqn:E;
    [| discriminate].
  cbn [fst snd rows next_id]. injection H as <-.
  split; [| split; reflexivity].
  now apply update_first_views.
Qed.

Lemma upsert_all_cons user a specs s :
  upsert_all user (a :: specs) s
  = (fst (upsert_all user specs (fst (upsertByAnchorKey user a s))),
     snd (upsertByAnchorKey user a s)
     :: snd (upsert_all user specs (fst (upsertByAnchorKey user a s)))).
Proof.
  cbn [upsert_all].
  destruct (upsertByAnchorKey user a s) as [s1 t]. cbn [fst snd].
  destruct (upsert_all user specs s1) as [s2 ts]. reflexivity.
Qed.

Lemma upsert_all_keeps_found user specs :
  forall s k v,
    found_view user k s = Some v ->
    found_view user k (fst (upsert_all user specs s)) = Some v.
Proof.
  induction specs as [|a specs IH]; intros s k v H; [exact H|].
  rewrite upsert_all_cons. cbn [fst].
  apply IH. now apply upsert_keeps_found.
Qed.

(** After resolving a list of anchors every returned row is the one
    found under its key. *)
Lemma upsert_all_finds_own user specs :
  forall s,
    Forall2 (fun a t => found_view user (a_key a) (fst (upsert_all user specs s))
                        = Some (placement_view t))
            specs (snd (upsert_all user specs s)).
Proof.
  induction specs as [|a specs IH]; intros s; [constructor|].
  rewrite upsert_all_cons. cbn [fst snd]. constructor; [| apply IH].
  apply upsert_all_keeps_found. apply upsert_finds_own.
Qed.

(** Resolving anchors that are all present is a no-op on placements. *)
Lemma upsert_all_present user specs :
  forall s (ts : list Task),
    Forall2 (fun a t => found_view user (a_key a) s = Some (placement_view t))
            specs ts ->
    map placement_view (rows (fst (upsert_all user specs s)))
    = map placement_view (rows s)
    /\ next_id (fst (upsert_all user specs s)) = next_id s
    /\ map placement_view (snd (upsert_all user specs s))
       = map placement_view ts.
Proof.
  induction specs as [|a specs IH]; intros s ts H.
  - inversion H; subst. repeat split.
  - inversion H as [| a' t specs' ts' Ha Hrest]; subst.
    rewrite upsert_all_cons. cbn [fst snd].
    destruct (upsert_present user a s _ Ha) as (Hv & Hn & Ht).
    destruct (IH (fst (upsertByAnchorKey user a s)) ts') as (Hv' & Hn' & Ht').
    { eapply Forall2_impl; [| exact Hrest].
      intros x y Hxy. now apply upsert_keeps_found. }
    split; [congruence | split; [congruence |]].
    cbn [map]. now rewrite Ht, Ht'.
Qed.

(** C1. For every user and day, a second call of [ensureAnchors] after
    a first one returns the same anchor tasks as the first (same
    identifiers, same anchor keys, same planned_start and planned_end)
    and leaves the repository with the same rows in the same places: no
    row is added and no placement changes. *)
Theorem ensureAnchors_idempotent (cfg : RoutineConfig) (user day : Z)
  (s : Store) :
  let first := ensureAnchors cfg user day s in
  let second := ensureAnchors cfg user day (fst first) in
  map placement_view (snd second) = map placement_view (snd first)
  /\ map placement_view (rows (fst second))
     = map placement_view (rows (fst first))
  /\ List.length (rows (fst second)) = List.length (rows (fst first))
  /\ next_id (fst second) = next_id (fst first).
Proof.
  intros first second. subst first second. unfold ensureAnchors.
  set (specs := anchors_for cfg day).
  destruct (upsert_all_present user specs (fst (upsert_all user specs s))
              (snd (upsert_all user specs s))
              (upsert_all_finds_own user specs s)) as (Hv & Hn & Ht).
  repeat split; try assumption.
  rewrite <- (List.length_map placement_view), Hv. apply List.length_map.
Qed.

End AnchorFacts.

Section SlotFacts.

Import Engine.

Lemma findSlot_some pol t meal_ends free iv :
  findSlot pol t meal_ends free = Some iv ->
  exists f, In f free /\ candidate pol t meal_ends f = true
            /\ iv = placeIn pol t f.
Proof.
  induction free as [|f free IH]; simpl; [discriminate|].
  destruct (candidate pol t meal_ends f) eqn:E.
  - intros H. injection H as <-. exists f. auto.
  - intros H. destruct (IH H) as (g & Hg & Hc & Hiv). exists g. auto.
Qed.

Lemma findSlot_none pol t meal_ends free :
  (forall f, In f free -> candidate pol t meal_ends f = false) ->
  findSlot pol t meal_ends free = None.
Proof.
  induction free as [|f free IH]; simpl; intros H; [reflexivity|].
  rewrite (H f (or_introl eq_refl)). apply IH. intros g Hg. apply H. now right.
Qed.

Lemma findSlot_found pol t meal_ends free f :
  In f free -> candidate pol t meal_ends f = true ->
  exists iv, findSlot pol t meal_ends free = Some iv.
Proof.
  induction free as [|g free IH]; simpl; [intros []|].
  intros [-> | Hf] Hc.
  - rewrite Hc. eauto.
  - destruct (candidate pol t meal_ends g); [eauto | now apply IH].
Qed.

(** The margin on each side of a workout session is the travel buffer. *)
Lemma workout_margin s tr :
  (Z.max s (2 * tr + s) - s) / 2 = Z.max 0 tr.
Proof. Z.div_mod_to_equations. lia. Qed.

(** C3. For a workout task, with session duration S and one-way travel
    buffer T in the workout policy: the free interval a placement needs
    is at least max(S, S + 2T) long; a slot that is found spans exactly
    S minutes and leaves at least T minutes free before it and after it
    inside the free interval it was taken from; no slot is found when
    every free interval is shorter than that; a slot is found when some
    free interval is long enough and the session would not start where a
    meal ends.  A 60-minute workout with a 15-minute buffer needs 90
    minutes. *)
Theorem workout_buffer (pol : WorkoutPolicy) (t : Task) (meal_ends : list Z)
  (free : list Interval) :
  kind t = Workout ->
  let S := session_duration pol in
  let T := workout_travel_oneway_min pol in
  requiredLength pol t = Z.max S (S + 2 * T)
  /\ (forall iv, findSlot pol t meal_ends free = Some iv ->
        exists f, In f free
          /\ Z.max S (S + 2 * T) <= len f
          /\ len iv = S
          /\ i_start f + T <= i_start iv
          /\ i_end iv + T <= i_end f)
  /\ ((forall f, In f free -> len f < Z.max S (S + 2 * T)) ->
      findSlot pol t meal_ends free = None)
  /\ (forall f, In f free -> Z.max S (S + 2 * T) <= len f ->
        ~ In (i_start f + Z.max 0 T) meal_ends ->
        exists iv, findSlot pol t meal_ends free = Some iv)
  /\ (S = 60 -> T = 15 -> requiredLength pol t = 90).
Proof.
  intros Hk S T.
  assert (Hreq : requiredLength pol t = Z.max S (S + 2 * T)).
  { unfold requiredLength. rewrite Hk. subst S T. f_equal. lia. }
  assert (Hses : sessionLength pol t = S)
    by (unfold sessionLength; now rewrite Hk).
  assert (Hmargin : (requiredLength pol t - sessionLength pol t) / 2 = Z.max 0 T).
  { rewrite Hreq, Hses. replace (S + 2 * T) with (2 * T + S) by lia.
    apply workout_margin. }
  split; [exact Hreq | split; [| split; [| split]]].
  - intros iv H. apply findSlot_some in H. destruct H as (f & Hf & Hc & ->).
    exists f. unfold candidate in Hc. apply andb_true_iff in Hc.
    destruct Hc as [Hlen _]. apply Z.leb_le in Hlen. rewrite Hreq in Hlen.
    unfold placeIn, len in *. cbn [i_start i_end]. rewrite Hmargin, Hses.
    repeat split; try assumption; lia.
  - intros Hshort. apply findSlot_none. intros f Hf. unfold candidate.
    rewrite Hreq. specialize (Hshort f Hf).
    replace (Z.max S (S + 2 * T) <=? len f) with false
      by (symmetry; apply Z.leb_gt; lia).
    reflexivity.
  - intros f Hf Hlen Hmeal. apply (findSlot_found pol t meal_ends free f Hf).
    unfold candidate. rewrite Hreq, Hk.
    replace (Z.max S (S + 2 * T) <=? len f) with true
      by (symmetry; apply Z.leb_le; lia).
    cbn [andb]. apply negb_true_iff.
    destruct (existsb (Z.eqb (i_start (placeIn pol t f))) meal_ends) eqn:E;
      [| reflexivity].
    exfalso. apply existsb_exists in E. destruct E as (x & Hx & Ex).
    apply Z.eqb_eq in Ex. apply Hmeal.
    unfold placeIn in Ex. cbn [i_start] in Ex. rewrite Hmargin in Ex.
    now rewrite Ex.
  - intros HS HT. rewrite Hreq. lia.
Qed.

End SlotFacts.

Section PlacementFacts.

Import Engine.

Lemma overlaps_sym a b : overlaps a b = overlaps b a.
Proof. unfold overlaps. apply andb_comm. Qed.

Lemma conflict_sym a b : conflict a b = conflict b a.
Proof.
  unfold conflict.
  rewrite (Z.eqb_sym (user_id a)), (Z.eqb_sym (id a)).
  destruct (planned a), (planned b); try reflexivity.
  now rewrite overlaps_sym.
Qed.

Lemma conflict_core a a' b b' :
  core a = core a' -> core b = core b' -> conflict a b = conflict a' b'.
Proof.
  unfold core, conflict. intros Ha Hb.
  injection Ha as -> -> ->. injection Hb as -> -> ->. reflexivity.
Qed.

(** Rows that only repeat the cores of earlier rows bring no conflict. *)
Lemma apart_mono s s' :
  (forall x, In x (rows s') -> exists y, In y (rows s) /\ core x = core y) ->
  non_overlapping s -> non_overlapping s'.
Proof.
  intros Hsub Hs a b Ha Hb.
  destruct (Hsub a Ha) as (a' & Ha' & Ea).
  destruct (Hsub b Hb) as (b' & Hb' & Eb).
  rewrite (conflict_core _ _ _ _ Ea Eb). now apply Hs.
Qed.

Lemma conflict_unplanned a b : planned a = None -> conflict a b = false.
Proof.
  unfold conflict. intros ->. now rewrite andb_false_r.
Qed.

Lemma conflict_same_id a b : id a = id b -> conflict a b = false.
Proof.
  unfold conflict. intros ->. rewrite Z.eqb_refl. cbn [negb].
  now rewrite andb_false_r.
Qed.

(** A new row that is not planned keeps the invariant. *)
Lemma apart_snoc s s' new :
  rows s' = (rows s ++ [new])%list -> planned new = None ->
  non_overlapping s -> non_overlapping s'.
Proof.
  intros Hrows Hnew Hs a b Ha Hb. rewrite Hrows in Ha, Hb.
  apply in_app_or in Ha, Hb.
  destruct Ha as [Ha | [<- | []]], Hb as [Hb | [<- | []]].
  - now apply Hs.
  - now rewrite conflict_sym, (conflict_unplanned _ _ Hnew).
  - now rewrite (conflict_unplanned _ _ Hnew).
  - now apply conflict_same_id.
Qed.

Lemma update_first_in p f l x :
  In x (update_first p f l) ->
  In x l \/ exists t, find p l = Some t /\ x = f t.
Proof.
  induction l as [|t l IH]; simpl; [intros []|].
  destruct (p t) eqn:E; simpl.
  - intros [<- | H]; [right; eauto | left; now right].
  - intros [<- | H]; [left; now left|].
    destruct (IH H) as [H' | H']; [left; now right | now right].
Qed.

Lemma update_first_found p f l t :
  find p l = Some t -> In (f t) (update_first p f l).
Proof.
  induction l as [|x l IH]; simpl; [discriminate|].
  destruct (p x) eqn:E.
  - intros H. injection H as <-. now left.
  - intros H. right. now apply IH.
Qed.

Lemma occupiedBy_in s user except b y :
  In b (rows s) -> user_id b = user -> id b <> except ->
  planned b = Some y -> In y (occupiedBy s user except).
Proof.
  intros Hb Hu Hid Hp. unfold occupiedBy. apply in_flat_map.
  exists b. split; [assumption|].
  rewrite Hu, Z.eqb_refl.
  replace (id b =? except) with false by (symmetry; now apply Z.eqb_neq).
  cbn [negb andb]. rewrite Hp. now left.
Qed.

Lemma occupiedBy_inv s user except y :
  In y (occupiedBy s user except) ->
  exists b, In b (rows s) /\ user_id b = user /\ id b <> except
            /\ planned b = Some y.
Proof.
  unfold occupiedBy. intros H. apply in_flat_map in H.
  destruct H as (b & Hb & Hy). exists b.
  destruct (user_id b =? user) eqn:Eu; [| destruct Hy].
  destruct (id b =? except) eqn:Ei; [destruct Hy|]. cbn [negb andb] in Hy.
  destruct (planned b) as [iv|]; [| destruct Hy].
  destruct Hy as [<- | []].
  apply Z.eqb_eq in Eu. apply Z.eqb_neq in Ei. auto.
Qed.

Lemma existsb_false {A} (f : A -> bool) l x :
  existsb f l = false -> In x l -> f x = false.
Proof.
  intros H Hx. destruct (f x) eqn:E; [| reflexivity].
  assert (existsb f l = true) by (apply existsb_exists; eauto). congruence.
Qed.

Lemma conflict_fields a b :
  conflict a b = true ->
  user_id a = user_id b /\ id a <> id b
  /\ exists x y, planned a = Some x /\ planned b = Some y
                 /\ overlaps x y = true.
Proof.
  unfold conflict. intros H.
  apply andb_true_iff in H. destruct H as [H Ho].
  apply andb_true_iff in H. destruct H as [Hu Hi].
  apply Z.eqb_eq in Hu. apply negb_true_iff, Z.eqb_neq in Hi.
  destruct (planned a) as [x|], (planned b) as [y|]; try discriminate.
  repeat split; try assumption. now exists x, y.
Qed.

(** The check-and-set of a placement keeps the invariant. *)
Lemma place_keeps s user tid iv src s' :
  place s user tid iv src = Ok s' ->
  non_overlapping s -> non_overlapping s'.
Proof.
  unfold place, get.
  destruct (find (fun t => id t =? tid) (rows s)) as [t|] eqn:Ef;
    [| discriminate].
  destruct (negb (user_id t =? user)) eqn:Eu; [discriminate|].
  destruct (existsb (overlaps iv) (occupiedBy s user tid)) eqn:Eo;
    [discriminate|].
  intros H. injection H as <-. intros Hs.
  apply negb_false_iff, Z.eqb_eq in Eu.
  pose proof (find_some _ _ Ef) as [Ht Hid]. apply Z.eqb_eq in Hid.
  assert (Hnew : forall b, In b (rows s) ->
            conflict (set_planned (Some iv) src t) b = false).
  { intros b Hb. destruct (conflict (set_planned (Some iv) src t) b) eqn:Ec;
      [| reflexivity].
    apply conflict_fields in Ec.
    destruct Ec as (Hu & Hi & x & y & Hx & Hy & Hov).
    cbn [set_planned user_id id planned] in Hu, Hi, Hx. injection Hx as <-.
    assert (In y (occupiedBy s user tid))
      by (apply (occupiedBy_in s user tid b); congruence).
    rewrite (existsb_false _ _ _ Eo H) in Hov. discriminate. }
  intros a b Ha Hb. cbn [rows] in Ha, Hb.
  apply update_first_in in Ha, Hb.
  destruct Ha as [Ha | (ta & Eta & ->)], Hb as [Hb | (tb & Etb & ->)].
  - now apply Hs.
  - rewrite Ef in Etb. injection Etb as <-.
    now rewrite conflict_sym, (Hnew a Ha).
  - rewrite Ef in Eta. injection Eta as <-. now apply Hnew.
  - rewrite Ef in Eta, Etb. injection Eta as <-. injection Etb as <-.
    now apply conflict_same_id.
Qed.

Lemma unschedule_keeps s user tid src s' :
  unschedule s user tid src = Ok s' ->
  non_overlapping s -> non_overlapping s'.
Proof.
  unfold unschedule, get.
  destruct (find (fun t => id t =? tid) (rows s)) as [t|] eqn:Ef;
    [| discriminate].
  destruct (negb (user_id t =? user)); [discriminate|].
  intros H. injection H as <-. intros Hs a b Ha Hb. cbn [rows] in Ha, Hb.
  apply update_first_in in Ha, Hb.
  destruct Ha as [Ha | (ta & Eta & ->)].
  - destruct Hb as [Hb | (tb & Etb & ->)]; [now apply Hs|].
    now rewrite conflict_sym, conflict_unplanned.
  - now rewrite conflict_unplanned.
Qed.

(** Every row after an upsert repeats the core of a row from before or
    of the row the upsert returns. *)
Lemma upsert_rows user a s x :
  In x (rows (fst (upsertByAnchorKey user a s))) ->
  exists y, core x = core y
            /\ (In y (rows s) \/ y = snd (upsertByAnchorKey user a s)).
Proof.
  unfold upsertByAnchorKey.
  destruct (find (has_anchor_key user (a_key a)) (rows s)) as [t|] eqn:Ef;
    cbn [fst snd rows]; intros H.
  - apply update_first_in in H. destruct H as [H | (t' & Et & ->)].
    + exists x. auto.
    + exists t'. split; [reflexivity|]. left. now apply (find_some _ _ Et).
  - apply in_app_or in H. destruct H as [H | [<- | []]].
    + exists x. auto.
    + eexists. split; [reflexivity|]. now right.
Qed.

Lemma upsert_all_rows user specs :
  forall s x,
    In x (rows (fst (upsert_all user specs s))) ->
    exists y, core x = core y
              /\ (In y (rows s) \/ In y (snd (upsert_all user specs s))).
Proof.
  induction specs as [|a specs IH]; intros s x H.
  - exists x. auto.
  - rewrite upsert_all_cons in *. cbn [fst snd] in *.
    destruct (IH _ x H) as (y & Exy & [Hy | Hy]).
    + destruct (upsert_rows user a s y Hy) as (z & Eyz & [Hz | ->]).
      * exists z. split; [congruence | now left].
      * eexists. split; [exact (eq_trans Exy Eyz) | right; now left].
    + exists y. split; [exact Exy | right; now right].
Qed.

(** The validated commit of a day's anchor set keeps the invariant. *)
Lemma commitAnchors_keeps cfg user day s resolved :
  commitAnchors cfg user day s = Ok resolved ->
  non_overlapping s -> non_overlapping (fst resolved).
Proof.
  unfold commitAnchors.
  destruct (existsb
              (fun t => existsb (conflict t)
                          (rows (fst (ensureAnchors cfg user day s))))
              (snd (ensureAnchors cfg user day s))) eqn:Ec; [discriminate|].
  intros H. injection H as <-. intros Hs.
  assert (Hnew : forall t b,
            In t (snd (ensureAnchors cfg user day s)) ->
            In b (rows (fst (ensureAnchors cfg user day s))) ->
            conflict t b = false).
  { intros t b Ht Hb.
    pose proof (existsb_false _ _ t Ec Ht) as Hrow. cbv beta in Hrow.
    exact (existsb_false _ _ b Hrow Hb). }
  intros a b Ha Hb.
  destruct (upsert_all_rows user _ s a Ha) as (a' & Ea & [Ha' | Ha']).
  - destruct (upsert_all_rows user _ s b Hb) as (b' & Eb & [Hb' | Hb']).
    + rewrite (conflict_core _ _ _ _ Ea Eb). now apply Hs.
    + rewrite (conflict_core a a b b' eq_refl Eb), conflict_sym.
      now apply Hnew.
  - rewrite (conflict_core a a' b b Ea eq_refl). now apply Hnew.
Qed.

Lemma place_candidates_keeps cfg user day cands :
  forall s, non_overlapping s ->
    non_overlapping (fst (fst (place_candidates cfg user day cands s))).
Proof.
  induction cands as [|c cands IH]; intros s Hs; [exact Hs|].
  cbn [place_candidates].
  destruct (get s c) as [t|].
  - destruct (findSlot (workout cfg) t (meal_ends s user)
                (freeIntervals (window cfg day) (occupiedBy s user c)))
      as [iv|].
    + destruct (place s user c iv Autoplan) as [s'|e] eqn:Ep.
      * specialize (IH s' (place_keeps _ _ _ _ _ _ Ep Hs)).
        destruct (place_candidates cfg user day cands s') as [[s2 pl] pe].
        exact IH.
      * specialize (IH s Hs).
        destruct (place_candidates cfg user day cands s) as [[s2 pl] pe].
        exact IH.
    + specialize (IH s Hs).
      destruct (place_candidates cfg user day cands s) as [[s2 pl] pe].
      exact IH.
  - specialize (IH s Hs).
    destruct (place_candidates cfg user day cands s) as [[s2 pl] pe].
    exact IH.
Qed.

Lemma autoplan_days_keeps cfg user days :
  forall day pending s, non_overlapping s ->
    non_overlapping (fst (fst (autoplan_days cfg user day days pending s))).
Proof.
  induction days as [|k IH]; intros day pending s Hs; [exact Hs|].
  cbn [autoplan_days].
  set (s1 := match commitAnchors cfg user day s with
             | Ok resolved => fst resolved
             | Err _ => s
             end).
  assert (H1 : non_overlapping s1).
  { subst s1. destruct (commitAnchors cfg user day s) as [r|e] eqn:Ec;
      [exact (commitAnchors_keeps _ _ _ _ _ Ec Hs) | exact Hs]. }
  pose proof (place_candidates_keeps cfg user day pending s1 H1) as H2.
  destruct (place_candidates cfg user day pending s1) as [[s2 pl] pe].
  cbn [fst] in H2. specialize (IH (day + 1) pe s2 H2).
  destruct (autoplan_days cfg user (day + 1) k pe s2) as [[s3 pl'] sk].
  exact IH.
Qed.

Lemma step_keeps cfg s op :
  non_overlapping s -> non_overlapping (step cfg s op).
Proof.
  intros Hs. destruct op; cbn [step].
  - eapply apart_snoc; [reflexivity | reflexivity | exact Hs].
  - destruct (place s user tid iv Manual) eqn:E; [| exact Hs].
    exact (place_keeps _ _ _ _ _ _ E Hs).
  - destruct (unschedule s user tid Manual) eqn:E; [| exact Hs].
    exact (unschedule_keeps _ _ _ _ _ E Hs).
  - revert Hs. apply apart_mono. cbn [mark_done rows]. intros x Hx.
    apply update_first_in in Hx. destruct Hx as [Hx | (t & Et & ->)].
    + now exists x.
    + exists t. split; [| reflexivity]. now apply (find_some _ _ Et).
  - revert Hs. apply apart_mono. cbn [delete rows]. intros x Hx.
    apply filter_In in Hx. exists x. tauto.
  - apply autoplan_days_keeps. exact Hs.
Qed.

Lemma run_keeps cfg ops :
  forall s, non_overlapping s -> non_overlapping (run cfg ops s).
Proof.
  unfold run. induction ops as [|op ops IH]; intros s Hs; [exact Hs|].
  cbn [fold_left]. apply IH. now apply step_keeps.
Qed.

(** A placement on an interval that a planned task of the user
    occupies is refused. *)
Lemma place_refused s user tid iv src other busy :
  In other (rows s) -> user_id other = user -> id other <> tid ->
  planned other = Some busy -> overlaps iv busy = true ->
  (exists e, place s user tid iv src = Err e)
  /\ (forall t, get s tid = Some t -> user_id t = user ->
                place s user tid iv src = Err OverlapConflict).
Proof.
  intros Hin Hu Hid Hp Hov.
  assert (Hocc : existsb (overlaps iv) (occupiedBy s user tid) = true).
  { apply existsb_exists. exists busy. split; [| exact Hov].
    now apply (occupiedBy_in s user tid other). }
  unfold place. split.
  - destruct (get s tid) as [t|]; [| eauto].
    destruct (negb (user_id t =? user)); [eauto|]. rewrite Hocc. eauto.
  - intros t -> Ht. rewrite Ht, Z.eqb_refl. cbn [negb]. now rewrite Hocc.
Qed.

(** A placement that meets no planned task of the user is applied. *)
Lemma place_applied s user tid iv src t :
  get s tid = Some t -> user_id t = user ->
  (forall other busy,
     In other (rows s) -> user_id other = user -> id other <> tid ->
     planned other = Some busy -> overlaps iv busy = false) ->
  exists s', place s user tid iv src = Ok s'
             /\ In (set_planned (Some iv) src t) (rows s').
Proof.
  intros Hget Hu Hfree. unfold place. rewrite Hget, Hu, Z.eqb_refl.
  cbn [negb].
  assert (Hocc : existsb (overlaps iv) (occupiedBy s user tid) = false).
  { destruct (existsb (overlaps iv) (occupiedBy s user tid)) eqn:E;
      [| reflexivity].
    apply existsb_exists in E. destruct E as (busy & Hb & Hov).
    apply occupiedBy_inv in Hb. destruct Hb as (b & Hb & Hbu & Hbi & Hbp).
    rewrite (Hfree b busy Hb Hbu Hbi Hbp) in Hov. discriminate. }
  rewrite Hocc. eexists. split; [reflexivity|]. cbn [rows].
  now apply update_first_found.
Qed.

(** C2. After any sequence of operations (task creation, manual
    placements, unscheduling, completion, deletion, autoplan runs with
    their anchor resolution) on a repository in which no two planned
    tasks of one user overlap, no two planned tasks of one user overlap.
    A placement on an interval that overlaps a planned task of the user
    is refused, with an overlap conflict when the task placed is the
    user's, and leaves the repository as it was; a placement that
    overlaps none is applied. *)
Theorem placements_keep_tasks_apart (cfg : Z -> RoutineConfig)
  (ops : list Op) (s : Store) :
  non_overlapping s ->
  non_overlapping (run cfg ops s)
  /\ (forall user tid iv other busy,
        In other (rows (run cfg ops s)) -> user_id other = user ->
        id other <> tid -> planned other = Some busy ->
        overlaps iv busy = true ->
        (exists e, place (run cfg ops s) user tid iv Manual = Err e)
        /\ (forall t, get (run cfg ops s) tid = Some t -> user_id t = user ->
                      place (run cfg ops s) user tid iv Manual
                      = Err OverlapConflict)
        /\ step cfg (run cfg ops s) (OpPlace user tid iv) = run cfg ops s)
  /\ (forall user tid iv t,
        get (run cfg ops s) tid = Some t -> user_id t = user ->
        (forall other busy,
           In other (rows (run cfg ops s)) -> user_id other = user ->
           id other <> tid -> planned other = Some busy ->
           overlaps iv busy = false) ->
        exists s', place (run cfg ops s) user tid iv Manual = Ok s'
                   /\ In (set_planned (Some iv) Manual t) (rows s')).
Proof.
  intros Hs. split; [now apply run_keeps | split].
  - intros user tid iv other busy Hin Hu Hid Hp Hov.
    destruct (place_refused (run cfg ops s) user tid iv Manual other busy
                Hin Hu Hid Hp Hov) as ((e & He) & Hc).
    split; [eauto | split; [exact Hc|]]. cbn [step]. now rewrite He.
  - intros user tid iv t Hget Hu Hfree. now apply place_applied.
Qed.

End PlacementFacts.
(** * Examples *)

Section Examples.

Import Samples.

(** The sample task is planned from 09:00 to 09:45: its duration is 45
    minutes, whatever its estimate. *)
Lemma getTaskDurationMinutes_cases_witness :
  App.positive_span sample_parse sample_task 45
  /\ App.getTaskDurationMinutes sample_parse sample_task = 45.
Proof.
  assert (H : App.positive_span sample_parse sample_task 45).
  { exists "2024-03-04T09:00:00", "2024-03-04T09:45:00",
      1709542800000, 1709545500000.
    repeat split; try reflexivity; lia. }
  split; [exact H|].
  exact (proj1 (getTaskDurationMinutes_cases sample_parse sample_task) 45 H).
Defined.

(** From priority 3 the pill goes back to 1. *)
Lemma priority_cycle_witness :
  App.priority sample_task = Some 3 /\ App.nextPriority sample_task = 1.
Proof.
  split; [reflexivity|].
  assert (H : App.priority sample_task = None
              \/ exists p, App.priority sample_task = Some p /\ 1 <= p <= 3).
  { right. exists 3. split; [reflexivity | lia]. }
  destruct (priority_cycle sample_task H) as (_ & _ & Hwrap & _).
  apply Hwrap. vm_compute. discriminate.
Defined.



(** With the sample task selected, the unschedule button sends one
    request for task 7 that sets both placement fields to null. *)
Lemma unschedule_by_user_only_witness :
  App.getSelectedTask sample_panel = Some sample_task
  /\ App.handleUnschedule sample_panel
     = [App.PATCH 7
          {| App.p_title := App.Omitted; App.p_notes := App.Omitted;
             App.p_priority := App.Omitted; App.p_is_done := App.Omitted;
             App.p_planned_start := App.Null; App.p_planned_end := App.Null;
             App.p_schedule_source := App.Value "manual" |}].
Proof.
  assert (H : App.getSelectedTask sample_panel = Some sample_task)
    by reflexivity.
  split; [exact H|].
  exact (proj1 (unschedule_by_user_only utc sample_parse sample_panel)
           sample_task H).
Defined.

(** A 60-minute workout with a 15-minute buffer in a free block from
    08:00 to 10:00 is stored from 08:15 to 09:15. *)
Lemma workout_buffer_witness :
  Engine.kind sample_workout = Engine.Workout
  /\ Engine.requiredLength sample_policy sample_workout = 90
  /\ Engine.findSlot sample_policy sample_workout []
       [{| Engine.i_start := 480; Engine.i_end := 600 |}]
     = Some {| Engine.i_start := 495; Engine.i_end := 555 |}.
Proof.
  split; [reflexivity|].
  destruct (workout_buffer sample_policy sample_workout []
              [{| Engine.i_start := 480; Engine.i_end := 600 |}] eq_refl)
    as (_ & _ & _ & _ & H90).
  split; [apply H90; reflexivity | reflexivity].
Defined.

Lemma empty_store_apart : Engine.non_overlapping Engine.empty_store.
Proof. intros a b []. Qed.

(** The sample operations on the empty repository: the task placed by
    hand from 07:00 to 08:00 stays the only planned task, since the
    breakfast anchor from 07:00 to 07:30 would overlap it. *)
Lemma placements_keep_tasks_apart_witness :
  Engine.non_overlapping Engine.empty_store
  /\ Engine.non_overlapping
       (Engine.run sample_config sample_ops Engine.empty_store)
  /\ map Engine.planned
       (Engine.rows (Engine.run sample_config sample_ops Engine.empty_store))
     = [Some {| Engine.i_start := 420; Engine.i_end := 480 |}].
Proof.
  split; [exact empty_store_apart|].
  split; [| reflexivity].
  exact (proj1 (placements_keep_tasks_apart sample_config sample_ops
                  Engine.empty_store empty_store_apart)).
Defined.

(** The anchor set of a day is refused as a whole when the breakfast
    would land on a planned task, and committed when the time is free. *)
Example anchor_commit :
  let busy := Engine.run sample_config
                [Engine.OpCreate 1 "Write report" Engine.Work 1 (Some 60);
                 Engine.OpPlace 1 1 {| Engine.i_start := 420; Engine.i_end := 480 |}]
                Engine.empty_store in
  let free := Engine.run sample_config
                [Engine.OpCreate 1 "Write report" Engine.Work 1 (Some 60);
                 Engine.OpPlace 1 1 {| Engine.i_start := 480; Engine.i_end := 540 |}]
                Engine.empty_store in
  Engine.commitAnchors (sample_config 1) 1 0 busy
  = Engine.Err Engine.OverlapConflict
  /\ exists s' anchors,
       Engine.commitAnchors (sample_config 1) 1 0 free = Engine.Ok (s', anchors)
       /\ map Engine.planned (Engine.rows s')
          = [Some {| Engine.i_start := 480; Engine.i_end := 540 |};
             Some {| Engine.i_start := 420; Engine.i_end := 450 |}].
Proof. vm_compute. split; [reflexivity|]. eexists; eexists; split; reflexivity. Qed.

(** With no anchors configured, a backlog task of 90 minutes is placed
    by autoplan at the start of the first free interval of the day. *)
Example autoplan_places_report :
  let s0 := Engine.create Engine.empty_store 1 "Write report" Engine.Work 1
              (Some 90) in
  let '(s1, placed, skipped) := Engine.autoplan (bare_config 1) 1 0 1 s0 in
  placed = [1] /\ skipped = []
  /\ map Engine.planned (Engine.rows s1)
     = [Some {| Engine.i_start := 0; Engine.i_end := 90 |}]
  /\ map Engine.schedule_source (Engine.rows s1) = [Engine.Autoplan].
Proof. vm_compute. repeat split. Qed.

(** Candidates of the same priority are tried in creation order, after
    those of a more urgent priority. *)
Example candidates_in_creation_order :
  let s0 := Engine.run bare_config
              [Engine.OpCreate 1 "First" Engine.Work 2 (Some 30);
               Engine.OpCreate 1 "Second" Engine.Work 2 (Some 30);
               Engine.OpCreate 1 "Urgent" Engine.Work 1 (Some 30);
               Engine.OpCreate 1 "Third" Engine.Work 2 (Some 30)]
              Engine.empty_store in
  map Engine.id
    (Engine.order_candidates (filter (Engine.is_backlog 1) (Engine.rows s0)))
  = [3; 1; 2; 4].
Proof. vm_compute. reflexivity. Qed.

(** After breakfast from 07:00 to 07:30 the morning is free from 07:30
    on; the workout session is placed from 07:45 to 08:45, a travel
    buffer away from the meal. *)
Example autoplan_workout_after_breakfast :
  let s0 := Engine.create Engine.empty_store 1 "Gym" Engine.Workout 2
              (Some 60) in
  let s1 := fst (Engine.ensureAnchors (sample_config 1) 1 0 s0) in
  Engine.findSlot sample_policy sample_workout (Engine.meal_ends s1 1)
    (Engine.freeIntervals {| Engine.i_start := 420; Engine.i_end := 1440 |}
                          (Engine.occupiedBy s1 1 1))
  = Some {| Engine.i_start := 465; Engine.i_end := 525 |}.
Proof. vm_compute. reflexivity. Qed.

(** Once the report is placed from 07:00 to 08:00, moving another task
    of the same user to 07:30 is refused with an overlap conflict, and
    the repository stays as it was. *)
Example manual_overlap_refused :
  let s0 := Engine.run bare_config
              [Engine.OpCreate 1 "Write report" Engine.Work 1 (Some 60);
               Engine.OpCreate 1 "Call back" Engine.Other 2 (Some 30);
               Engine.OpPlace 1 1 {| Engine.i_start := 420; Engine.i_end := 480 |}]
              Engine.empty_store in
  Engine.place s0 1 2 {| Engine.i_start := 450; Engine.i_end := 480 |}
               Engine.Manual
  = Engine.Err Engine.OverlapConflict
  /\ Engine.step bare_config s0
       (Engine.OpPlace 1 2 {| Engine.i_start := 450; Engine.i_end := 480 |})
     = s0
  /\ exists s1,
       Engine.place s0 1 2 {| Engine.i_start := 480; Engine.i_end := 510 |}
                    Engine.Manual
       = Engine.Ok s1.
Proof. vm_compute. repeat split; eexists; reflexivity. Qed.

End Examples.

(** Case analysis on the tests a handler makes before it sends. *)
Ltac request_cases :=
  repeat match goal with
         | H : In _ [] |- _ => destruct H
         | H : In _ [_] |- _ => destruct H as [H | []]
         | H : In _ [_; _] |- _ => destruct H as [H | [H | []]]
         | H : In _ (if ?b then _ else _) |- _ => destruct b eqn:?
         | H : In _ (match ?x with _ => _ end) |- _ => destruct x eqn:?
         end.

(** * More of the web client: weeks and days *)

Section WeekFacts.

Variable tza : Z -> bool -> Z.

(** [addDays] keeps the local time of day and moves the local day. *)
Lemma addDays_local t a :
  App.addDays tza (DateAt t) a
  = TimeClip (UTC tza (LocalTime tza t + a * msPerDay)).
Proof.
  unfold App.addDays, setDate, getDate, local_field, num_add.
  rewrite MakeDay_own_month. do 2 f_equal.
  unfold MakeDate, TimeWithinDay, Day, msPerDay.
  generalize (LocalTime tza t) as x, (DateFromTime (LocalTime tza t)) as dt.
  intros x dt. Z.div_mod_to_equations. lia.
Qed.

Lemma addDays_midnight day a :
  local_exists tza (Text.midnight day) ->
  local_exists tza (Text.midnight (day + a)) ->
  App.addDays tza (DateAt (UTC tza (Text.midnight day))) a
  = DateAt (UTC tza (Text.midnight (day + a))).
Proof.
  intros H0 H1.
  destruct (local_exists_date tza _ H0) as (_ & Hl0).
  destruct (local_exists_date tza _ H1) as (Hc1 & _).
  rewrite addDays_local, Hl0.
  replace (Text.midnight day + a * msPerDay) with (Text.midnight (day + a))
    by (unfold Text.midnight, MakeDate; lia).
  exact Hc1.
Qed.

(** X1. [addDays] moves a date by whole local days: when the local time
    it moves to exists in the zone, the result shows the same time of
    day, [a] days later.  A second call adds up with the first, and a
    call with the opposite offset gives back a date that is the instant
    its own local time is read as. *)
Theorem addDays_whole_days (t a : Z) :
  local_exists tza (LocalTime tza t + a * msPerDay) ->
  exists u,
    App.addDays tza (DateAt t) a = DateAt u
    /\ LocalTime tza u = LocalTime tza t + a * msPerDay
    /\ TimeWithinDay (LocalTime tza u) = TimeWithinDay (LocalTime tza t)
    /\ Day (LocalTime tza u) = Day (LocalTime tza t) + a
    /\ (forall b, App.addDays tza (DateAt u) b
                  = App.addDays tza (DateAt t) (a + b))
    /\ (UTC tza (LocalTime tza t) = t -> Z.abs t <= maxTime ->
        App.addDays tza (DateAt u) (- a) = DateAt t).
Proof.
  intros Hx. destruct (local_exists_date tza _ Hx) as (Hc & Hl).
  exists (UTC tza (LocalTime tza t + a * msPerDay)).
  split; [now rewrite addDays_local|].
  split; [exact Hl|]. rewrite Hl.
  split; [| split; [| split]].
  - unfold TimeWithinDay, msPerDay. generalize (LocalTime tza t) as x.
    intros x. Z.div_mod_to_equations. lia.
  - unfold Day, msPerDay. generalize (LocalTime tza t) as x.
    intros x. Z.div_mod_to_equations. lia.
  - intros b. rewrite !addDays_local, Hl. do 2 f_equal. lia.
  - intros Hback Hrange. rewrite addDays_local, Hl.
    replace (LocalTime tza t + a * msPerDay + - a * msPerDay)
      with (LocalTime tza t) by lia.
    rewrite Hback. now apply TimeClip_valid.
Qed.

(** What a Date at a Monday midnight shows. *)
Lemma monday_midnight_shown day k :
  local_exists tza (Text.midnight (Text.monday_of day + 7 * k)) ->
  let m := UTC tza (Text.midnight (Text.monday_of day + 7 * k)) in
  getDay tza (DateAt m) = Num 1
  /\ getHours tza (DateAt m) = Num 0
  /\ getMinutes tza (DateAt m) = Num 0
  /\ getSeconds tza (DateAt m) = Num 0
  /\ getMilliseconds tza (DateAt m) = Num 0.
Proof.
  intros H m. subst m. destruct (local_exists_date tza _ H) as (_ & Hl).
  destruct (midnight_fields (Text.monday_of day + 7 * k))
    as (Hd & _ & Hh & Hmi & Hs & Hms).
  destruct (monday_of_spec day) as (Hw & _).
  unfold getDay, getHours, getMinutes, getSeconds, getMilliseconds, local_field.
  rewrite Hl, Hh, Hmi, Hs, Hms. unfold WeekDay. rewrite Hd.
  repeat split. f_equal. revert Hw. generalize (Text.monday_of day) as M.
  intros M Hw. Z.div_mod_to_equations. lia.
Qed.

(** X2. After any sequence of clicks on "previous week" and "next
    week", [weekStart] is a Monday at 00:00:00.000 local time, a whole
    number of weeks away from the Monday of today's week, provided the
    midnight of today and the midnights of the Mondays within as many
    weeks as there were clicks exist in the zone. *)
Theorem weekStart_is_monday (now : Z) (clicks : list App.WeekClick) :
  let day := Day (LocalTime tza now) in
  local_exists tza (Text.midnight day) ->
  (forall k, - Z.of_nat (List.length clicks) <= k <= Z.of_nat (List.length clicks) ->
             local_exists tza (Text.midnight (Text.monday_of day + 7 * k))) ->
  exists m k,
    App.weekStart_after tza (DateAt now) clicks = DateAt m
    /\ LocalTime tza m = Text.midnight (Text.monday_of day + 7 * k)
    /\ getDay tza (DateAt m) = Num 1
    /\ getHours tza (DateAt m) = Num 0
    /\ getMinutes tza (DateAt m) = Num 0
    /\ getSeconds tza (DateAt m) = Num 0
    /\ getMilliseconds tza (DateAt m) = Num 0.
Proof.
  intros day H0 Hweeks.
  assert (Hinv : forall cs j,
            (forall k, - Z.of_nat (List.length cs) <= k - j
                        <= Z.of_nat (List.length cs) ->
                       local_exists tza
                         (Text.midnight (Text.monday_of day + 7 * k))) ->
            exists k,
              fold_left (App.clickWeek tza) cs
                (DateAt (UTC tza (Text.midnight (Text.monday_of day + 7 * j))))
              = DateAt (UTC tza (Text.midnight (Text.monday_of day + 7 * k)))
              /\ local_exists tza (Text.midnight (Text.monday_of day + 7 * k))).
  { induction cs as [|c cs IH]; intros j Hk.
    - exists j. split; [reflexivity|]. apply Hk. cbn [List.length]. lia.
    - assert (Hj : local_exists tza (Text.midnight (Text.monday_of day + 7 * j)))
        by (apply Hk; cbn [List.length]; lia).
      cbn [fold_left]. destruct c; cbn [App.clickWeek].
      + assert (Hj' : local_exists tza
                        (Text.midnight (Text.monday_of day + 7 * (j - 1))))
          by (apply Hk; cbn [List.length]; lia).
        rewrite addDays_midnight with (a := -7);
          [| exact Hj
           | now replace (Text.monday_of day + 7 * j + -7)
               with (Text.monday_of day + 7 * (j - 1)) by lia].
        replace (Text.monday_of day + 7 * j + -7)
          with (Text.monday_of day + 7 * (j - 1)) by lia.
        apply IH. intros k Hrange. apply Hk.
        cbn [List.length]. lia.
      + assert (Hj' : local_exists tza
                        (Text.midnight (Text.monday_of day + 7 * (j + 1))))
          by (apply Hk; cbn [List.length]; lia).
        rewrite addDays_midnight with (a := 7);
          [| exact Hj
           | now replace (Text.monday_of day + 7 * j + 7)
               with (Text.monday_of day + 7 * (j + 1)) by lia].
        replace (Text.monday_of day + 7 * j + 7)
          with (Text.monday_of day + 7 * (j + 1)) by lia.
        apply IH. intros k Hrange. apply Hk.
        cbn [List.length]. lia. }
  assert (HM : local_exists tza (Text.midnight (Text.monday_of day))).
  { replace (Text.monday_of day) with (Text.monday_of day + 7 * 0) by lia.
    apply Hweeks. lia. }
  assert (Estart : App.startOfWeek tza (DateAt now)
                   = DateAt (UTC tza (Text.midnight (Text.monday_of day + 7 * 0)))).
  { rewrite (startOfWeek_value tza now H0 HM). fold day.
    now replace (Text.monday_of day + 7 * 0) with (Text.monday_of day) by lia. }
  destruct (Hinv clicks 0) as (k & Ek & Hk).
  { intros k Hrange. apply Hweeks. lia. }
  exists (UTC tza (Text.midnight (Text.monday_of day + 7 * k))), k.
  split; [unfold App.weekStart_after; now rewrite Estart|].
  split; [exact (proj2 (local_exists_date tza _ Hk))|].
  now apply monday_midnight_shown.
Qed.

(** X3. The week shown for a date: when the midnight of its day and the
    midnights of the seven days from the Monday of its week on exist in
    the zone, [weekDays(startOfWeek(d))] is those seven midnights, and
    the day of [d] is one of them. *)
Theorem weekDays_cover_the_week (t : Z) :
  let day := Day (LocalTime tza t) in
  local_exists tza (Text.midnight day) ->
  (forall i, 0 <= i <= 6 ->
             local_exists tza (Text.midnight (Text.monday_of day + i))) ->
  App.weekDays tza (App.startOfWeek tza (DateAt t))
  = map (fun i => DateAt (UTC tza (Text.midnight (Text.monday_of day + i))))
        [0; 1; 2; 3; 4; 5; 6]
  /\ (forall i, 0 <= i <= 6 ->
        LocalTime tza (UTC tza (Text.midnight (Text.monday_of day + i)))
        = Text.midnight (Text.monday_of day + i))
  /\ getDay tza (DateAt (UTC tza (Text.midnight (Text.monday_of day + 0))))
     = Num 1
  /\ exists i, 0 <= i <= 6 /\ Text.monday_of day + i = day.
Proof.
  intros day H0 Hdays.
  assert (HM : local_exists tza (Text.midnight (Text.monday_of day))).
  { replace (Text.monday_of day) with (Text.monday_of day + 0) by lia.
    apply Hdays. lia. }
  split; [| split; [| split]].
  - rewrite (startOfWeek_value tza t H0 HM). fold day.
    unfold App.weekDays. cbn [map].
    rewrite !addDays_midnight by (try exact HM; apply Hdays; lia).
    reflexivity.
  - intros i Hi. exact (proj2 (local_exists_date tza _ (Hdays i Hi))).
  - replace (Text.monday_of day + 0) with (Text.monday_of day + 7 * 0) by lia.
    apply monday_midnight_shown.
    replace (Text.monday_of day + 7 * 0) with (Text.monday_of day) by lia.
    exact HM.
  - exists (day - Text.monday_of day).
    destruct (monday_of_spec day) as (_ & Hr). lia.
Qed.

End WeekFacts.

(** * Decimal numerals *)

Lemma digit_char_facts k :
  0 <= k <= 9 ->
  is_digit (digit_char k) = true /\ digit_val (digit_char k) = k.
Proof.
  intros H.
  assert (C : k = 0 \/ k = 1 \/ k = 2 \/ k = 3 \/ k = 4 \/ k = 5 \/ k = 6
              \/ k = 7 \/ k = 8 \/ k = 9) by lia.
  destruct C as [E|[E|[E|[E|[E|[E|[E|[E|[E|E]]]]]]]]]; subst k;
    vm_compute; split; reflexivity.
Qed.

(** Reading back the digits written in front of [acc]. *)
Lemma digits_read f :
  forall n acc, 0 <= n < 10 ^ Z.of_nat (S f) ->
    exists p, forall a seen,
      digit_prefix (digits (S f) n acc) a seen
      = digit_prefix acc (a * p + n) true.
Proof.
  induction f as [|f IH]; intros n acc Hn.
  - change (10 ^ Z.of_nat 1) with 10 in Hn.
    exists 10. intros a seen. cbn [digits].
    replace (n <? 10) with true by (symmetry; apply Z.ltb_lt; lia).
    replace (n mod 10) with n by (Z.div_mod_to_equations; lia).
    destruct (digit_char_facts n ltac:(lia)) as (Hd & Hv).
    cbn [digit_prefix]. now rewrite Hd, Hv.
  - rewrite Nat2Z.inj_succ, Z.pow_succ_r in Hn by lia.
    cbn [digits]. destruct (n <? 10) eqn:E.
    + apply Z.ltb_lt in E. exists 10. intros a seen.
      replace (n mod 10) with n by (Z.div_mod_to_equations; lia).
      destruct (digit_char_facts n ltac:(lia)) as (Hd & Hv).
      cbn [digit_prefix]. now rewrite Hd, Hv.
    + apply Z.ltb_ge in E.
      destruct (IH (n / 10) (String (digit_char (n mod 10)) acc)) as (p & Hp).
      { generalize dependent (10 ^ Z.of_nat (S f)). intros q Hq.
        Z.div_mod_to_equations. lia. }
      exists (p * 10). intros a seen. rewrite Hp.
      destruct (digit_char_facts (n mod 10)
                  ltac:(Z.div_mod_to_equations; lia)) as (Hd & Hv).
      cbn [digit_prefix]. rewrite Hd, Hv. f_equal.
      Z.div_mod_to_equations. lia.
Qed.

Lemma digits_head f :
  forall n acc, 0 <= n ->
    exists k rest, 0 <= k <= 9
                   /\ digits (S f) n acc = String (digit_char k) rest.
Proof.
  induction f as [|f IH]; intros n acc Hn; cbn [digits].
  - exists (n mod 10). destruct (n <? 10); eexists; (split;
      [Z.div_mod_to_equations; lia | reflexivity]).
  - destruct (n <? 10).
    + exists (n mod 10). eexists. split;
        [Z.div_mod_to_equations; lia | reflexivity].
    + apply IH. Z.div_mod_to_equations. lia.
Qed.

Lemma decimal_fuel n :
  0 <= n -> n < 10 ^ Z.of_nat (S (Z.to_nat (Z.log2 n))).
Proof.
  intros Hn. rewrite Nat2Z.inj_succ, Z2Nat.id by apply Z.log2_nonneg.
  destruct (Z.eq_dec n 0) as [-> | Hne]; [reflexivity|].
  pose proof (Z.log2_spec n ltac:(lia)) as [_ Hlt].
  eapply Z.lt_le_trans; [exact Hlt|].
  apply Z.pow_le_mono_l. pose proof (Z.log2_nonneg n). lia.
Qed.

(** A string that begins with a digit has no white space or sign for
    [parseInt] to drop. *)
Lemma parseInt10_plain k r :
  0 <= k <= 9 ->
  parseInt10 (String (digit_char k) r)
  = digit_prefix (String (digit_char k) r) 0 false.
Proof.
  intros H.
  assert (C : k = 0 \/ k = 1 \/ k = 2 \/ k = 3 \/ k = 4 \/ k = 5 \/ k = 6
              \/ k = 7 \/ k = 8 \/ k = 9) by lia.
  destruct C as [E|[E|[E|[E|[E|[E|[E|[E|[E|E]]]]]]]]]; subst k;
    vm_compute; reflexivity.
Qed.

Lemma digit_prefix_decimal n :
  0 <= n -> digit_prefix (decimal n) 0 false = Num n.
Proof.
  intros Hn. unfold decimal.
  destruct (digits_read (Z.to_nat (Z.log2 n)) n "" (conj Hn (decimal_fuel n Hn)))
    as (p & Hread).
  now rewrite Hread.
Qed.

Lemma parseInt10_decimal n : 0 <= n -> parseInt10 (decimal n) = Num n.
Proof.
  intros Hn.
  destruct (digits_head (Z.to_nat (Z.log2 n)) n "" Hn) as (k & rest & Hk & E).
  fold (decimal n) in E.
  rewrite E, (parseInt10_plain _ _ Hk), <- E.
  now apply digit_prefix_decimal.
Qed.

Lemma parseInt10_minus d :
  parseInt10 (String "-" d) = num_sub (Num 0) (digit_prefix d 0 false).
Proof. reflexivity. Qed.

(** Writing an integer and reading it with [parseInt] gives it back. *)
Lemma parseInt10_ToString n : parseInt10 (ToString (Num n)) = Num n.
Proof.
  unfold ToString. destruct (n <? 0) eqn:E.
  - apply Z.ltb_lt in E.
    rewrite parseInt10_minus, digit_prefix_decimal by lia.
    cbn [num_sub]. f_equal. lia.
  - apply Z.ltb_ge in E. now apply parseInt10_decimal.
Qed.

Lemma ToString_injective a b :
  ToString (Num a) = ToString (Num b) -> a = b.
Proof.
  intros H. apply (f_equal parseInt10) in H.
  rewrite !parseInt10_ToString in H. now injection H.
Qed.

(** * More of the web client: the task index and durations *)

Section IndexFacts.

Variable Date_parse : string -> JsDate.

(** X4. The task index is a map keyed by identifier: after a task is
    registered, looking up its identifier gives that task, and the
    lookup of any other identifier is unchanged; two different
    identifiers never share a key. *)
Theorem registerTask_lookup (idx : App.TaskIndex) (task : App.Task) (k : Z) :
  App.taskIndex_get (App.registerTask idx task) (ToString (Num k))
  = (if k =? App.id task then Some task
     else App.taskIndex_get idx (ToString (Num k))).
Proof.
  unfold App.registerTask. cbn [App.taskIndex_get].
  destruct (k =? App.id task) eqn:E.
  - apply Z.eqb_eq in E. subst k. now rewrite String.eqb_refl.
  - apply Z.eqb_neq in E.
    destruct (String.eqb (ToString (Num (App.id task))) (ToString (Num k)))
      eqn:Es; [| reflexivity].
    apply String.eqb_eq, ToString_injective in Es. congruence.
Qed.

(** X5. The duration of a task is never zero; it is positive whenever
    estimate_minutes is null, zero or positive. *)
Theorem getTaskDurationMinutes_not_zero (task : App.Task) :
  App.getTaskDurationMinutes Date_parse task <> 0
  /\ ((forall m, App.estimate_minutes task = Some m -> 0 <= m) ->
      0 < App.getTaskDurationMinutes Date_parse task).
Proof.
  assert (Hfb : App.number_or (App.estimate_minutes task) 30 <> 0
                /\ ((forall m, App.estimate_minutes task = Some m -> 0 <= m) ->
                    0 < App.number_or (App.estimate_minutes task) 30)).
  { unfold App.number_or. destruct (App.estimate_minutes task) as [m|].
    - destruct (m =? 0) eqn:E; [split; intros; lia|].
      apply Z.eqb_neq in E. split; [exact E|].
      intros H. specialize (H m eq_refl). lia.
    - split; intros; lia. }
  unfold App.getTaskDurationMinutes.
  destruct (App.planned_start task) as [ps|]; [| exact Hfb].
  destruct (App.planned_end task) as [pe|]; [| exact Hfb].
  destruct (str_truthy ps && str_truthy pe); [| exact Hfb].
  destruct (Math_round_div
              (num_sub (getTime (Date_parse pe)) (getTime (Date_parse ps)))
              60000) as [|n]; [exact Hfb|].
  destruct (0 <? n) eqn:E; [| exact Hfb].
  apply Z.ltb_lt in E. split; intros; lia.
Qed.

End IndexFacts.

(** * More of the web client: formatting and parsing *)

Section FormatFacts.

Variable tza : Z -> bool -> Z.
Variable Date_parse : string -> JsDate.

Lemma formatTimeInput_string h mi :
  0 <= h -> 0 <= mi ->
  App.formatTimeInput (Num h) (Num mi) = Text.time_string h mi.
Proof.
  intros Hh Hmi. unfold App.formatTimeInput, App.pad2, Text.time_string.
  now rewrite !ToString_nonneg by lia.
Qed.

Lemma hour_minute_range lt :
  0 <= HourFromTime lt <= 23 /\ 0 <= MinFromTime lt <= 59.
Proof.
  unfold HourFromTime, MinFromTime, msPerHour, msPerMinute.
  split; Z.div_mod_to_equations; lia.
Qed.

(** What a valid date whose local year has four digits shows. *)
Lemma shown_of_date t y m d :
  civil_from_days (Day (LocalTime tza t)) = (y, m, d) ->
  1000 <= y <= 9999 ->
  App.formatDateInput tza (DateAt t) = Text.date_string y m d
  /\ App.isoDate tza (DateAt t) = Text.date_string y m d
  /\ App.toLocalIsoString tza (DateAt t)
     = Text.date_string y m d ++ "T"
       ++ Text.time_string (HourFromTime (LocalTime tza t))
                           (MinFromTime (LocalTime tza t)) ++ ":00".
Proof.
  intros E Hy.
  destruct (civil_from_days_inv _ _ _ _ E) as (Hm & Hd & _).
  destruct (four_digit_year y Hy) as (EY & _).
  destruct (hour_minute_range (LocalTime tza t)) as (Hh & Hmi).
  assert (F : App.formatDateInput tza (DateAt t) = Text.date_string y m d).
  { unfold App.formatDateInput, App.pad2, getFullYear, getMonth, getDate,
      local_field, num_add, YearFromTime, MonthFromTime, DateFromTime.
    rewrite E. cbn [fst snd]. replace (m - 1 + 1) with m by lia.
    rewrite !ToString_nonneg by lia.
    unfold Text.date_string. now rewrite EY. }
  split; [exact F | split; [exact F|]].
  rewrite toLocalIsoString_parts, F.
  unfold getHours, getMinutes, local_field, App.pad2.
  rewrite !ToString_nonneg by lia.
  unfold Text.time_string. now rewrite !append_assoc.
Qed.

(** The local time of the date, hour and minute a time value shows is
    that time value cut to the minute. *)
Lemma local_time_of_shown lt y m d :
  civil_from_days (Day lt) = (y, m, d) ->
  Text.local_time_of y m d (HourFromTime lt) (MinFromTime lt)
  = Text.to_minute lt.
Proof.
  intros E. destruct (civil_from_days_inv _ _ _ _ E) as (_ & _ & Hday).
  unfold Text.local_time_of, Text.at_time, Text.to_minute. rewrite Hday.
  unfold MakeDate, MakeTime, Day, HourFromTime, MinFromTime,
    msPerDay, msPerHour, msPerMinute, msPerSecond.
  Z.div_mod_to_equations. lia.
Qed.

Lemma to_minute_fields lt :
  Day (Text.to_minute lt) = Day lt
  /\ HourFromTime (Text.to_minute lt) = HourFromTime lt
  /\ MinFromTime (Text.to_minute lt) = MinFromTime lt
  /\ SecFromTime (Text.to_minute lt) = 0
  /\ msFromTime (Text.to_minute lt) = 0.
Proof.
  unfold Text.to_minute, Day, HourFromTime, MinFromTime, SecFromTime,
    msFromTime, msPerDay, msPerHour, msPerMinute, msPerSecond.
  repeat split; Z.div_mod_to_equations; lia.
Qed.

(** Parsing the strings of the local fields of a time value. *)
Lemma parse_local_fields t y m d :
  civil_from_days (Day (LocalTime tza t)) = (y, m, d) ->
  1000 <= y <= 9999 ->
  local_exists tza (Text.to_minute (LocalTime tza t)) ->
  App.parseLocalDateTime tza (Text.date_string y m d)
    (Text.time_string (HourFromTime (LocalTime tza t))
                      (MinFromTime (LocalTime tza t)))
  = Some (DateAt (UTC tza (Text.to_minute (LocalTime tza t))))
  /\ App.toLocalIsoString tza
       (DateAt (UTC tza (Text.to_minute (LocalTime tza t))))
     = App.toLocalIsoString tza (DateAt t).
Proof.
  intros E Hy Hx.
  destruct (civil_from_days_inv _ _ _ _ E) as (Hm & Hd & Hday).
  destruct (hour_minute_range (LocalTime tza t)) as (Hh & Hmi).
  destruct (local_exists_date tza _ Hx) as (_ & Hl).
  destruct (to_minute_fields (LocalTime tza t)) as (Fd & Fh & Fmi & _).
  split.
  - rewrite parse_of_strings by lia. f_equal.
    rewrite <- (local_time_of_shown _ y m d E) in Hx.
    destruct (Date_of_fields_local tza y m d _ _ ltac:(lia) Hm Hx) as (Hdate & _).
    rewrite Hdate. now rewrite (local_time_of_shown _ y m d E).
  - destruct (shown_of_date t y m d E Hy) as (_ & _ & Hiso).
    destruct (shown_of_date (UTC tza (Text.to_minute (LocalTime tza t))) y m d)
      as (_ & _ & Hiso'); [now rewrite Hl, Fd | exact Hy |].
    rewrite Hiso', Hiso, Hl, Fh, Fmi. reflexivity.
Qed.

(** X6. Formatting a date and parsing the result gives a date that
    shows the same: for a valid date whose local year is between 1000
    and 9999 and whose local time, cut to the minute, exists in the
    zone, [parseLocalDateTime] of its [formatDateInput] and of the
    [formatTimeInput] of its hours and minutes is a valid date at that
    local time, with seconds and milliseconds zero and the same
    [toLocalIsoString]. *)
Theorem format_then_parse (t : Z) :
  1000 <= YearFromTime (LocalTime tza t) <= 9999 ->
  local_exists tza (Text.to_minute (LocalTime tza t)) ->
  exists u,
    App.parseLocalDateTime tza
      (App.formatDateInput tza (DateAt t))
      (App.formatTimeInput (getHours tza (DateAt t)) (getMinutes tza (DateAt t)))
    = Some (DateAt u)
    /\ LocalTime tza u = Text.to_minute (LocalTime tza t)
    /\ getSeconds tza (DateAt u) = Num 0
    /\ getMilliseconds tza (DateAt u) = Num 0
    /\ App.toLocalIsoString tza (DateAt u) = App.toLocalIsoString tza (DateAt t).
Proof.
  intros Hy Hx. unfold YearFromTime in Hy.
  destruct (civil_from_days (Day (LocalTime tza t))) as [[y m] d] eqn:E.
  cbn [fst] in Hy.
  destruct (shown_of_date t y m d E Hy) as (F & _).
  destruct (hour_minute_range (LocalTime tza t)) as (Hh & Hmi).
  destruct (parse_local_fields t y m d E Hy Hx) as (Hparse & Hiso).
  destruct (local_exists_date tza _ Hx) as (_ & Hl).
  destruct (to_minute_fields (LocalTime tza t)) as (_ & _ & _ & Fs & Fms).
  exists (UTC tza (Text.to_minute (LocalTime tza t))).
  split; [| split; [exact Hl | split; [| split; [| exact Hiso]]]].
  - unfold getHours, getMinutes, local_field.
    rewrite F, formatTimeInput_string by lia. exact Hparse.
  - unfold getSeconds, local_field. now rewrite Hl, Fs.
  - unfold getMilliseconds, local_field. now rewrite Hl, Fms.
Qed.

(** X7. The day key of a date parses back to the local midnight of that
    day: for a valid date whose local year is between 1000 and 9999,
    [parseDateKey(isoDate(d))] is [d] with the time of day set to
    00:00:00.000. *)
Theorem parseDateKey_isoDate (t : Z) :
  1000 <= YearFromTime (LocalTime tza t) <= 9999 ->
  App.parseDateKey tza (App.isoDate tza (DateAt t))
  = Some (setHours tza (DateAt t) (Num 0) (Num 0) (Num 0) (Num 0)).
Proof.
  intros Hy. unfold YearFromTime in Hy.
  destruct (civil_from_days (Day (LocalTime tza t))) as [[y m] d] eqn:E.
  cbn [fst] in Hy.
  destruct (civil_from_days_inv _ _ _ _ E) as (Hm & Hd & Hday).
  destruct (shown_of_date t y m d E Hy) as (_ & F & _).
  destruct (date_parts_of_string y m d Hy ltac:(lia) ltac:(lia)) as (Pd & Td).
  unfold App.parseDateKey. rewrite F, Td, Pd. cbn [negb].
  cbn [nth_error App.elem_truthy App.elem_num num_truthy].
  replace (y =? 0) with false by (symmetry; apply Z.eqb_neq; lia).
  replace (m =? 0) with false by (symmetry; apply Z.eqb_neq; lia).
  replace (d =? 0) with false by (symmetry; apply Z.eqb_neq; lia).
  cbn [negb orb]. unfold Date_of_fields, num_sub, setHours.
  replace (y <=? 99) with false by (symmetry; apply Z.leb_gt; lia).
  rewrite andb_false_r. rewrite MakeDay_valid by lia. now rewrite Hday.
Qed.








Lemma end_after_shift start n :
  App.end_after start (Num n) = App.shift start (n * 60000).
Proof. destruct start; reflexivity. Qed.

(** What a drop on a day sends for a task of the index and a
    well-formed day key. *)
Lemma handleDropOnDay_sends idx ev task y m d :
  str_truthy (App.dropped_id ev) = true ->
  App.taskIndex_get idx (App.dropped_id ev) = Some task ->
  1000 <= y <= 9999 -> 1 <= m <= 99 -> 1 <= d <= 99 ->
  App.handleDropOnDay tza Date_parse idx ev (Text.date_string y m d)
  = (let hm :=
       match App.planned_start task with
       | Some ps =>
           if str_truthy ps
           then (getHours tza (Date_parse ps), getMinutes tza (Date_parse ps))
           else (Num 9, Num 0)
       | None => (Num 9, Num 0)
       end in
     let start :=
       Date_of_fields tza (Num y) (num_sub (Num m) (Num 1)) (Num d)
         (fst hm) (snd hm) (Num 0) (Num 0) in
     [App.PATCH (App.id task)
        (App.manual_placement tza start
           (App.shift start
              (App.getTaskDurationMinutes Date_parse task * 60000)))]).
Proof.
  intros Hev Hget Hy Hm Hd.
  destruct (date_parts_of_string y m d Hy ltac:(lia) ltac:(lia)) as (Pd & _).
  unfold App.handleDropOnDay. rewrite Hev, Hget, Pd.
  cbn [negb nth_error App.elem_truthy App.elem_num num_truthy].
  replace (y =? 0) with false by (symmetry; apply Z.eqb_neq; lia).
  replace (m =? 0) with false by (symmetry; apply Z.eqb_neq; lia).
  replace (d =? 0) with false by (symmetry; apply Z.eqb_neq; lia).
  cbn [negb orb]. cbv zeta. now rewrite end_after_shift.
Qed.

(** X9. Dropping a task on a day keeps its time of day: for a task of
    the index dropped on a valid day (year 1000 to 9999), the handler
    sends one request that places it on that day at the hours and
    minutes of its current planned_start, or at 09:00 when it has none,
    provided that local time exists in the zone; planned_end is that
    moment moved by the duration of the task. *)
Theorem drop_on_day_keeps_time (idx : App.TaskIndex) (ev : App.DropEvent)
  (task : App.Task) (y m d : Z) :
  str_truthy (App.dropped_id ev) = true ->
  App.taskIndex_get idx (App.dropped_id ev) = Some task ->
  1000 <= y <= 9999 -> 1 <= m <= 12 -> 1 <= d <= days_in_month y m ->
  let dur := App.getTaskDurationMinutes Date_parse task in
  (forall ps s,
     App.planned_start task = Some ps -> str_truthy ps = true ->
     Date_parse ps = DateAt s ->
     local_exists tza
       (Text.local_time_of y m d (HourFromTime (LocalTime tza s))
                                 (MinFromTime (LocalTime tza s))) ->
     exists t0,
       App.handleDropOnDay tza Date_parse idx ev (Text.date_string y m d)
       = [App.PATCH (App.id task)
            (App.manual_placement tza (DateAt t0)
               (App.shift (DateAt t0) (dur * 60000)))]
       /\ App.toLocalIsoString tza (DateAt t0)
          = Text.date_string y m d ++ "T"
            ++ App.formatTimeInput (getHours tza (DateAt s))
                                   (getMinutes tza (DateAt s)) ++ ":00")
  /\ (App.field_truthy (App.planned_start task) = false ->
      local_exists tza (Text.local_time_of y m d 9 0) ->
      exists t0,
        App.handleDropOnDay tza Date_parse idx ev (Text.date_string y m d)
        = [App.PATCH (App.id task)
             (App.manual_placement tza (DateAt t0)
                (App.shift (DateAt t0) (dur * 60000)))]
        /\ App.toLocalIsoString tza (DateAt t0)
           = Text.date_string y m d ++ "T09:00:00").
Proof.
  intros Hev Hget Hy Hm Hd dur.
  pose proof (days_in_month_bound y m d Hm (proj2 Hd)) as (_ & _ & Hd31).
  pose proof (handleDropOnDay_sends idx ev task y m d Hev Hget Hy
                ltac:(lia) ltac:(lia)) as Hsend.
  fold dur in Hsend.
  split.
  - intros ps s Eps Tps Es Hx.
    destruct (hour_minute_range (LocalTime tza s)) as (Hh & Hmi).
    destruct (Date_of_fields_local tza y m d _ _ ltac:(lia) Hm Hx) as (Hdate & _).
    destruct (shown_of_valid tza y m d _ _ Hy Hm Hd Hh Hmi Hx)
      as (_ & _ & _ & Hiso).
    eexists. split.
    + rewrite Hsend, Eps, Tps, Es. cbv zeta. cbn [fst snd].
      unfold getHours, getMinutes, local_field. rewrite Hdate. reflexivity.
    + rewrite Hiso. unfold getHours, getMinutes, local_field.
      now rewrite formatTimeInput_string by lia.
  - intros Hno Hx.
    destruct (Date_of_fields_local tza y m d 9 0 ltac:(lia) Hm Hx) as (Hdate & _).
    destruct (shown_of_valid tza y m d 9 0 Hy Hm Hd ltac:(lia) ltac:(lia) Hx)
      as (_ & _ & _ & Hiso).
    assert (Ehm : match App.planned_start task with
                  | Some ps =>
                      if str_truthy ps
                      then (getHours tza (Date_parse ps),
                            getMinutes tza (Date_parse ps))
                      else (Num 9, Num 0)
                  | None => (Num 9, Num 0)
                  end = (Num 9, Num 0)).
    { unfold App.field_truthy in Hno.
      destruct (App.planned_start task) as [ps|]; [| reflexivity].
      now rewrite Hno. }
    eexists. split.
    + rewrite Hsend, Ehm. cbv zeta. cbn [fst snd]. rewrite Hdate. reflexivity.
    + exact Hiso.
Qed.

(** X10. What the handler of a drop on a time slot sends: for a task of
    the index, a valid date string (year 1000 to 9999) and a valid time
    string whose local time exists in the zone, one request whose
    planned_start is the date string, "T", the time string and ":00",
    and whose planned_end is that moment moved by the duration of the
    task. *)
Theorem drop_on_slot_exact (idx : App.TaskIndex) (ev : App.DropEvent)
  (task : App.Task) (y m d h mi : Z) :
  str_truthy (App.dropped_id ev) = true ->
  App.taskIndex_get idx (App.dropped_id ev) = Some task ->
  1000 <= y <= 9999 -> 1 <= m <= 12 -> 1 <= d <= days_in_month y m ->
  0 <= h <= 23 -> 0 <= mi <= 59 ->
  local_exists tza (Text.local_time_of y m d h mi) ->
  let dur := App.getTaskDurationMinutes Date_parse task in
  exists t0,
    App.handleDropOnSlot tza Date_parse idx ev
      (Text.date_string y m d) (Text.time_string h mi)
    = [App.PATCH (App.id task)
         (App.manual_placement tza (DateAt t0)
            (App.shift (DateAt t0) (dur * 60000)))]
    /\ App.toLocalIsoString tza (DateAt t0)
       = Text.date_string y m d ++ "T" ++ Text.time_string h mi ++ ":00".
Proof.
  intros Hev Hget Hy Hm Hd Hh Hmi Hx dur.
  pose proof (days_in_month_bound y m d Hm (proj2 Hd)) as (_ & _ & Hd31).
  destruct (Date_of_fields_local tza y m d h mi ltac:(lia) Hm Hx) as (Hdate & _).
  destruct (shown_of_valid tza y m d h mi Hy Hm Hd Hh Hmi Hx)
    as (_ & _ & _ & Hiso).
  exists (UTC tza (Text.local_time_of y m d h mi)).
  split; [| exact Hiso].
  unfold App.handleDropOnSlot. rewrite Hev, Hget. cbn [negb].
  rewrite parse_of_strings by lia. rewrite Hdate.
  now rewrite end_after_shift.
Qed.

(** X11. The inline time edit changes the time of day only: for a task
    whose planned_start parses as a date with a local year from 1000 to
    9999 and whose planned_end is not set or parses, entering a valid
    time that exists on that local day places the task on the same local
    day at that time; planned_end is that moment moved by the duration
    of the task. *)
Theorem time_edit_same_day (task : App.Task) (dataset_day : option string)
  (ps : string) (s h mi : Z) :
  App.planned_start task = Some ps -> str_truthy ps = true ->
  Date_parse ps = DateAt s ->
  App.unparsable Date_parse (App.planned_end task) = false ->
  1000 <= YearFromTime (LocalTime tza s) <= 9999 ->
  0 <= h <= 23 -> 0 <= mi <= 59 ->
  local_exists tza (Text.at_time (Day (LocalTime tza s)) h mi) ->
  let dur := App.getTaskDurationMinutes Date_parse task in
  exists t0,
    App.timeEdit tza Date_parse task dataset_day false true
      (Text.time_string h mi)
    = [App.PATCH (App.id task)
         (App.manual_placement tza (DateAt t0)
            (App.shift (DateAt t0) (dur * 60000)))]
    /\ Day (LocalTime tza t0) = Day (LocalTime tza s)
    /\ getHours tza (DateAt t0) = Num h
    /\ getMinutes tza (DateAt t0) = Num mi.
Proof.
  intros Eps Tps Es Hend Hy Hh Hmi Hx dur. unfold YearFromTime in Hy.
  destruct (civil_from_days (Day (LocalTime tza s))) as [[y m] d] eqn:E.
  cbn [fst] in Hy.
  destruct (civil_from_days_inv _ _ _ _ E) as (Hm & Hd & Hday).
  destruct (shown_of_date s y m d E Hy) as (F & _).
  destruct (time_parts_of_string h mi ltac:(lia) ltac:(lia)) as (_ & Tt).
  assert (Hx' : local_exists tza (Text.local_time_of y m d h mi))
    by (unfold Text.local_time_of; now rewrite Hday).
  destruct (Date_of_fields_local tza y m d h mi ltac:(lia) Hm Hx')
    as (Hdate & Hl).
  unfold Text.local_time_of in Hdate, Hl. rewrite Hday in Hdate, Hl.
  exists (UTC tza (Text.at_time (Day (LocalTime tza s)) h mi)).
  assert (Ht : 0 <= MakeTime h mi 0 0 < msPerDay)
    by (unfold MakeTime, msPerDay, msPerHour, msPerMinute, msPerSecond; lia).
  split; [| split; [| split]].
  - unfold App.timeEdit, App.field_truthy, App.formatTimeRange_throws,
      App.field_truthy.
    rewrite Eps, Tps. cbn [option_map].
    assert (Hstart : App.unparsable Date_parse (Some ps) = false)
      by (unfold App.unparsable; rewrite Tps, Es; reflexivity).
    rewrite Hstart, Hend, Tt. cbn [andb orb negb]. rewrite Es, F.
    rewrite parse_of_strings by lia. rewrite Hdate.
    now rewrite end_after_shift.
  - rewrite Hl. unfold Text.at_time. now apply Day_MakeDate.
  - unfold getHours, local_field. rewrite Hl. f_equal.
    generalize (Day (LocalTime tza s)). intros D.
    unfold Text.at_time, HourFromTime, MakeDate, MakeTime, msPerDay,
      msPerHour, msPerMinute, msPerSecond. Z.div_mod_to_equations. lia.
  - unfold getMinutes, local_field. rewrite Hl. f_equal.
    generalize (Day (LocalTime tza s)). intros D.
    unfold Text.at_time, MinFromTime, MakeDate, MakeTime, msPerDay,
      msPerHour, msPerMinute, msPerSecond. Z.div_mod_to_equations. lia.
Qed.

Lemma whole_minutes_duration (task : App.Task) ps pe s e n :
  App.planned_start task = Some ps -> App.planned_end task = Some pe ->
  str_truthy ps = true -> str_truthy pe = true ->
  Date_parse ps = DateAt s -> Date_parse pe = DateAt e ->
  e - s = n * 60000 -> 0 < n ->
  App.getTaskDurationMinutes Date_parse task = n.
Proof.
  intros Eps Epe Tps Tpe Es Ee Hn Hpos. unfold App.getTaskDurationMinutes.
  rewrite Eps, Epe, Tps, Tpe, Es, Ee.
  cbn [andb getTime num_sub Math_round_div].
  rewrite (rounded_minutes (e - s) n) by lia.
  now replace (0 <? n) with true by (symmetry; apply Z.ltb_lt; lia).
Qed.

(** X12. Moving a task never changes its length: when planned_start and
    planned_end of a task parse as dates a positive whole number of
    minutes apart, every request sent by dropping it on a day, dropping
    it on a slot or editing its time places it so that the new end is
    the new start moved by as much as the old end is after the old
    start. *)
Theorem move_keeps_length (ui : App.Panel) (a : App.UiAction)
  (task : App.Task) (ps pe : string) (s e n : Z) (r : App.Request) :
  App.moved_task ui a = Some task ->
  App.planned_start task = Some ps -> App.planned_end task = Some pe ->
  str_truthy ps = true -> str_truthy pe = true ->
  Date_parse ps = DateAt s -> Date_parse pe = DateAt e ->
  e - s = n * 60000 -> 0 < n ->
  In r (App.perform tza Date_parse ui a) ->
  exists start,
    r = App.PATCH (App.id task)
          (App.manual_placement tza start (App.shift start (e - s))).
Proof.
  intros Hmoved Eps Epe Tps Tpe Es Ee Hn Hpos Hin.
  pose proof (whole_minutes_duration task ps pe s e n Eps Epe Tps Tpe Es Ee
                Hn Hpos) as Hdur.
  rewrite Hn.
  destruct a; cbn [App.moved_task] in Hmoved; try discriminate;
    cbn [App.perform] in Hin.
  - destruct (str_truthy (App.dropped_id ev)) eqn:Tev; [| discriminate].
    unfold App.handleDropOnDay in Hin. rewrite Tev, Hmoved in Hin.
    cbn [negb] in Hin. request_cases; subst r; rewrite Hdur, end_after_shift;
      eexists; reflexivity.
  - destruct (str_truthy (App.dropped_id ev)) eqn:Tev; [| discriminate].
    unfold App.handleDropOnSlot in Hin. rewrite Tev, Hmoved in Hin.
    cbn [negb] in Hin. request_cases; subst r; rewrite Hdur, end_after_shift;
      eexists; reflexivity.
  - injection Hmoved as <-.
    unfold App.timeEdit in Hin. request_cases; subst r;
      rewrite Hdur, end_after_shift; eexists; reflexivity.
Qed.

Lemma duration_not_zero (task : App.Task) :
  App.getTaskDurationMinutes Date_parse task <> 0.
Proof.
  clear tza.
  assert (Hfb : App.number_or (App.estimate_minutes task) 30 <> 0).
  { unfold App.number_or. destruct (App.estimate_minutes task) as [m|];
      [| lia].
    destruct (m =? 0) eqn:E; [lia | now apply Z.eqb_neq in E]. }
  unfold App.getTaskDurationMinutes.
  destruct (App.planned_start task) as [ps|]; [| exact Hfb].
  destruct (App.planned_end task) as [pe|]; [| exact Hfb].
  destruct (str_truthy ps && str_truthy pe); [| exact Hfb].
  destruct (Math_round_div
              (num_sub (getTime (Date_parse pe)) (getTime (Date_parse ps)))
              60000) as [|n]; [exact Hfb|].
  destruct (0 <? n) eqn:E; [| exact Hfb].
  apply Z.ltb_lt in E. lia.
Qed.

(** X13. Pressing "move" right after selecting a planned task asks for
    the placement it has: for a task of the index with a non-zero
    identifier whose planned_start parses as a date with a local year
    from 1000 to 9999 and a local time that, cut to the minute, exists
    in the zone, the form filled by [setSelectedTask] makes [handleMove]
    send as planned_start the very text [toLocalIsoString] gives for the
    current start, and as planned_end that moment, at zero seconds,
    moved by the current duration (a number of minutes that [String]
    writes with all its digits). *)
Theorem select_then_move (now : JsDate) (ui : App.Panel)
  (buttons : App.Buttons) (task : App.Task) (ps : string) (s : Z) :
  App.taskIndex_get (App.taskIndex ui) (ToString (Num (App.id task)))
  = Some task ->
  App.id task <> 0 ->
  App.planned_start task = Some ps -> str_truthy ps = true ->
  Date_parse ps = DateAt s ->
  1000 <= YearFromTime (LocalTime tza s) <= 9999 ->
  local_exists tza (Text.to_minute (LocalTime tza s)) ->
  Z.abs (App.getTaskDurationMinutes Date_parse task) < 10 ^ 21 ->
  let dur := App.getTaskDurationMinutes Date_parse task in
  exists u,
    App.handleMove tza Date_parse
      (fst (App.setSelectedTask tza Date_parse now ui buttons (Some task)))
    = [App.PATCH (App.id task)
         (App.manual_placement tza (DateAt u)
            (App.shift (DateAt u) (dur * 60000)))]
    /\ LocalTime tza u = Text.to_minute (LocalTime tza s)
    /\ App.toLocalIsoString tza (DateAt u) = App.toLocalIsoString tza (DateAt s).
Proof.
  intros Hget Hid Eps Tps Es Hy Hx _ dur. unfold YearFromTime in Hy.
  destruct (civil_from_days (Day (LocalTime tza s))) as [[y m] d] eqn:E.
  cbn [fst] in Hy.
  destruct (shown_of_date s y m d E Hy) as (F & _).
  destruct (civil_from_days_inv _ _ _ _ E) as (Hm & Hd & _).
  destruct (hour_minute_range (LocalTime tza s)) as (Hh & Hmi).
  destruct (date_parts_of_string y m d Hy ltac:(lia) ltac:(lia)) as (_ & Td).
  destruct (time_parts_of_string (HourFromTime (LocalTime tza s))
              (MinFromTime (LocalTime tza s)) ltac:(lia) ltac:(lia))
    as (_ & Tt).
  destruct (parse_local_fields s y m d E Hy Hx) as (Hparse & Hiso).
  destruct (local_exists_date tza _ Hx) as (_ & Hl).
  pose proof (duration_not_zero task) as Hdur. fold dur in Hdur.
  exists (UTC tza (Text.to_minute (LocalTime tza s))).
  split; [| split; [exact Hl | exact Hiso]].
  unfold App.setSelectedTask, App.updateSelectedTaskInfo_throws,
    App.field_truthy, App.unparsable.
  rewrite Eps, Tps, Es. cbn [andb App.is_invalid fst].
  unfold App.fillMoveInputs. rewrite Eps, Tps, Es. cbn [fst snd]. fold dur.
  replace (dur =? 0) with false by (symmetry; now apply Z.eqb_neq).
  unfold App.handleMove, App.getSelectedTask.
  cbn [App.selectedTaskId App.taskIndex App.moveDate App.moveTime
         App.moveMinutes].
  replace (App.id task =? 0) with false by (symmetry; now apply Z.eqb_neq).
  rewrite Hget, F. unfold getHours, getMinutes, local_field.
  rewrite formatTimeInput_string by lia. rewrite Td, Tt. cbn [negb orb].
  rewrite Hparse.
  rewrite parseInt10_ToString. cbn [num_truthy].
  replace (dur =? 0) with false by (symmetry; now apply Z.eqb_neq).
  cbn [negb]. now rewrite end_after_shift.
Qed.

End FormatFacts.

(** * More of the web client: what the handlers send *)

Section RequestFacts.

Variable tza : Z -> bool -> Z.
Variable Date_parse : string -> JsDate.

Lemma getSelectedTask_known ui task :
  App.getSelectedTask ui = Some task ->
  exists key, App.taskIndex_get (App.taskIndex ui) key = Some task.
Proof.
  unfold App.getSelectedTask.
  destruct (App.selectedTaskId ui) as [k|]; [| discriminate].
  destruct (k =? 0); [discriminate|]. eauto.
Qed.

Ltac known_task :=
  right;
  match goal with
  | Hx : App.taskIndex_get _ ?k = Some ?t |- _ =>
      exists k, t; split; [exact Hx | reflexivity]
  end.

(** X14. A request is always about a task the page knows: the task of
    the element the action was made on, or a task found in the index.
    In particular an action sends nothing when the index is empty and
    the action is not made on a rendered task. *)
Theorem requests_target_known_tasks (ui : App.Panel) (a : App.UiAction)
  (r : App.Request) :
  In r (App.perform tza Date_parse ui a) ->
  (exists t, App.carried_task a = Some t /\ App.target r = App.id t)
  \/ (exists key t, App.taskIndex_get (App.taskIndex ui) key = Some t
                    /\ App.target r = App.id t).
Proof.
  intros H. destruct a; cbn [App.perform] in H.
  - unfold App.handleDropOnDay in H. request_cases; subst r. known_task.
  - unfold App.handleDropOnSlot in H. request_cases; subst r. known_task.
  - unfold App.handleDropOnBacklog in H. request_cases; subst r. known_task.
  - unfold App.handleDropOnTask in H. request_cases; subst r; known_task.
  - unfold App.priorityClick in H. request_cases; subst r. left. eexists. split; reflexivity.
  - unfold App.titleEdit in H. request_cases; subst r. left. eexists. split; reflexivity.
  - unfold App.timeEdit in H. request_cases; subst r; left; eexists; split; reflexivity.
  - unfold App.notesEdit in H. request_cases; subst r; left; eexists; split; reflexivity.
  - unfold App.handleMarkDone in H.
    destruct (App.getSelectedTask ui) as [task|] eqn:E; [| destruct H].
    destruct (getSelectedTask_known ui task E) as (key & Hk).
    request_cases; subst r. known_task.
  - unfold App.handleDelete in H.
    destruct (App.getSelectedTask ui) as [task|] eqn:E; [| destruct H].
    destruct (getSelectedTask_known ui task E) as (key & Hk).
    request_cases; subst r. known_task.
  - unfold App.handleUnschedule in H.
    destruct (App.getSelectedTask ui) as [task|] eqn:E; [| destruct H].
    destruct (getSelectedTask_known ui task E) as (key & Hk).
    request_cases; subst r. known_task.
  - unfold App.handleMove in H.
    destruct (App.getSelectedTask ui) as [task|] eqn:E; [| destruct H].
    destruct (getSelectedTask_known ui task E) as (key & Hk).
    request_cases; subst r; known_task.
Qed.

(** X15. A request changes one thing: its body sets exactly one of
    title, notes, priority and is_done and no placement field, or it
    sets the placement (with schedule_source "manual") and none of the
    four.  A title is never sent empty or null, and notes are sent as
    null instead of an empty text. *)
Theorem one_change_per_request (ui : App.Panel) (a : App.UiAction)
  (taskId : Z) (body : App.Payload) :
  In (App.PATCH taskId body) (App.perform tza Date_parse ui a) ->
  ((App.plain_keys body = 1
    /\ App.p_planned_start body = App.Omitted
    /\ App.p_planned_end body = App.Omitted
    /\ App.p_schedule_source body = App.Omitted)
   \/ (App.plain_keys body = 0
       /\ App.p_planned_start body <> App.Omitted
       /\ App.p_planned_end body <> App.Omitted
       /\ App.p_schedule_source body = App.Value "manual"))
  /\ App.p_title body <> App.Null
  /\ (forall s, App.p_title body = App.Value s -> str_truthy s = true)
  /\ (forall s, App.p_notes body = App.Value s -> str_truthy s = true).
Proof.
  intros H. destruct a; cbn [App.perform] in H.
  - unfold App.handleDropOnDay in H. request_cases; injection H as <- <-;
      (split; [right; repeat split; discriminate
              | repeat split; intros; discriminate]).
  - unfold App.handleDropOnSlot in H. request_cases; injection H as <- <-;
      (split; [right; repeat split; discriminate
              | repeat split; intros; discriminate]).
  - unfold App.handleDropOnBacklog in H. request_cases; injection H as <- <-;
      (split; [right; repeat split; discriminate
              | repeat split; intros; discriminate]).
  - unfold App.handleDropOnTask in H. request_cases; injection H as <- <-;
      (split; [right; repeat split; discriminate
              | repeat split; intros; discriminate]).
  - unfold App.priorityClick in H. request_cases; injection H as <- <-;
      (split; [left; repeat split
              | repeat split; intros; discriminate]).
  - unfold App.titleEdit in H.
    destruct editing; [destruct H|].
    destruct (negb save || negb (str_truthy (trim input))
              || String.eqb (trim input) (App.title task)) eqn:E;
      [destruct H|].
    destruct H as [H | []]. injection H as <- <-.
    apply orb_false_iff in E. destruct E as [E _].
    apply orb_false_iff in E. destruct E as [_ E].
    apply negb_false_iff in E.
    split; [left; repeat split |].
    cbn [App.p_title App.p_notes].
    repeat split; intros; try discriminate. congruence.
  - unfold App.timeEdit in H. request_cases; injection H as <- <-;
      (split; [right; repeat split; discriminate
              | repeat split; intros; discriminate]).
  - unfold App.notesEdit in H.
    destruct editing; [destruct H|].
    destruct save; cbn [negb] in H; [| destruct H].
    destruct (str_truthy (trim input)) eqn:E.
    + request_cases; injection H as <- <-;
        (split; [left; repeat split |]);
        cbn [App.p_title App.p_notes];
        repeat split; intros; try discriminate; congruence.
    + request_cases; injection H as <- <-;
        (split; [left; repeat split |]);
        cbn [App.p_title App.p_notes];
        repeat split; intros; discriminate.
  - unfold App.handleMarkDone in H. request_cases; injection H as <- <-;
      (split; [left; repeat split
              | repeat split; intros; discriminate]).
  - unfold App.handleDelete in H. request_cases; discriminate.
  - unfold App.handleUnschedule in H. request_cases; injection H as <- <-;
      (split; [right; repeat split; discriminate
              | repeat split; intros; discriminate]).
  - unfold App.handleMove in H. request_cases; injection H as <- <-;
      (split; [right; repeat split; discriminate
              | repeat split; intros; discriminate]).
Qed.

(** X16. The selection: after [clearSelection] no task is selected, the
    four action buttons are disabled and the four button handlers send
    nothing; after a click on a task of the index whose identifier is
    not zero that task is the selected one, and "done", "delete" and
    "move" are enabled when [updateSelectedTaskInfo] does not throw;
    when it throws the buttons stay as they were. *)
Theorem selection_round_trip (now : JsDate) (ui : App.Panel)
  (buttons : App.Buttons) :
  (App.getSelectedTask (fst (App.clearSelection ui)) = None
   /\ snd (App.clearSelection ui)
      = {| App.markDone_disabled := true; App.deleteTask_disabled := true;
           App.moveTask_disabled := true;
           App.unscheduleTask_disabled := true |}
   /\ forall a, a = App.ClickMarkDone \/ (exists c, a = App.ClickDelete c)
                \/ a = App.ClickUnschedule \/ a = App.ClickMove ->
                App.perform tza Date_parse (fst (App.clearSelection ui)) a = [])
  /\ (forall task,
        App.taskIndex_get (App.taskIndex ui) (ToString (Num (App.id task)))
        = Some task ->
        App.id task <> 0 ->
        let after := App.setSelectedTask tza Date_parse now ui buttons
                       (Some task) in
        App.getSelectedTask (fst after) = Some task
        /\ (App.updateSelectedTaskInfo_throws Date_parse task = false ->
            App.markDone_disabled (snd after) = false
            /\ App.deleteTask_disabled (snd after) = false
            /\ App.moveTask_disabled (snd after) = false)
        /\ (App.updateSelectedTaskInfo_throws Date_parse task = true ->
            snd after = buttons)).
Proof.
  split.
  - split; [reflexivity | split; [reflexivity|]].
    intros a [-> | [(c & ->) | [-> | ->]]]; reflexivity.
  - intros task Hget Hid after. subst after.
    unfold App.setSelectedTask, App.fillMoveInputs, App.getSelectedTask.
    destruct (App.updateSelectedTaskInfo_throws Date_parse task);
      cbn [fst snd App.selectedTaskId App.taskIndex];
      replace (App.id task =? 0) with false
        by (symmetry; now apply Z.eqb_neq);
      rewrite Hget; repeat split; intros; try discriminate; reflexivity.
Qed.

End RequestFacts.


(** * More of the web client: requests on the wire *)

Section WireFacts.

Variable tza : Z -> bool -> Z.
Variable Date_parse : string -> JsDate.

(** Headers that carry the token, and the service key only when there
    is one. *)
Lemma buildHeaders_some auth hs :
  App.buildHeaders auth = Some hs ->
  str_truthy (trim (App.apiKey_value auth)) = true
  /\ In ("Authorization", "Bearer " ++ trim (App.apiKey_value auth)) hs
  /\ (forall v, In ("X-API-Key", v) hs ->
                v = trim (App.serviceKey_value auth) /\ str_truthy v = true)
  /\ (forall v, In ("Content-Type", v) hs -> False).
Proof.
  unfold App.buildHeaders.
  destruct (str_truthy (trim (App.apiKey_value auth))) eqn:Et;
    cbn [negb]; [| discriminate].
  destruct (str_truthy (trim (App.serviceKey_value auth))) eqn:Es;
    intros H; injection H as <-; cbn [app In].
  - split; [reflexivity|]. split; [now left|]. split.
    + intros v [Hv | [Hv | []]]; [discriminate|].
      injection Hv as <-. split; [reflexivity | exact Es].
    + intros v [Hv | [Hv | []]]; discriminate.
  - split; [reflexivity|]. split; [now left|]. split.
    + intros v [Hv | []]; discriminate.
    + intros v [Hv | []]; discriminate.
Qed.

Lemma on_wire_headers auth r h :
  App.on_wire auth r = Some h ->
  exists hs, App.buildHeaders auth = Some hs
    /\ (App.http_headers h = hs
        \/ App.http_headers h
           = (hs ++ [("Content-Type", "application/json")])%list).
Proof.
  destruct r; cbn [App.on_wire]; unfold App.patchTask, App.deleteTask;
    destruct (App.buildHeaders auth) as [hs|]; try discriminate;
    intros H; injection H as <-; exists hs; cbn [App.http_headers]; auto.
Qed.

Lemma send_all_sent auth accepted reqs :
  forall n h, In h (fst (App.send_all auth accepted n reqs)) ->
              exists r, In r reqs /\ App.on_wire auth r = Some h.
Proof.
  induction reqs as [|r reqs IH]; intros n h; cbn [App.send_all].
  - intros [].
  - destruct (App.on_wire auth r) as [h0|] eqn:E; [| intros []].
    destruct (accepted n).
    + destruct (App.send_all auth accepted (S n) reqs) as [sent fin] eqn:Es.
      cbn [fst]. intros [<- | Hin].
      * exists r. split; [now left | exact E].
      * destruct (IH (S n) h) as (r' & Hr & Hw); [now rewrite Es|].
        exists r'. split; [now right | exact Hw].
    + cbn [fst]. intros [<- | []]. exists r. split; [now left | exact E].
Qed.

Lemma loadWeek_headers rev auth weekStart h :
  In h (App.loadWeek tza rev auth weekStart) ->
  App.buildHeaders auth = Some (App.http_headers h).
Proof.
  unfold App.loadWeek. destruct (App.buildHeaders auth) as [hs|]; [| intros []].
  destruct (App.is_invalid (App.addDays tza weekStart 0)
            || App.is_invalid (App.addDays tza weekStart 6)); [intros []|].
  destruct rev.
  - intros H. apply in_app_or in H. destruct H as [H | [<- | []]].
    + apply in_map_iff in H. destruct H as (day & <- & _). reflexivity.
    + reflexivity.
  - intros [<- | []]. reflexivity.
Qed.

(** X17. Nothing goes on the wire without the token: every request an
    action sends, mutation or reload, carries the header
    "Authorization: Bearer" followed by the trimmed token, which is not
    empty, and an "X-API-Key" header only with the trimmed, non-empty
    service key; with a token that is empty once white space is trimmed
    an action sends nothing at all.  This holds in both revisions of the
    script. *)
Theorem requests_carry_token (rev : App.Revision) (auth : App.AuthInputs)
  (accepted : nat -> bool) (weekStart : JsDate) (ui : App.Panel)
  (a : App.UiAction) :
  (forall h,
     In h (App.dispatch tza Date_parse rev auth accepted weekStart ui a) ->
     str_truthy (trim (App.apiKey_value auth)) = true
     /\ In ("Authorization", "Bearer " ++ trim (App.apiKey_value auth))
           (App.http_headers h)
     /\ (forall v, In ("X-API-Key", v) (App.http_headers h) ->
                   v = trim (App.serviceKey_value auth)
                   /\ str_truthy v = true))
  /\ (str_truthy (trim (App.apiKey_value auth)) = false ->
      App.dispatch tza Date_parse rev auth accepted weekStart ui a = []).
Proof.
  assert (Hall : forall reqs h,
            In h (App.runAction tza rev auth accepted weekStart reqs) ->
            exists hs, App.buildHeaders auth = Some hs
              /\ (App.http_headers h = hs
                  \/ App.http_headers h
                     = (hs ++ [("Content-Type", "application/json")])%list)).
  { intros reqs h. unfold App.runAction.
    destruct (App.send_all auth accepted 0 reqs) as [sent fin] eqn:Es.
    assert (Hsent : In h sent -> exists r, In r reqs /\ App.on_wire auth r = Some h)
      by (intros Hin; apply (send_all_sent auth accepted reqs 0 h);
          now rewrite Es).
    intros Hin.
    assert (Hcases : In h sent \/ In h (App.loadWeek tza rev auth weekStart)).
    { destruct fin; [apply in_app_or in Hin; exact Hin | now left]. }
    destruct Hcases as [Hs | Hl].
    - destruct (Hsent Hs) as (r & _ & Hw). now apply (on_wire_headers auth r).
    - exists (App.http_headers h).
      split; [now apply (loadWeek_headers rev auth weekStart) | now left]. }
  split.
  - intros h Hin.
    assert (Hrun : exists reqs,
              In h (App.runAction tza rev auth accepted weekStart reqs)).
    { unfold App.dispatch in Hin.
      destruct (App.has_handler rev a); [| destruct Hin].
      destruct (App.perform tza Date_parse ui a) as [|r reqs];
        [destruct Hin | eauto]. }
    destruct Hrun as (reqs & Hrun).
    destruct (Hall reqs h Hrun) as (hs & Hb & Hh).
    destruct (buildHeaders_some auth hs Hb) as (Ht & Ha & Hk & Hc).
    split; [exact Ht|].
    destruct Hh as [-> | ->].
    + split; [exact Ha | exact Hk].
    + split; [apply in_or_app; now left|].
      intros v Hv. apply in_app_or in Hv. destruct Hv as [Hv | [Hv | []]];
        [now apply Hk | discriminate].
  - intros Hempty.
    assert (Hb : App.buildHeaders auth = None)
      by (unfold App.buildHeaders; now rewrite Hempty).
    unfold App.dispatch.
    destruct (App.has_handler rev a); [| reflexivity].
    destruct (App.perform tza Date_parse ui a) as [|r reqs]; [reflexivity|].
    unfold App.runAction. cbn [App.send_all].
    assert (Hw : App.on_wire auth r = None)
      by (destruct r; cbn [App.on_wire]; unfold App.patchTask, App.deleteTask;
          now rewrite Hb).
    now rewrite Hw.
Qed.





End WireFacts.

(** * More of the web client: drag and drop *)

Section DragFacts.

Lemma ToString_truthy k : str_truthy (ToString (Num k)) = true.
Proof.
  unfold ToString. destruct (k <? 0) eqn:E; [reflexivity|].
  apply Z.ltb_ge in E. unfold decimal.
  destruct (digits_head (Z.to_nat (Z.log2 k)) k "" E) as (d & rest & _ & ->).
  reflexivity.
Qed.

Lemma dragged_id taskId ok :
  App.dropped_id (App.handleDragStart taskId ok) = ToString (Num taskId).
Proof.
  unfold App.dropped_id, App.handleDragStart. cbn [App.data_task_id App.data_plain].
  destruct ok; [now rewrite ToString_truthy | reflexivity].
Qed.

(** X19. A drag that ends on the backlog is about the dragged task: for
    a rendered task, whether or not the browser accepts the custom data
    type, the drop finds that very task in the index, and sends the
    request that removes its placement when it has a planned_start and
    nothing when it has none. *)
Theorem drag_to_backlog (idx : App.TaskIndex) (task : App.Task)
  (custom_type_ok : bool) :
  let ev := App.handleDragStart (App.id task) custom_type_ok in
  App.taskIndex_get (App.registerTask idx task) (App.dropped_id ev) = Some task
  /\ App.handleDropOnBacklog (App.registerTask idx task) ev
     = (if App.field_truthy (App.planned_start task)
        then [App.PATCH (App.id task) App.unschedule_body]
        else []).
Proof.
  intros ev. subst ev.
  assert (Hget : App.taskIndex_get (App.registerTask idx task)
                   (ToString (Num (App.id task))) = Some task).
  { unfold App.registerTask. cbn [App.taskIndex_get].
    now rewrite String.eqb_refl. }
  split.
  - now rewrite dragged_id.
  - unfold App.handleDropOnBacklog. rewrite dragged_id, ToString_truthy, Hget.
    cbn [negb]. now destruct (App.field_truthy (App.planned_start task)).
Qed.

End DragFacts.

(** * More of the web client: where a drop lands *)

Section DropFacts.

Variable tza : Z -> bool -> Z.
Variable Date_parse : string -> JsDate.

(** X20. A drop on a time slot is handled twice: the listener of the
    slot calls [handleDropOnSlot] and, as nothing stops the event, the
    listener of the day card around it then calls [handleDropOnDay].
    Whenever the first sends a request, the second sends one too, for
    the same task and the same day: the first asks for the time of the
    slot, the second for the hours and minutes of the planned_start the
    task has in the index (09:00 when it has none). *)
Theorem drop_on_slot_reaches_day (ui : App.Panel) (ev : App.DropEvent)
  (dayStr timeStr : string) (r : App.Request) :
  In r (App.handleDropOnSlot tza Date_parse (App.taskIndex ui) ev
          dayStr timeStr) ->
  exists task at_slot,
    App.taskIndex_get (App.taskIndex ui) (App.dropped_id ev) = Some task
    /\ App.parseLocalDateTime tza dayStr timeStr = Some at_slot
    /\ let dur := App.getTaskDurationMinutes Date_parse task in
       let hm :=
         match App.planned_start task with
         | Some ps =>
             if str_truthy ps
             then (getHours tza (Date_parse ps),
                   getMinutes tza (Date_parse ps))
             else (Num 9, Num 0)
         | None => (Num 9, Num 0)
         end in
       let parts := App.date_parts dayStr in
       let at_old_time :=
         Date_of_fields tza (App.elem_num (nth_error parts 0))
           (num_sub (App.elem_num (nth_error parts 1)) (Num 1))
           (App.elem_num (nth_error parts 2))
           (fst hm) (snd hm) (Num 0) (Num 0) in
       flat_map (App.perform tza Date_parse ui)
         (App.drop_calls ev (App.SlotRow dayStr timeStr))
       = [App.PATCH (App.id task)
            (App.manual_placement tza at_slot
               (App.shift at_slot (dur * 60000)));
          App.PATCH (App.id task)
            (App.manual_placement tza at_old_time
               (App.shift at_old_time (dur * 60000)))].
Proof.
  intros Hin. unfold App.handleDropOnSlot in Hin.
  destruct (str_truthy (App.dropped_id ev)) eqn:Tev; [| destruct Hin].
  cbn [negb] in Hin.
  destruct (App.taskIndex_get (App.taskIndex ui) (App.dropped_id ev))
    as [task|] eqn:Hget; [| destruct Hin].
  destruct (App.parseLocalDateTime tza dayStr timeStr) as [at_slot|] eqn:Hp;
    [| destruct Hin].
  exists task, at_slot. split; [reflexivity|]. split; [reflexivity|].
  cbv zeta.
  assert (Hparts :
            negb (App.elem_truthy (nth_error (App.date_parts dayStr) 0))
            || negb (App.elem_truthy (nth_error (App.date_parts dayStr) 1))
            || negb (App.elem_truthy (nth_error (App.date_parts dayStr) 2))
            = false).
  { unfold App.parseLocalDateTime in Hp. unfold App.date_parts.
    destruct (negb (str_truthy dayStr) || negb (str_truthy timeStr));
      [discriminate|].
    cbv zeta in Hp.
    destruct (negb (App.elem_truthy
                      (nth_error (map ToNumber (split "-" dayStr)) 0))
              || negb (App.elem_truthy
                         (nth_error (map ToNumber (split "-" dayStr)) 1))
              || negb (App.elem_truthy
                         (nth_error (map ToNumber (split "-" dayStr)) 2)));
      [discriminate | reflexivity]. }
  cbn [App.drop_calls flat_map App.perform app].
  unfold App.handleDropOnSlot, App.handleDropOnDay.
  rewrite Tev, Hget, Hp. cbn [negb]. cbv zeta. rewrite Hparts.
  rewrite app_nil_r. cbn [app]. now rewrite !end_after_shift.
Qed.

End DropFacts.

(** * More examples *)

Section MoreExamples.

Import Samples.

Ltac exists_utc :=
  apply fixed_offset_exists; vm_compute; discriminate.

(** Wednesday 6 March 2024, noon in Universal time, moved by a week. *)
Lemma addDays_whole_days_witness :
  exists u,
    App.addDays utc (DateAt 1709726400000) 7 = DateAt u
    /\ Day (LocalTime utc u) = Day (LocalTime utc 1709726400000) + 7.
Proof.
  assert (Hx : local_exists utc (LocalTime utc 1709726400000 + 7 * msPerDay))
    by exists_utc.
  destruct (addDays_whole_days utc 1709726400000 7 Hx)
    as (u & Eu & _ & _ & Hd & _).
  exists u. split; [exact Eu | exact Hd].
Defined.

(** From that Wednesday, "next week" twice and "previous week" once. *)
Lemma weekStart_is_monday_witness :
  exists m,
    App.weekStart_after utc (DateAt 1709726400000)
      [App.NextWeek; App.NextWeek; App.PrevWeek] = DateAt m
    /\ getDay utc (DateAt m) = Num 1
    /\ getHours utc (DateAt m) = Num 0.
Proof.
  assert (H0 : local_exists utc
                 (Text.midnight (Day (LocalTime utc 1709726400000))))
    by exists_utc.
  assert (Hweeks : forall k,
            - Z.of_nat (List.length [App.NextWeek; App.NextWeek; App.PrevWeek])
              <= k
              <= Z.of_nat (List.length [App.NextWeek; App.NextWeek; App.PrevWeek]) ->
            local_exists utc
              (Text.midnight
                 (Text.monday_of (Day (LocalTime utc 1709726400000)) + 7 * k))).
  { intros k Hk. apply fixed_offset_exists.
    change (Text.monday_of (Day (LocalTime utc 1709726400000))) with 19786.
    change (Z.of_nat (List.length [App.NextWeek; App.NextWeek; App.PrevWeek]))
      with 3 in Hk.
    unfold Text.midnight, MakeDate. change msPerDay with 86400000.
    change maxTime with 8640000000000000. lia. }
  destruct (weekStart_is_monday utc 1709726400000
              [App.NextWeek; App.NextWeek; App.PrevWeek] H0 Hweeks)
    as (m & k & Em & _ & Hday & Hh & _).
  exists m. split; [exact Em | split; [exact Hday | exact Hh]].
Defined.

(** The week of that Wednesday starts on Monday 4 March 2024. *)
Lemma weekDays_cover_the_week_witness :
  nth_error (App.weekDays utc (App.startOfWeek utc (DateAt 1709726400000))) 0
  = Some (DateAt 1709510400000).
Proof.
  assert (H0 : local_exists utc
                 (Text.midnight (Day (LocalTime utc 1709726400000))))
    by exists_utc.
  assert (Hdays : forall i, 0 <= i <= 6 ->
            local_exists utc
              (Text.midnight
                 (Text.monday_of (Day (LocalTime utc 1709726400000)) + i))).
  { intros i Hi. apply fixed_offset_exists.
    change (Text.monday_of (Day (LocalTime utc 1709726400000))) with 19786.
    unfold Text.midnight, MakeDate. change msPerDay with 86400000.
    change maxTime with 8640000000000000. lia. }
  destruct (weekDays_cover_the_week utc 1709726400000 H0 Hdays) as (Hweek & _).
  rewrite Hweek. reflexivity.
Defined.

(** A task without placement and with a negative estimate has a negative
    duration, not zero; the sample task has a positive one. *)
Lemma getTaskDurationMinutes_not_zero_witness :
  0 < App.getTaskDurationMinutes sample_parse sample_task.
Proof.
  apply (proj2 (getTaskDurationMinutes_not_zero sample_parse sample_task)).
  intros m Hm. injection Hm as <-. lia.
Defined.

(** 4 March 2024, 12:05:45.678 three hours east of Greenwich comes back
    as 12:05:00.000. *)
Lemma format_then_parse_witness :
  exists u,
    App.parseLocalDateTime east3 "2024-03-04" "12:05" = Some (DateAt u)
    /\ LocalTime east3 u = Text.to_minute (LocalTime east3 1709543145678).
Proof.
  assert (Hy : 1000 <= YearFromTime (LocalTime east3 1709543145678) <= 9999)
    by (vm_compute; split; discriminate).
  assert (Hx : local_exists east3
                 (Text.to_minute (LocalTime east3 1709543145678)))
    by exists_utc.
  destruct (format_then_parse east3 1709543145678 Hy Hx)
    as (u & Eu & Hl & _).
  exists u. split; [exact Eu | exact Hl].
Defined.

(** The same moment gives the key "2024-03-04", which parses to the
    local midnight of 4 March. *)
Lemma parseDateKey_isoDate_witness :
  App.parseDateKey east3 "2024-03-04" = Some (DateAt 1709499600000).
Proof.
  apply (parseDateKey_isoDate east3 1709543145678).
  vm_compute. split; discriminate.
Defined.


(** The sample task dropped on 6 March keeps 09:00 and its 45 minutes. *)
Lemma drop_on_day_keeps_time_witness :
  exists t0,
    App.handleDropOnDay utc sample_parse (App.taskIndex sample_panel)
      sample_drop "2024-03-06"
    = [App.PATCH 7 (App.manual_placement utc (DateAt t0)
                      (App.shift (DateAt t0) (45 * 60000)))]
    /\ App.toLocalIsoString utc (DateAt t0) = "2024-03-06T09:00:00".
Proof.
  assert (Hy : 1000 <= 2024 <= 9999) by lia.
  assert (Hm : 1 <= 3 <= 12) by lia.
  assert (Hd : 1 <= 6 <= days_in_month 2024 3)
    by (vm_compute; split; discriminate).
  assert (Hx : local_exists utc
                 (Text.local_time_of 2024 3 6
                    (HourFromTime (LocalTime utc 1709542800000))
                    (MinFromTime (LocalTime utc 1709542800000))))
    by exists_utc.
  destruct (drop_on_day_keeps_time utc sample_parse (App.taskIndex sample_panel)
              sample_drop sample_task 2024 3 6 eq_refl eq_refl Hy Hm Hd)
    as (Hplanned & _).
  exact (Hplanned "2024-03-04T09:00:00" 1709542800000 eq_refl eq_refl eq_refl
           Hx).
Defined.

(** The sample task dropped on the row 14:30 of 6 March. *)
Lemma drop_on_slot_exact_witness :
  exists t0,
    App.handleDropOnSlot utc sample_parse (App.taskIndex sample_panel)
      sample_drop "2024-03-06" "14:30"
    = [App.PATCH 7 (App.manual_placement utc (DateAt t0)
                      (App.shift (DateAt t0) (45 * 60000)))]
    /\ App.toLocalIsoString utc (DateAt t0) = "2024-03-06T14:30:00".
Proof.
  assert (Hy : 1000 <= 2024 <= 9999) by lia.
  assert (Hm : 1 <= 3 <= 12) by lia.
  assert (Hd : 1 <= 6 <= days_in_month 2024 3)
    by (vm_compute; split; discriminate).
  assert (Hh : 0 <= 14 <= 23) by lia.
  assert (Hmi : 0 <= 30 <= 59) by lia.
  assert (Hx : local_exists utc (Text.local_time_of 2024 3 6 14 30))
    by exists_utc.
  exact (drop_on_slot_exact utc sample_parse (App.taskIndex sample_panel)
           sample_drop sample_task 2024 3 6 14 30 eq_refl eq_refl
           Hy Hm Hd Hh Hmi Hx).
Defined.

(** Entering 14:30 in the time editor of the sample task keeps it on
    4 March. *)
Lemma time_edit_same_day_witness :
  exists t0,
    App.timeEdit utc sample_parse sample_task None false true "14:30"
    = [App.PATCH 7 (App.manual_placement utc (DateAt t0)
                      (App.shift (DateAt t0) (45 * 60000)))]
    /\ Day (LocalTime utc t0) = Day (LocalTime utc 1709542800000)
    /\ getHours utc (DateAt t0) = Num 14
    /\ getMinutes utc (DateAt t0) = Num 30.
Proof.
  assert (Hy : 1000 <= YearFromTime (LocalTime utc 1709542800000) <= 9999)
    by (vm_compute; split; discriminate).
  assert (Hh : 0 <= 14 <= 23) by lia.
  assert (Hmi : 0 <= 30 <= 59) by lia.
  assert (Hx : local_exists utc
                 (Text.at_time (Day (LocalTime utc 1709542800000)) 14 30))
    by exists_utc.
  exact (time_edit_same_day utc sample_parse sample_task None
           "2024-03-04T09:00:00" 1709542800000 14 30 eq_refl eq_refl eq_refl
           eq_refl Hy Hh Hmi Hx).
Defined.

(** The sample task, 45 minutes long, dropped on the row 14:30 of
    6 March: the request still spans 45 minutes. *)
Lemma move_keeps_length_witness :
  exists start,
    App.PATCH 7 (App.manual_placement utc (DateAt 1709735400000)
                   (DateAt 1709738100000))
    = App.PATCH 7 (App.manual_placement utc start (App.shift start 2700000)).
Proof.
  assert (Hin : In (App.PATCH 7 (App.manual_placement utc (DateAt 1709735400000)
                                   (DateAt 1709738100000)))
                   (App.perform utc sample_parse sample_panel
                      (App.DropOnSlot sample_drop "2024-03-06" "14:30")))
    by (vm_compute; left; reflexivity).
  assert (Hspan : 1709545500000 - 1709542800000 = 45 * 60000) by reflexivity.
  assert (Hpos : 0 < 45) by lia.
  exact (move_keeps_length utc sample_parse sample_panel
           (App.DropOnSlot sample_drop "2024-03-06" "14:30") sample_task
           "2024-03-04T09:00:00" "2024-03-04T09:45:00"
           1709542800000 1709545500000 45 _
           eq_refl eq_refl eq_refl eq_refl eq_refl eq_refl eq_refl
           Hspan Hpos Hin).
Defined.

(** Selecting the sample task and pressing "move" sends its current
    placement, 09:00 to 09:45 of 4 March. *)
Lemma select_then_move_witness :
  exists u,
    App.handleMove utc sample_parse
      (fst (App.setSelectedTask utc sample_parse (DateAt 0) sample_panel
              (snd (App.clearSelection sample_panel)) (Some sample_task)))
    = [App.PATCH 7 (App.manual_placement utc (DateAt u)
                      (App.shift (DateAt u) (45 * 60000)))]
    /\ LocalTime utc u = 1709542800000.
Proof.
  assert (Hid : App.id sample_task <> 0) by (vm_compute; discriminate).
  assert (Hy : 1000 <= YearFromTime (LocalTime utc 1709542800000) <= 9999)
    by (vm_compute; split; discriminate).
  assert (Hx : local_exists utc
                 (Text.to_minute (LocalTime utc 1709542800000)))
    by exists_utc.
  assert (Hdur : Z.abs (App.getTaskDurationMinutes sample_parse sample_task)
                 < 10 ^ 21) by (vm_compute; reflexivity).
  destruct (select_then_move utc sample_parse (DateAt 0) sample_panel
              (snd (App.clearSelection sample_panel)) sample_task
              "2024-03-04T09:00:00" 1709542800000 eq_refl Hid eq_refl eq_refl
              eq_refl Hy Hx Hdur) as (u & Eu & Hl & _).
  exists u. split; [exact Eu | exact Hl].
Defined.

(** The request of the move form on the sample panel is about task 7,
    the task of the index. *)
Lemma requests_target_known_tasks_witness :
  (exists t, App.carried_task App.ClickMove = Some t /\ 7 = App.id t)
  \/ (exists key t,
        App.taskIndex_get (App.taskIndex sample_panel) key = Some t
        /\ 7 = App.id t).
Proof.
  assert (Hin : In (App.PATCH 7 (App.manual_placement utc (DateAt 1709634600000)
                                   (DateAt 1709637300000)))
                   (App.perform utc sample_parse sample_panel App.ClickMove))
    by (vm_compute; left; reflexivity).
  exact (requests_target_known_tasks utc sample_parse sample_panel App.ClickMove
           _ Hin).
Defined.

(** The unschedule button sets the placement and nothing else. *)
Lemma one_change_per_request_witness :
  App.plain_keys App.unschedule_body = 0
  /\ App.p_schedule_source App.unschedule_body = App.Value "manual".
Proof.
  assert (Hin : In (App.PATCH 7 App.unschedule_body)
                   (App.perform utc sample_parse sample_panel App.ClickUnschedule))
    by (vm_compute; left; reflexivity).
  destruct (one_change_per_request utc sample_parse sample_panel
              App.ClickUnschedule 7 App.unschedule_body Hin)
    as ([(Hone & _) | (Hnone & _ & _ & Hsrc)] & _).
  - vm_compute in Hone. discriminate Hone.
  - split; [exact Hnone | exact Hsrc].
Defined.

(** After a click on the sample task it is the selected one, and the
    "done" button, disabled before, is enabled. *)
Lemma selection_round_trip_witness :
  let after :=
    App.setSelectedTask utc sample_parse (DateAt 0) sample_panel
      (snd (App.clearSelection sample_panel)) (Some sample_task) in
  App.getSelectedTask (fst after) = Some sample_task
  /\ App.markDone_disabled (snd after) = false.
Proof.
  assert (Hid : App.id sample_task <> 0) by (vm_compute; discriminate).
  destruct (proj2 (selection_round_trip utc sample_parse (DateAt 0)
                     sample_panel (snd (App.clearSelection sample_panel)))
              sample_task eq_refl Hid) as (Hsel & Hon & _).
  split; [exact Hsel | exact (proj1 (Hon eq_refl))].
Defined.

(** [trim] drops the white space of the language, not only the space:
    here a no-break space, a tab, a line separator and a byte order
    mark. *)
Example trim_white_space :
  trim (bytes [194; 160; 9]%nat ++ "a b"
        ++ bytes [226; 128; 168; 239; 187; 191]%nat) = "a b".
Proof. reflexivity. Qed.

(** With every request refused, the "done" button sends one PATCH, which
    carries the token without the space and the no-break space typed
    around it. *)
Lemma requests_carry_token_witness :
  In ("Authorization", "Bearer secret")
     [("Authorization", "Bearer secret");
      ("Content-Type", "application/json")].
Proof.
  assert (Hin : In {| App.http_method := "PATCH"; App.http_url := "/tasks/7";
                      App.http_headers :=
                        [("Authorization", "Bearer secret");
                         ("Content-Type", "application/json")];
                      App.http_body :=
                        Some {| App.p_title := App.Omitted;
                                App.p_notes := App.Omitted;
                                App.p_priority := App.Omitted;
                                App.p_is_done := App.Value true;
                                App.p_planned_start := App.Omitted;
                                App.p_planned_end := App.Omitted;
                                App.p_schedule_source := App.Omitted |} |}
                   (App.dispatch utc sample_parse App.Rev1 sample_auth
                      refuse_all (DateAt 1709542800000) sample_panel
                      App.ClickMarkDone))
    by (vm_compute; left; reflexivity).
  exact (proj1 (proj2 (proj1 (requests_carry_token utc sample_parse App.Rev1
                                sample_auth refuse_all (DateAt 1709542800000)
                                sample_panel App.ClickMarkDone) _ Hin))).
Defined.


(** The sample task dropped on the row 14:30 of 6 March: a request for
    14:30 and then, from the day card, a request for 09:00. *)
Lemma drop_on_slot_reaches_day_witness :
  map (fun r => match r with
                | App.PATCH _ body => App.p_planned_start body
                | App.DELETE _ => App.Omitted
                end)
      (flat_map (App.perform utc sample_parse sample_panel)
         (App.drop_calls sample_drop (App.SlotRow "2024-03-06" "14:30")))
  = [App.Value "2024-03-06T14:30:00"; App.Value "2024-03-06T09:00:00"].
Proof.
  assert (Hin : In (App.PATCH 7 (App.manual_placement utc (DateAt 1709735400000)
                                   (DateAt 1709738100000)))
                   (App.handleDropOnSlot utc sample_parse
                      (App.taskIndex sample_panel) sample_drop
                      "2024-03-06" "14:30"))
    by (vm_compute; left; reflexivity).
  destruct (drop_on_slot_reaches_day utc sample_parse sample_panel sample_drop
              "2024-03-06" "14:30" _ Hin)
    as (task & at_slot & Hget & Hp & Hcalls).
  vm_compute in Hget. injection Hget as <-.
  vm_compute in Hp. injection Hp as <-.
  cbv zeta in Hcalls. rewrite Hcalls. vm_compute. reflexivity.
Defined.

End MoreExamples.
